(** * Marathon.py: the multi-device audit script, embedded and verified

    The development follows the source file top to bottom.  Python values
    are modelled as the script uses them:
    - a [str] is a [string]; each [ascii] stands for the code point of the
      same number (0..255), so the whitespace class is the one of
      [str.isspace] on that range;
    - a [dict] is a [gmap]; the inventory rows are dictionaries from column
      names to text;
    - exceptions are values of [exn], and a computation either returns or
      raises ([result]);
    - everything outside the interpreter (the devices reached through
      netmiko, the file system, the terminal, the clock) is a field of
      [World], threaded through the code by the monad [M].  Devices and
      file system are arbitrary functions from the calls made so far to an
      answer, so that nothing is assumed about what they return or raise;
    - the worker pool is followed on the schedule that runs the tasks one
      after the other in submission order.  What [main] collects depends
      on the outcome of each task only.

    [enable_logging] is never called by the script and is left out. *)

From stdpp Require Import gmap strings list pretty.
From Stdlib Require Import Ascii ZArith.

(** ** Python strings *)

Module PyStr.

(** [needle in hay] *)
Fixpoint contains (needle hay : string) : bool :=
  String.prefix needle hay ||
  match hay with
  | EmptyString => false
  | String _ t => contains needle t
  end.

Fixpoint drop (n : nat) (s : string) : string :=
  match n, s with
  | S k, String _ t => drop k t
  | _, _ => s
  end.

(** Leftmost occurrence of [sep] in [s]: the text before it and the text
    after it ([str.partition] without the middle component). *)
Fixpoint find (sep s : string) : option (string * string) :=
  if String.prefix sep s then Some (EmptyString, drop (String.length sep) s)
  else match s with
       | EmptyString => None
       | String c t =>
           match find sep t with
           | Some (l, r) => Some (String c l, r)
           | None => None
           end
       end.

(** [s.split(sep)] for a non-empty [sep]: cut at each occurrence found
    scanning left to right, resuming after the separator.  Every cut
    leaves a strictly shorter rest, so [S (length s)] rounds suffice. *)
Fixpoint split_aux (fuel : nat) (sep s : string) : list string :=
  match fuel with
  | O => [s]
  | S f =>
      match find sep s with
      | None => [s]
      | Some (l, r) => l :: split_aux f sep r
      end
  end.

Definition split (sep s : string) : list string :=
  split_aux (S (String.length s)) sep s.

(** [s.replace(old, new)] for a non-empty [old]. *)
Fixpoint replace_aux (fuel : nat) (old new s : string) : string :=
  match fuel with
  | O => s
  | S f =>
      match find old s with
      | None => s
      | Some (l, r) => l +:+ new +:+ replace_aux f old new r
      end
  end.

Definition replace (old new s : string) : string :=
  replace_aux (S (String.length s)) old new s.

(** [str.isspace] on one character. *)
Definition isspace (c : ascii) : bool :=
  let n := N_of_ascii c in
  ((9 <=? n)%N && (n <=? 13)%N) || ((28 <=? n)%N && (n <=? 32)%N)
  || (n =? 133)%N || (n =? 160)%N.

Definition flush (cur : string) : list string :=
  match cur with
  | EmptyString => []
  | _ => [cur]
  end.

(** [s.split()]: the maximal runs of non-whitespace characters. *)
Fixpoint split_ws_go (cur s : string) : list string :=
  match s with
  | EmptyString => flush cur
  | String c t =>
      if isspace c then flush cur ++ split_ws_go EmptyString t
      else split_ws_go (cur +:+ String c EmptyString) t
  end.

Definition split_ws (s : string) : list string := split_ws_go EmptyString s.

(** [sep.join(parts)] *)
Fixpoint join (sep : string) (parts : list string) : string :=
  match parts with
  | [] => EmptyString
  | [p] => p
  | p :: rest => p +:+ sep +:+ join sep rest
  end.

(** [s * n] *)
Fixpoint times (s : string) (n : nat) : string :=
  match n with
  | O => EmptyString
  | S k => s +:+ times s k
  end.

Definition nl : string := String (ascii_of_nat 10) EmptyString.

End PyStr.

(** ** Python run-time values *)

Module Py.

Inductive exn : Type :=
| IndexError
| KeyError (key : string)
| NameError (name : string)
| TypeError
| OSError (msg : string)          (* raised by the file system *)
| DeviceError (msg : string).     (* raised inside netmiko: timeout,
                                     authentication, prompt not found *)

Inductive result (A : Type) : Type :=
| Ok (a : A)
| Raise (e : exn).
Arguments Ok {A} a.
Arguments Raise {A} e.

Definition is_Ok {A} (r : result A) : bool :=
  match r with Ok _ => true | Raise _ => false end.

#[global] Instance result_ret : MRet result := λ A a, Ok a.
#[global] Instance result_bind : MBind result := λ A B f r,
  match r with
  | Ok a => f a
  | Raise e => Raise e
  end.

(** The audit steps return either text or [False]. *)
Inductive value : Type :=
| VStr (s : string)
| VBool (b : bool).

Definition truthy (v : value) : bool :=
  match v with
  | VStr s => negb (String.eqb s EmptyString)
  | VBool b => b
  end.

(** [a or b] *)
Definition or_ (a b : value) : value := if truthy a then a else b.

(** [l[i]], negative indices counting from the end. *)
Definition index {A} (l : list A) (i : Z) : result A :=
  let j := if (i <? 0)%Z then (i + Z.of_nat (length l))%Z else i in
  if (j <? 0)%Z then Raise IndexError
  else match l !! Z.to_nat j with
       | Some x => Ok x
       | None => Raise IndexError
       end.

(** [l.remove(x)]: drops the first occurrence. *)
Fixpoint remove (x : string) (l : list string) : list string :=
  match l with
  | [] => []
  | y :: t => if String.eqb x y then t else y :: remove x t
  end.

(** [x in l] *)
Definition mem (x : string) (l : list string) : bool :=
  existsb (String.eqb x) l.

(** Exception classes reachable through Python's builtins. *)
Inductive exn_class : Type :=
| CBaseException | CException | CLookupError | CIndexError | CKeyError
| CNameError | CTypeError | COSError.

Definition builtin_exception (name : string) : option exn_class :=
  if String.eqb name "BaseException" then Some CBaseException
  else if String.eqb name "Exception" then Some CException
  else if String.eqb name "LookupError" then Some CLookupError
  else if String.eqb name "IndexError" then Some CIndexError
  else if String.eqb name "KeyError" then Some CKeyError
  else if String.eqb name "NameError" then Some CNameError
  else if String.eqb name "TypeError" then Some CTypeError
  else if String.eqb name "OSError" then Some COSError
  else None.

Definition isinstance (e : exn) (c : exn_class) : bool :=
  match c, e with
  | CBaseException, _ | CException, _ => true
  | CLookupError, (IndexError | KeyError _) => true
  | CIndexError, IndexError => true
  | CKeyError, KeyError _ => true
  | CNameError, NameError _ => true
  | CTypeError, TypeError => true
  | COSError, OSError _ => true
  | _, _ => false
  end.

End Py.
Export Py.

(** ** The world outside the interpreter *)

(** A device reached through netmiko answers the calls made on its
    connection; what it answers may depend on everything it was asked
    before (the list holds the calls so far, the latest first). *)
Inductive call : Type :=
| Enable
| SendCommand (cmd : string)
| SendConfigSet (cmd : string).

Definition behaviour : Type := list call → result string.

Record connection : Type := mkConnection {
  device : behaviour;
  history : list call;
  is_open : bool
}.

(** The file system answers in the same way. *)
Inductive fs_call : Type :=
| PathExists (path : string)
| Mkdir (path : string)
| WriteFile (path content : string).

Record World : Type := mkWorld {
  network : string → string → string → string → result behaviour;
      (* what ConnectHandler(host, username, password, device_type) finds *)
  sessions : list connection;        (* connection objects, by handle *)
  fs : list fs_call → result bool;
  fs_log : list fs_call;             (* file-system calls so far, latest first *)
  stdout : list string;
  slept : nat;                       (* seconds spent in time.sleep *)
  script_dir : string;               (* sys.path[0] *)
  now : string;                      (* datetime.now() through strftime *)
  csv_rows : string → result (list (gmap string string))
      (* the rows csv.DictReader yields for a file *)
}.

Definition set_sessions (f : list connection → list connection) (w : World) : World :=
  mkWorld (network w) (f (sessions w)) (fs w) (fs_log w) (stdout w) (slept w)
          (script_dir w) (now w) (csv_rows w).
Definition set_fs_log (l : list fs_call) (w : World) : World :=
  mkWorld (network w) (sessions w) (fs w) l (stdout w) (slept w)
          (script_dir w) (now w) (csv_rows w).
Definition set_stdout (l : list string) (w : World) : World :=
  mkWorld (network w) (sessions w) (fs w) (fs_log w) l (slept w)
          (script_dir w) (now w) (csv_rows w).
Definition set_slept (n : nat) (w : World) : World :=
  mkWorld (network w) (sessions w) (fs w) (fs_log w) (stdout w) n
          (script_dir w) (now w) (csv_rows w).

(** ** Computations: state and exceptions *)

Definition M (A : Type) : Type := World → result A * World.

#[global] Instance M_ret : MRet M := λ A a w, (Ok a, w).
#[global] Instance M_bind : MBind M := λ A B f m w,
  match m w with
  | (Ok a, w') => f a w'
  | (Raise e, w') => (Raise e, w')
  end.

Definition raise {A} (e : exn) : M A := λ w, (Raise e, w).
Definition lift {A} (r : result A) : M A := λ w, (r, w).
Definition world : M World := λ w, (Ok w, w).

Module Builtins.

Definition print (line : string) : M unit :=
  λ w, (Ok tt, set_stdout (stdout w ++ [line]) w).

Definition sleep (seconds : nat) : M unit :=
  λ w, (Ok tt, set_slept (slept w + seconds) w).

(** Names bound at module level by the imports, assignments and function
    definitions of Marathon.py. *)
Definition module_names : list string :=
  [ "ConnectHandler"; "re"; "csv"; "sys"; "os"; "logging"; "datetime";
    "time"; "mp"; "DEVICE_FILE_PATH"; "BACKUP_DIR_PATH"; "enable_logging";
    "get_devices_from_file"; "get_current_date_and_time";
    "connect_to_device"; "disconnect_from_device"; "get_backup_file_path";
    "create_backup"; "check_cdp"; "parse_cdp_nei"; "config_ntp";
    "Check_NPE"; "Check_ver"; "Check_dev_pid"; "process_target"; "main" ].

Inductive binding : Type :=
| BoundClass (c : exn_class)
| BoundOther.

(** Name lookup for the expression of an [except] clause: module globals
    first, then the builtins. *)
Definition resolve (name : string) : option binding :=
  if mem name module_names then Some BoundOther
  else BoundClass <$> builtin_exception name.

(** [try: body except cls: handler].  The expression [cls] is evaluated
    only once [body] has raised. *)
Definition try_except {A} (body : M A) (cls : string) (handler : M A) : M A :=
  λ w,
    match body w with
    | (Ok a, w') => (Ok a, w')
    | (Raise e, w') =>
        match resolve cls with
        | None => (Raise (NameError cls), w')
        | Some BoundOther => (Raise TypeError, w')
        | Some (BoundClass c) =>
            if isinstance e c then handler w' else (Raise e, w')
        end
    end.

(** [d[key]] on an inventory row. *)
Definition getitem (d : gmap string string) (key : string) : M string :=
  match d !! key with
  | Some v => mret v
  | None => raise (KeyError key)
  end.

(** [s + v] with [s] a str. *)
Definition add (s : string) (v : value) : M string :=
  match v with
  | VStr t => mret (s +:+ t)
  | VBool _ => raise TypeError
  end.

End Builtins.
Export Builtins.

(** *** netmiko *)

Module Netmiko.

Definition ConnectHandler (host username password device_type : string) : M nat :=
  λ w,
    match network w host username password device_type with
    | Ok b => (Ok (length (sessions w)),
               set_sessions (λ l, l ++ [mkConnection b [] true]) w)
    | Raise e => (Raise e, w)
    end.

Definition method (conn : nat) (c : call) : M string :=
  λ w,
    match sessions w !! conn with
    | Some s =>
        if is_open s then
          let h := c :: history s in
          (device s h,
           set_sessions (λ l, <[conn := mkConnection (device s) h true]> l) w)
        else (Raise (DeviceError "connection closed"), w)
    | None => (Raise (DeviceError "no connection"), w)
    end.

Definition enable (conn : nat) : M string := method conn Enable.
Definition send_command (conn : nat) (cmd : string) : M string :=
  method conn (SendCommand cmd).
Definition send_config_set (conn : nat) (cmd : string) : M string :=
  method conn (SendConfigSet cmd).

Definition disconnect (conn : nat) : M unit :=
  λ w,
    (Ok tt,
     set_sessions
       (λ l, match l !! conn with
             | Some s => <[conn := mkConnection (device s) (history s) false]> l
             | None => l
             end) w).

End Netmiko.

(** *** os, open *)

Module Os.

(** posixpath.join on two components *)
Definition path_join (a b : string) : string :=
  if String.prefix "/" b then b
  else if String.eqb a "" then b
  else if String.eqb (PyStr.drop (String.length a - 1) a) "/" then a +:+ b
  else a +:+ "/" +:+ b.

Definition fs_do (c : fs_call) : M bool :=
  λ w, let l := c :: fs_log w in (fs w l, set_fs_log l w).

Definition path_exists (path : string) : M bool := fs_do (PathExists path).
Definition mkdir (path : string) : M unit := fs_do (Mkdir path);; mret tt.

(** [with open(path, 'w') as f: f.write(content)] *)
Definition write_file (path content : string) : M unit :=
  fs_do (WriteFile path content);; mret tt.

End Os.

(** ** Marathon.py *)

Module Marathon.
Import PyStr Netmiko.

Abbreviation relations := (gmap (string * string) (string * string)).

Definition DEVICE_FILE_PATH : string := "devices.csv".

Definition BACKUP_DIR_PATH : M string :=
  w ← world; mret (Os.path_join (script_dir w) "backups").

Definition rule : string := times "-*-" 10.

Definition get_devices_from_file (device_file : string) : M (list (gmap string string)) :=
  w ← world;
  device_list ← lift (csv_rows w device_file);
  print "Got the device list from inventory";;
  print rule;;
  print "";;
  mret device_list.

Definition get_current_date_and_time : M string :=
  w ← world;
  print "Got a timestamp";;
  print rule;;
  print "";;
  mret (now w).

Definition connect_to_device (device : gmap string string) : M nat :=
  host ← getitem device "ip";
  username ← getitem device "username";
  password ← getitem device "password";
  device_type ← getitem device "device_type";
  connection ← ConnectHandler host username password device_type;
  ip ← getitem device "ip";
  print ("Opened connection to " +:+ ip);;
  print rule;;
  print "";;
  mret connection.

Definition disconnect_from_device (connection : nat) (hostname : string) : M unit :=
  disconnect connection.

Definition get_backup_file_path (hostname timestamp : string) : M string :=
  root ← BACKUP_DIR_PATH;
  present ← Os.path_exists (Os.path_join root hostname);
  (if negb present then Os.mkdir (Os.path_join root hostname) else mret tt);;
  let backup_file_path :=
    Os.path_join (Os.path_join root hostname)
                 (hostname +:+ "-" +:+ timestamp +:+ ".txt") in
  print ("Backup file path will be " +:+ backup_file_path);;
  print rule;;
  print "";;
  mret backup_file_path.

Definition create_backup (connection : nat) (backup_file_path hostname : string) : M value :=
  try_except
    (enable connection;;
     output ← send_command connection "sh run";
     Os.write_file backup_file_path output;;
     print ("Backup of " +:+ hostname +:+ " is complete!");;
     print rule;;
     print "";;
     mret (VBool true))
    "Error"
    (print ("Error! Unable to backup device " +:+ hostname);;
     mret (VBool false)).

(** [while '' in neighbors: neighbors.remove('')]; each round shortens
    the list, so [length neighbors] rounds suffice. *)
Fixpoint drop_empty (fuel : nat) (neighbors : list string) : list string :=
  match fuel with
  | O => neighbors
  | S f =>
      if mem "" neighbors then drop_empty f (remove "" neighbors)
      else neighbors
  end.

Definition add_neighbor (device_name : string) (connections_dict : relations)
    (neighbor_line : string) : result relations :=
  local_a ← index (split_ws neighbor_line) 1;
  local_b ← index (split_ws neighbor_line) 2;
  remote ← index (split_ws neighbor_line) 0;
  remote_a ← index (split_ws neighbor_line) (-2);
  remote_b ← index (split_ws neighbor_line) (-1);
  mret (<[(device_name, local_a +:+ local_b) := (remote, remote_a +:+ remote_b)]>
          connections_dict).

Fixpoint for_neighbors (device_name : string) (connections_dict : relations)
    (neighbors : list string) : result relations :=
  match neighbors with
  | [] => mret connections_dict
  | neighbor_line :: rest =>
      d ← add_neighbor device_name connections_dict neighbor_line;
      for_neighbors device_name d rest
  end.

Definition parse_cdp_nei (cdp_nei_output : string) : result relations :=
  header ← index (split ">" cdp_nei_output) 0;
  let device_name := replace nl "" header in
  table ← index (split "Port ID" cdp_nei_output) 1;
  let neighbors := split nl table in
  let neighbors := drop_empty (length neighbors) neighbors in
  for_neighbors device_name ∅ neighbors.

Definition check_cdp (connection : nat) (hostname : string) : M value :=
  try_except
    (enable connection;;
     output ← send_command connection "sho run | in no cdp run";
     (if negb (contains "no cdp run" output)
      then print ("CDP is OK in " +:+ hostname);; print rule
      else send_config_set connection "cdp run";;
           print ("CDP is OK in " +:+ hostname);; print rule);;
     output ← send_command connection "sho cdp neigh";
     parsed ← lift (parse_cdp_nei output);
     let cdp_neigh_num := size (parsed : relations) in
     if negb (cdp_neigh_num =? 0)
     then mret (VStr ("CDP is on, " +:+ pretty cdp_neigh_num +:+ " peers"))
     else mret (VStr "CDP is off"))
    "Error"
    (print ("Error! Unable to chaeck CDP on the device " +:+ hostname);;
     mret (VBool false)).

Definition config_ntp (connection : nat) (hostname ntp_type : string) : M value :=
  try_except
    (enable connection;;
     send_config_set connection "clock timezone GMT 0";;
     (if String.eqb ntp_type "server"
      then send_config_set connection "ntp master";; mret tt
      else if String.eqb ntp_type "client"
      then send_config_set connection "ntp server 192.168.194.101";; mret tt
      else mret tt);;
     sleep 5;;
     output ← send_command connection "sho ntp status";
     if contains "Clock is synchronized" output
     then print ("NTP is OK in " +:+ hostname);;
          print rule;;
          mret (VStr "Clock in Sync")
     else print ("NTP is not OK in " +:+ hostname);;
          print rule;;
          mret (VStr "Clock not in Sync"))
    "Error"
    (print ("Error! Unable to check NTP on the device " +:+ hostname);;
     mret (VBool false)).

Definition Check_NPE (connection : nat) (hostname : string) : M value :=
  try_except
    (enable connection;;
     output ← send_command connection "sho ver | in IOS";
     if truthy (or_ (VStr "k9") (VBool (contains "K9" output)))
     then print ("PE IOS in " +:+ hostname);;
          print rule;;
          mret (VStr "PE")
     else print ("NPE IOS in " +:+ hostname);;
          print rule;;
          mret (VStr "NPE"))
    "Error"
    (print ("Error! Unable to check ver on the device " +:+ hostname);;
     mret (VBool false)).

Definition Check_ver (connection : nat) (hostname : string) : M value :=
  try_except
    (enable connection;;
     output ← send_command connection "sho ver | in IOS";
     ver ← lift (index (split "," output) 2);
     print ("IOS ver" +:+ ver +:+ " in " +:+ hostname);;
     print rule;;
     mret (VStr ver))
    "Error"
    (print ("Error! Unable to check ver on the device " +:+ hostname);;
     mret (VBool false)).

Definition Check_dev_pid (connection : nat) (hostname : string) : M value :=
  try_except
    (enable connection;;
     output ← send_command connection "sho ver | in IOS";
     field ← lift (index (split "," output) 1);
     dev_pid ← lift (index (split "Software" field) 0);
     print (hostname +:+ " is " +:+ dev_pid);;
     print rule;;
     mret (VStr dev_pid))
    "Error"
    (print ("Error! Unable to check ver on the device " +:+ hostname);;
     mret (VBool false)).

Definition process_target (device : gmap string string) (timestamp : string)
    (result : list string) : M string :=
  connection ← connect_to_device device;
  hostname ← getitem device "hostname";
  backup_file_path ← get_backup_file_path hostname timestamp;
  hostname ← getitem device "hostname";
  backup_result ← create_backup connection backup_file_path hostname;
  hostname ← getitem device "hostname";
  pid ← Check_dev_pid connection hostname;
  hostname ← getitem device "hostname";
  ver ← Check_ver connection hostname;
  hostname ← getitem device "hostname";
  cdp ← check_cdp connection hostname;
  hostname ← getitem device "hostname";
  npe ← Check_NPE connection hostname;
  hostname ← getitem device "hostname";
  ntp_type ← getitem device "ntp_type";
  ntp ← config_ntp connection hostname ntp_type;
  hostname ← getitem device "hostname";
  disconnect_from_device connection hostname;;
  hostname ← getitem device "hostname";
  s ← add (hostname +:+ "|") pid;
  s ← add (s +:+ "|") ver;
  s ← add (s +:+ "|") npe;
  s ← add (s +:+ "|") cdp;
  temp_str ← add (s +:+ "|") ntp;
  print temp_str;;
  mret temp_str.

(** [pool.apply_async(task)]: the task runs in a worker and its outcome,
    a return value or an exception, is kept in the AsyncResult.  The pool
    is modelled on the schedule that runs the tasks one after the other
    in submission order; the sessions of different tasks are separate
    objects in any schedule. *)
Definition apply_async {A} (task : M A) : M (result A) :=
  λ w, let '(r, w') := task w in (Ok r, w').

(** [AsyncResult.get()]: returns the value or raises the task's
    exception again in the caller. *)
Definition get {A} (process : result A) : M A := lift process.

Fixpoint submit_all (device_list : list (gmap string string)) (timestamp : string)
    (result : list string) : M (list (Py.result string)) :=
  match device_list with
  | [] => mret []
  | device :: rest =>
      p ← apply_async (process_target device timestamp result);
      ps ← submit_all rest timestamp result;
      mret (p :: ps)
  end.

Fixpoint collect (processes : list (Py.result string)) (result : list string)
    : M (list string) :=
  match processes with
  | [] => mret result
  | process :: rest =>
      r ← get process;
      collect rest (result ++ [r])
  end.

(** Lines 264-280 of [main]: everything up to the end of the pool block. *)
Definition gather : M (list string) :=
  timestamp ← get_current_date_and_time;
  device_list ← get_devices_from_file DEVICE_FILE_PATH;
  let result := [] in
  processes ← submit_all device_list timestamp result;
  collect processes result.

Definition main : M unit :=
  result ← gather;
  w ← world;
  Os.write_file (Os.path_join (script_dir w) "result.txt") (join nl result).

End Marathon.

(** ** Notions used to state the properties *)

Module Notions.
Import PyStr Marathon.

(** The first character of [sep] occurs nowhere else in it: then no
    occurrence of [sep] can overlap another one.  This holds for every
    separator the script uses. *)
Definition head_unique (sep : string) : Prop :=
  match sep with
  | EmptyString => False
  | String c t => contains (String c "") t = false
  end.

(** [s] with every occurrence of the character [c] deleted. *)
Fixpoint delete_char (c : ascii) (s : string) : string :=
  match s with
  | EmptyString => EmptyString
  | String x t =>
      if Ascii.eqb x c then delete_char c t else String x (delete_char c t)
  end.

(** What the specification says of one neighbor line: its whitespace
    fields give the remote device name (the first), the local port (the
    second and third, concatenated) and the remote port (the last two,
    concatenated). *)
Definition field (line : string) (i : nat) : string := split_ws line !!! i.

Definition local_port (line : string) : string :=
  field line 1 +:+ field line 2.

Definition remote_port (line : string) : string :=
  let n := length (split_ws line) in
  field line (n - 2) +:+ field line (n - 1).

Definition relation_key (host line : string) : string * string :=
  (host, local_port line).

Definition relation_value (line : string) : string * string :=
  (field line 0, remote_port line).

(** Inserting the relation of each line in turn: a later line with the
    same key replaces the earlier one. *)
Definition relations_of (host : string) (lines : list string)
    : gmap (string * string) (string * string) :=
  foldl (λ d line, <[relation_key host line := relation_value line]> d) ∅ lines.

Definition newline : ascii := ascii_of_nat 10.

(** The connection [conn] is open, talks to a device behaving as [b], and
    has carried the calls [h] so far. *)
Definition session_at (conn : nat) (b : behaviour) (h : list call) (w : World) : Prop :=
  sessions w !! conn = Some (mkConnection b h true).

(** The world after the connection [conn] has carried one more call. *)
Definition touch (conn : nat) (b : behaviour) (h : list call) (w : World) : World :=
  set_sessions (λ l, <[conn := mkConnection b h true]> l) w.

(** What the interpreter cannot change: the network, the inventory file,
    the place of the script and the time stamp. *)
Definition same_env (w w' : World) : Prop :=
  network w' = network w ∧ csv_rows w' = csv_rows w ∧
  script_dir w' = script_dir w ∧ now w' = now w.

(** As [same_env], and no session other than [conn] is touched. *)
Definition frame (conn : nat) (w w' : World) : Prop :=
  same_env w w' ∧
  length (sessions w') = length (sessions w) ∧
  ∀ i, i ≠ conn → sessions w' !! i = sessions w !! i.

(** A computation keeps the relation [R] between the world it starts in
    and the world it leaves, whether it returns or raises. *)
Definition preserves {A} (R : World → World → Prop) (m : M A) : Prop :=
  ∀ w, R w (m w).2.

(** Opening a session for the inventory row [d] fails with [e]. *)
Definition connect_fails (w : World) (d : gmap string string) (e : exn) : Prop :=
  ∃ ip username password device_type,
    d !! "ip" = Some ip ∧ d !! "username" = Some username ∧
    d !! "password" = Some password ∧ d !! "device_type" = Some device_type ∧
    network w ip username password device_type = Raise e.

(** The world in which the pool starts: the time stamp has been taken and
    the inventory read. *)
Definition started (w : World) : World :=
  ((get_current_date_and_time ≫= λ _, get_devices_from_file DEVICE_FILE_PATH) w).2.

(** The outcomes held by the AsyncResults once every task has run. *)
Definition outcomes (w : World) (rows : list (gmap string string))
    : list (result string) :=
  match submit_all rows (now w) [] (started w) with
  | (Ok ps, _) => ps
  | (Raise _, _) => []
  end.

(** The texts written to [path], latest first. *)
Definition written_to (path : string) (log : list fs_call) : list string :=
  omap (λ c, match c with
             | WriteFile p content => if String.eqb p path then Some content else None
             | _ => None
             end) log.

(** A device that answers every call with some text. *)
Definition answers (b : behaviour) : Prop := ∀ h, ∃ out, b h = Ok out.

End Notions.

(** ** Sample inputs *)

Module Samples.
Import PyStr.

(** The answer of a switch R1 with one neighbor R2. *)
Definition neighbors_R1 : string :=
  "R1>show cdp neighbors" +:+ nl +:+
  "Device ID  Local Intrfce  Holdtme  Capability  Platform  Port ID" +:+ nl +:+
  "R2  Gig 0/1  150  R S I  3725  Gig 0/2" +:+ nl.

(** Version banners: a full-feature image and a restricted one. *)
Definition banner_k9 : string :=
  "Cisco IOS Software, 3700 Software (C3725-ADVENTERPRISEK9-M), Version 12.4(15)T14, RELEASE SOFTWARE (fc2)".
Definition banner_npe : string :=
  "Cisco IOS Software, C2960 Software (C2960-LANBASE-M), Version 12.2(44)SE6, RELEASE SOFTWARE (fc1)".
(** A banner with a single comma. *)
Definition banner_one_comma : string := "Cisco IOS Software, C2960 Software".

(** A device that answers the audit commands with the given texts and
    everything else with an empty line. *)
Definition router (no_cdp banner neighbors ntp_status : string) : behaviour :=
  λ h,
    match h with
    | SendCommand cmd :: _ =>
        if String.eqb cmd "sh run" then Ok "hostname R1"
        else if String.eqb cmd "sho run | in no cdp run" then Ok no_cdp
        else if String.eqb cmd "sho ver | in IOS" then Ok banner
        else if String.eqb cmd "sho cdp neigh" then Ok neighbors
        else if String.eqb cmd "sho ntp status" then Ok ntp_status
        else Ok ""
    | _ => Ok ""
    end.

Definition ntp_synced : string :=
  "Clock is synchronized, stratum 8, reference is 127.127.1.1".
Definition ntp_unsynced : string :=
  "Clock is unsynchronized, stratum 16, no reference clock".

(** A neighbor table with its header and no neighbor line. *)
Definition neighbors_none : string :=
  "R1>show cdp neighbors" +:+ nl +:+
  "Device ID  Local Intrfce  Holdtme  Capability  Platform  Port ID" +:+ nl.

(** A neighbor table as netmiko hands it over, without the prompt. *)
Definition neighbors_bare : string :=
  "Device ID  Local Intrfce  Holdtme  Capability  Platform  Port ID" +:+ nl +:+
  "R2  Gig 0/1  150  R S I  3725  Gig 0/2" +:+ nl.

(** A neighbor answer without the column header. *)
Definition neighbors_garbled : string := "% CDP is not enabled".

(** A neighbor line with two fields only. *)
Definition neighbors_short_line : string :=
  "R1>show cdp neighbors" +:+ nl +:+
  "Device ID  Local Intrfce  Holdtme  Capability  Platform  Port ID" +:+ nl +:+
  "R2  Gig" +:+ nl.

Definition R1 : behaviour := router "" banner_k9 neighbors_R1 ntp_synced.
Definition R1_quiet : behaviour := router "" banner_k9 neighbors_none ntp_synced.
Definition R1_cdp_off : behaviour := router "no cdp run" banner_k9 neighbors_R1 ntp_synced.
Definition SW1 : behaviour := router "" banner_npe neighbors_R1 ntp_unsynced.
Definition R1_one_comma : behaviour := router "" banner_one_comma neighbors_R1 ntp_synced.
Definition R1_garbled : behaviour := router "" banner_k9 neighbors_garbled ntp_synced.
Definition R1_short_line : behaviour := router "" banner_k9 neighbors_short_line ntp_synced.

(** Inventory rows. *)
Definition row (ip hostname ntp_type : string) : gmap string string :=
  list_to_map
    [ ("ip", ip); ("username", "admin"); ("password", "cisco");
      ("device_type", "cisco_ios"); ("hostname", hostname);
      ("ntp_type", ntp_type) ].

(** A row with the four columns the comment on [DEVICE_FILE_PATH] lists. *)
Definition row_four_columns : gmap string string :=
  list_to_map
    [ ("ip", "10.0.0.1"); ("username", "admin"); ("password", "cisco");
      ("device_type", "cisco_ios") ].

Definition row_R1 : gmap string string := row "10.0.0.1" "R1" "server".
Definition row_SW1 : gmap string string := row "10.0.0.2" "SW1" "client".
Definition row_down : gmap string string := row "10.0.0.9" "R9" "client".

(** A network in which 10.0.0.1 and 10.0.0.2 accept the session and every
    other address times out. *)
Definition lab_network (dev1 dev2 : behaviour)
    : string → string → string → string → result behaviour :=
  λ host _ _ _,
    if String.eqb host "10.0.0.1" then Ok dev1
    else if String.eqb host "10.0.0.2" then Ok dev2
    else Raise (DeviceError "TCP connection to device failed").

(** A file system on which every path exists and every write succeeds. *)
Definition fs_ready : list fs_call → result bool := λ _, Ok true.

(** A file system without the backup root: no backup path exists and no
    directory can be created below the missing root. *)
Definition fs_no_root : list fs_call → result bool :=
  λ l,
    match l with
    | PathExists _ :: _ => Ok false
    | Mkdir _ :: _ => Raise (OSError "FileNotFoundError")
    | WriteFile _ _ :: _ => Ok true
    | [] => Ok true
    end.

Definition lab (dev1 dev2 : behaviour) (files : list fs_call → result bool)
    (rows : list (gmap string string)) : World :=
  mkWorld (lab_network dev1 dev2) [] files [] [] 0 "/opt/marathon"
          "2020_01_01-00_00_00"
          (λ path, if String.eqb path "devices.csv" then Ok rows
                   else Raise (OSError "FileNotFoundError")).

(** A world with one open session to [dev] and nothing asked yet. *)
Definition on_line (dev : behaviour) : World :=
  mkWorld (lab_network dev dev) [mkConnection dev [] true] fs_ready [] [] 0
          "/opt/marathon" "2020_01_01-00_00_00"
          (λ _, Raise (OSError "FileNotFoundError")).

Definition stamp : string := "2020_01_01-00_00_00".

Definition lab_two_up : World := lab R1 SW1 fs_ready [row_R1; row_SW1].
Definition lab_second_down : World := lab R1 SW1 fs_ready [row_R1; row_down].
Definition lab_first_down : World := lab R1 SW1 fs_ready [row_down; row_R1; row_SW1].
Definition lab_no_root : World := lab R1 SW1 fs_no_root [row_R1].
Definition lab_one_comma : World := lab R1_one_comma SW1 fs_ready [row_R1; row_SW1].
Definition lab_garbled : World := lab R1_garbled SW1 fs_ready [row_R1; row_SW1].
Definition lab_short_line : World := lab R1_short_line SW1 fs_ready [row_R1].

End Samples.

(** ** Further notions and sample inputs *)

Module More.
Import PyStr Marathon Notions Samples.

(** A neighbor answer in which the marker comes a second time. *)
Definition neighbors_twice : string :=
  "R1>show cdp neighbors" +:+ nl +:+
  "Device ID  Local Intrfce  Holdtme  Capability  Platform  Port ID" +:+ nl +:+
  "R2  Gig 0/1  150  R S I  3725  Gig 0/2" +:+ nl +:+
  "Port ID legend follows" +:+ nl +:+
  "R3  Gig 0/3  150  R S I  3725  Gig 0/4" +:+ nl.

(** Every value the computation returns satisfies [P]. *)
Definition returns {A} (P : A → Prop) (m : M A) : Prop :=
  ∀ w v w', m w = (Ok v, w') → P v.

(** What an audit step may do: return a value other than [False], or
    raise NameError for the name [Error]. *)
Definition step_contract (m : M value) : Prop :=
  (∀ w v w', m w = (Ok v, w') → v ≠ VBool false) ∧
  (∀ w e w', m w = (Raise e, w') → e = NameError "Error").

(** The file system behaves as before. *)
Definition same_fs (w w' : World) : Prop := fs w' = fs w.

(** A version banner with at least two commas: three comma-free fields,
    then the end of the text or a further comma. *)
Definition banner_ok (banner : string) : Prop :=
  ∃ f0 f1 f2 tail,
    banner = f0 +:+ "," +:+ f1 +:+ "," +:+ f2 +:+ tail ∧
    contains "," f0 = false ∧ contains "," f1 = false ∧
    contains "," f2 = false ∧
    (tail = "" ∨ ∃ t, tail = "," +:+ t).

(** A device on which every step of the audit goes through: it answers
    every call, its version banner has two commas and its neighbor table
    parses. *)
Definition healthy (b : behaviour) : Prop :=
  answers b ∧
  (∀ h out, b (SendCommand "sho ver | in IOS" :: h) = Ok out → banner_ok out) ∧
  (∀ h out, b (SendCommand "sho cdp neigh" :: h) = Ok out →
            is_Ok (parse_cdp_nei out) = true).

(** The row [d] has the six columns the script reads, and the network
    opens a session to a device behaving as [b] for it. *)
Definition reachable (w : World) (d : gmap string string) (b : behaviour) : Prop :=
  is_Some (d !! "hostname") ∧ is_Some (d !! "ntp_type") ∧
  ∃ ip username password device_type,
    d !! "ip" = Some ip ∧ d !! "username" = Some username ∧
    d !! "password" = Some password ∧ d !! "device_type" = Some device_type ∧
    network w ip username password device_type = Ok b.

(** A file system on which every call succeeds. *)
Definition fs_sound (w : World) : Prop := ∀ l, ∃ ok, fs w l = Ok ok.

(** The session [conn] is open on [b] in [w], and the file system of [w]
    is that of [w0]. *)
Definition live (conn : nat) (b : behaviour) (w0 w : World) : Prop :=
  (∃ h, session_at conn b h w) ∧ fs w = fs w0.

(** The table of a neighbor answer: what stands between its first
    "Port ID" marker and the next one, or the end of the text. *)
Definition table_of (text : string) : string :=
  match split "Port ID" text with
  | _ :: table :: _ => table
  | _ => ""
  end.

(** A neighbor answer without the prompt whose only line has two fields. *)
Definition neighbors_bare_short : string := "Port ID" +:+ nl +:+ "R2 Gig".

(** The calls the time-sync step makes before it sleeps, the latest
    first: enable, the time zone, and the command of the role if any. *)
Definition ntp_setup (ntp_type : string) : list call :=
  (if String.eqb ntp_type "server" then [SendConfigSet "ntp master"]
   else if String.eqb ntp_type "client"
   then [SendConfigSet "ntp server 192.168.194.101"]
   else []) ++
  [SendConfigSet "clock timezone GMT 0"; Enable].

(** The device answers each of [calls] (the latest first) when they are
    made one after the other from the history [h]. *)
Fixpoint answers_each (b : behaviour) (calls h : list call) : Prop :=
  match calls with
  | [] => True
  | c :: earlier =>
      answers_each b earlier h ∧ ∃ out, b (c :: earlier ++ h) = Ok out
  end.

(** A device that answers as [R1] does, except that every query of the
    time-service status times out. *)
Definition R1_ntp_down : behaviour :=
  λ h,
    match h with
    | SendCommand cmd :: _ =>
        if String.eqb cmd "sho ntp status"
        then Raise (DeviceError "timed out") else R1 h
    | _ => R1 h
    end.

(** A device that answers as [R1] does, except that it rejects every
    configuration command. *)
Definition R1_read_only : behaviour :=
  λ h,
    match h with
    | SendConfigSet _ :: _ => Raise (DeviceError "rejected")
    | _ => R1 h
    end.

(** The platform [pid] and the version [ver] in a version banner: [pid]
    is the second comma-separated field up to the word "Software" (the
    whole field when the word is not in it), [ver] is the third field. *)
Definition banner_fields (banner pid ver : string) : Prop :=
  ∃ f0 rest tail,
    banner = f0 +:+ "," +:+ (pid +:+ rest) +:+ "," +:+ ver +:+ tail ∧
    contains "," f0 = false ∧ contains "," (pid +:+ rest) = false ∧
    contains "," ver = false ∧
    (tail = "" ∨ ∃ t, tail = "," +:+ t) ∧
    contains "Software" pid = false ∧
    (rest = "" ∨ ∃ q, rest = "Software" +:+ q).

(** A device that answers every call, and gives the same texts whenever
    it is asked for its version, its neighbors and the state of its
    clock. *)
Definition steady (b : behaviour) (banner neighbors status : string) : Prop :=
  answers b ∧
  (∀ h, b (SendCommand "sho ver | in IOS" :: h) = Ok banner) ∧
  (∀ h, b (SendCommand "sho cdp neigh" :: h) = Ok neighbors) ∧
  (∀ h, b (SendCommand "sho ntp status" :: h) = Ok status).

End More.

(** * Properties *)

(** ** The string methods on small inputs *)

Example split_keeps_empty_pieces :
  PyStr.split "," "a,b,,c" = ["a"; "b"; ""; "c"].
Proof. reflexivity. Qed.

Example split_resumes_after_separator :
  PyStr.split "aa" "aaa" = [""; "a"] ∧
  PyStr.split "Port ID" "x Port ID y Port IDPort ID" = ["x "; " y "; ""; ""].
Proof. split; reflexivity. Qed.

Example split_of_empty_text :
  PyStr.split PyStr.nl "" = [""] ∧ PyStr.split ">" "x" = ["x"].
Proof. split; reflexivity. Qed.

Example split_ws_strips_runs :
  PyStr.split_ws "  R2   Gig 0/1  " = ["R2"; "Gig"; "0/1"] ∧
  PyStr.split_ws "   " = [].
Proof. split; reflexivity. Qed.

Example replace_left_to_right :
  PyStr.replace "ab" "-" "abcabab" = "-c--" ∧ PyStr.replace "aa" "b" "aaa" = "ba".
Proof. split; reflexivity. Qed.

Example isspace_class :
  filter (λ n, PyStr.isspace (ascii_of_nat n) = true) (seq 0 256) =
    [9; 10; 11; 12; 13; 28; 29; 30; 31; 32; 133; 160].
Proof. vm_compute. reflexivity. Qed.

Example index_from_the_end :
  index ["a"; "b"; "c"] (-1) = Ok "c" ∧ index ["a"; "b"; "c"] (-2) = Ok "b" ∧
  index ["a"; "b"; "c"] (-4) = Raise (A:=string) IndexError ∧
  index ["a"; "b"; "c"] 3 = Raise (A:=string) IndexError.
Proof. repeat split; reflexivity. Qed.

Example path_join_posix :
  Os.path_join "/opt" "backups" = "/opt/backups" ∧
  Os.path_join "/opt/" "x" = "/opt/x" ∧
  Os.path_join "" "x" = "x" ∧
  Os.path_join "/opt" "/abs" = "/abs" ∧
  Os.path_join "/opt" "" = "/opt/".
Proof. repeat split; reflexivity. Qed.

Example Error_is_unbound :
  resolve "Error" = None ∧ resolve "Exception" = Some (BoundClass CException).
Proof. split; reflexivity. Qed.

(** ** String operations *)

Module PyStrFacts.
Import PyStr Notions.
#[local] Arguments String.append !_ _ / : simpl nomatch.

Lemma app_cons (c : ascii) (a b : string) :
  String c a +:+ b = String c (a +:+ b).
Proof. reflexivity. Qed.

Lemma app_nil_r (s : string) : s +:+ "" = s.
Proof. induction s as [|c s IH]; simpl; congruence. Qed.

Lemma app_assoc (a b c : string) : (a +:+ b) +:+ c = a +:+ b +:+ c.
Proof. induction a as [|x a IH]; simpl; congruence. Qed.

Lemma length_app (a b : string) :
  String.length (a +:+ b) = String.length a + String.length b.
Proof. induction a as [|x a IH]; simpl; congruence. Qed.

Lemma drop_app (p r : string) : drop (String.length p) (p +:+ r) = r.
Proof. induction p as [|x p IH]; simpl; [by destruct r | done]. Qed.

Lemma prefix_app (p r : string) : String.prefix p (p +:+ r) = true.
Proof.
  induction p as [|x p IH]; simpl; [by destruct r |].
  destruct (ascii_dec x x); [done | congruence].
Qed.

Lemma prefix_inv (p s : string) :
  String.prefix p s = true → ∃ r, s = p +:+ r.
Proof.
  revert s; induction p as [|x p IH]; intros s H.
  - by exists s.
  - destruct s as [|y s]; simpl in H; [done |].
    destruct (ascii_dec x y) as [->|]; [| done].
    destruct (IH _ H) as [r ->]. by exists r.
Qed.

Lemma prefix_iff (p s : string) :
  String.prefix p s = true ↔ ∃ r, s = p +:+ r.
Proof.
  split; [apply prefix_inv |]. intros [r ->]. apply prefix_app.
Qed.

(** [contains] is the substring relation. *)
Lemma contains_iff (needle hay : string) :
  contains needle hay = true ↔ ∃ l r, hay = l +:+ needle +:+ r.
Proof.
  induction hay as [|c hay IH]; cbn [contains].
  - rewrite orb_false_r, prefix_iff. split.
    + intros [r Hr]. by exists "", r.
    + intros (l & r & H). destruct l; [by exists r |]. done.
  - rewrite orb_true_iff, IH, prefix_iff. split.
    + intros [[r Hr] | (l & r & ->)].
      * by exists "", r.
      * by exists (String c l), r.
    + intros (l & r & H). destruct l as [|x l]; simpl in H.
      * left. by exists r.
      * right. injection H as -> ->. by exists l, r.
Qed.

Lemma contains_false_app (needle l r : string) :
  contains needle (l +:+ r) = false → contains needle l = false.
Proof.
  intros H. destruct (contains needle l) eqn:E; [| done].
  apply contains_iff in E as (a & b & ->).
  assert (contains needle ((a +:+ needle +:+ b) +:+ r) = true); [| congruence].
  apply contains_iff. exists a, (b +:+ r). by rewrite !app_assoc.
Qed.

Lemma contains_false_tail (needle : string) c (s : string) :
  contains needle (String c s) = false → contains needle s = false.
Proof. cbn [contains]. by intros [_ ?]%orb_false_iff. Qed.

Lemma find_None (sep s : string) :
  find sep s = None ↔ contains sep s = false.
Proof.
  induction s as [|c s IH]; cbn [find contains].
  - destruct (String.prefix sep ""); simpl; split; done.
  - destruct (String.prefix sep (String c s)); simpl; [split; done |].
    rewrite <- IH. destruct (find sep s) as [[l r]|]; split; done.
Qed.

Lemma find_Some (sep s l r : string) :
  find sep s = Some (l, r) → s = l +:+ sep +:+ r.
Proof.
  revert l; induction s as [|c s IH]; intros l; cbn [find].
  - destruct (String.prefix sep "") eqn:E; [| done].
    intros [= <- <-]. apply prefix_inv in E as [q E].
    destruct sep; [done | discriminate].
  - destruct (String.prefix sep (String c s)) eqn:E.
    + intros [= <- <-]. apply prefix_inv in E as [q E].
      rewrite E at 2. by rewrite drop_app.
    + destruct (find sep s) as [[l' r']|]; [| done].
      intros [= <- <-]. simpl. f_equal. by apply IH.
Qed.

Lemma find_shorter (sep s l r : string) :
  sep ≠ "" → find sep s = Some (l, r) → String.length r < String.length s.
Proof.
  intros Hs H. apply find_Some in H as ->.
  rewrite !length_app. destruct sep; [done | simpl; lia].
Qed.

Lemma contains_char_app c (a b : string) :
  contains (String c "") (a +:+ String c b) = true.
Proof. apply contains_iff. by exists a, b. Qed.

(** If [sep] starts inside [l] in [l ++ sep ++ r], it lies within [l]. *)
Lemma prefix_straddle (sep l r : string) :
  head_unique sep → l ≠ "" →
  String.prefix sep (l +:+ sep +:+ r) = true → contains sep l = true.
Proof.
  intros Hu Hl H. destruct sep as [|c t]; [done |]. cbn [head_unique] in Hu.
  apply prefix_inv in H as [q H].
  assert (∀ (u l q : string),
    contains (String c "") u = false →
    l +:+ String c (t +:+ r) = u +:+ q → String.prefix u l = true) as aux.
  { clear. intros u. induction u as [|x u IH]; intros l q Hu H.
    - by destruct l.
    - destruct l as [|y l]; simpl in H.
      + injection H as <- _.
        pose proof (contains_char_app c "" u) as K.
        change (contains (String c "") (String c u) = true) in K. congruence.
      + injection H as -> H. simpl.
        destruct (ascii_dec x x); [| congruence].
        eapply IH; [| done]. by eapply contains_false_tail. }
  destruct l as [|y l]; [done |]. simpl in H. injection H as -> H.
  apply aux in H; [| done].
  apply contains_iff. apply prefix_inv in H as [q' ->].
  by exists "", q'.
Qed.

Lemma find_here (sep s : string) :
  String.prefix sep s = true →
  find sep s = Some ("", drop (String.length sep) s).
Proof. intros H. destruct s; cbn [find]; by rewrite H. Qed.

Lemma find_later (sep : string) c (s : string) :
  String.prefix sep (String c s) = false →
  find sep (String c s) =
    match find sep s with
    | Some (l, r) => Some (String c l, r)
    | None => None
    end.
Proof. intros H. cbn [find]. by rewrite H. Qed.

Lemma find_leftmost (sep l r : string) :
  head_unique sep → contains sep l = false →
  find sep (l +:+ sep +:+ r) = Some (l, r).
Proof.
  intros Hu. induction l as [|c l IH]; intros Hl.
  - change ("" +:+ sep +:+ r) with (sep +:+ r).
    rewrite find_here by apply prefix_app. by rewrite drop_app.
  - change (String c l +:+ sep +:+ r) with (String c (l +:+ sep +:+ r)).
    destruct (String.prefix sep (String c (l +:+ sep +:+ r))) eqn:E.
    + apply (prefix_straddle sep (String c l) r) in E; [congruence | done | done].
    + rewrite find_later by done.
      rewrite IH; [done |]. by eapply contains_false_tail.
Qed.

Lemma head_unique_nonempty (sep : string) : head_unique sep → sep ≠ "".
Proof. by destruct sep. Qed.

(** *** split *)

Lemma split_aux_fuel (sep : string) (f1 f2 : nat) (s : string) :
  sep ≠ "" → String.length s < f1 → String.length s < f2 →
  split_aux f1 sep s = split_aux f2 sep s.
Proof.
  intros Hs. revert f2 s. induction f1 as [|f1 IH]; intros f2 s H1 H2; [lia |].
  destruct f2 as [|f2]; [lia |]. cbn [split_aux].
  destruct (find sep s) as [[l r]|] eqn:E; [| done].
  pose proof (find_shorter _ _ _ _ Hs E). f_equal. apply IH; lia.
Qed.

Lemma split_without (sep s : string) :
  contains sep s = false → split sep s = [s].
Proof.
  intros H. apply find_None in H. unfold split. cbn [split_aux]. by rewrite H.
Qed.

Lemma split_cut (sep l r : string) :
  head_unique sep → contains sep l = false →
  split sep (l +:+ sep +:+ r) = l :: split sep r.
Proof.
  intros Hu Hl. unfold split at 1. cbn [split_aux].
  rewrite find_leftmost by done. f_equal.
  pose proof (head_unique_nonempty _ Hu) as Hs.
  apply split_aux_fuel; [done | | lia].
  rewrite !length_app. destruct sep; [done | simpl; lia].
Qed.

Lemma split_head (sep s : string) :
  ∃ l rest, split sep s = l :: rest.
Proof.
  unfold split. cbn [split_aux]. destruct (find sep s) as [[l r]|]; eauto.
Qed.

Lemma split_second (sep s : string) :
  contains sep s = true → ∃ l x rest, split sep s = l :: x :: rest.
Proof.
  intros H. unfold split. cbn [split_aux].
  destruct (find sep s) as [[l r]|] eqn:E.
  - destruct (String.length s) as [|n]; cbn [split_aux]; [eauto |].
    destruct (find sep r) as [[l' r']|]; eauto.
  - apply find_None in E. congruence.
Qed.

(** The lines of a text are recovered by [split] on the newline. *)
Lemma split_join_nl (raw : list string) :
  raw ≠ [] → Forall (λ l, contains nl l = false) raw →
  split nl (join nl raw) = raw.
Proof.
  intros Hne H. induction H as [|l raw Hl H IH]; [done |].
  destruct raw as [|l' raw].
  - cbn [join]. by apply split_without.
  - cbn [join]. rewrite split_cut; [| done | done].
    f_equal. by apply IH.
Qed.

(** *** replace *)

Lemma replace_aux_fuel (old new : string) (f1 f2 : nat) (s : string) :
  old ≠ "" → String.length s < f1 → String.length s < f2 →
  replace_aux f1 old new s = replace_aux f2 old new s.
Proof.
  intros Hs. revert f2 s. induction f1 as [|f1 IH]; intros f2 s H1 H2; [lia |].
  destruct f2 as [|f2]; [lia |]. cbn [replace_aux].
  destruct (find old s) as [[l r]|] eqn:E; [| done].
  pose proof (find_shorter _ _ _ _ Hs E). do 2 f_equal. apply IH; lia.
Qed.

Lemma replace_without (old new s : string) :
  contains old s = false → replace old new s = s.
Proof.
  intros H. apply find_None in H. unfold replace. cbn [replace_aux].
  by rewrite H.
Qed.

Lemma replace_cut (old new l r : string) :
  head_unique old → contains old l = false →
  replace old new (l +:+ old +:+ r) = l +:+ new +:+ replace old new r.
Proof.
  intros Hu Hl. unfold replace at 1. cbn [replace_aux].
  rewrite find_leftmost by done. do 2 f_equal.
  pose proof (head_unique_nonempty _ Hu) as Hs.
  apply replace_aux_fuel; [done | | lia].
  rewrite !length_app. destruct old; [done | simpl; lia].
Qed.

Lemma contains_char_cons_ne (c x : ascii) (s : string) :
  x ≠ c → contains (String c "") (String x s) = contains (String c "") s.
Proof.
  intros H. cbn [contains]. simpl.
  destruct (ascii_dec c x); [congruence | done].
Qed.

Lemma replace_aux_S (f : nat) (old new s : string) :
  replace_aux (S f) old new s =
    match find old s with
    | None => s
    | Some (l, r) => l +:+ new +:+ replace_aux f old new r
    end.
Proof. reflexivity. Qed.

Lemma replace_skip (old new : string) (x : ascii) (s : string) :
  old ≠ "" → String.prefix old (String x s) = false →
  replace old new (String x s) = String x (replace old new s).
Proof.
  intros Hs H. unfold replace. cbn [String.length].
  rewrite (replace_aux_S (S (String.length s))), find_later by done.
  rewrite (replace_aux_S (String.length s) _ _ s).
  destruct (find old s) as [[l r]|] eqn:E; [| done].
  rewrite app_cons. do 3 f_equal.
  pose proof (find_shorter _ _ _ _ Hs E).
  apply replace_aux_fuel; [done | lia | lia].
Qed.

(** Replacing a character by nothing deletes every occurrence of it. *)
Lemma replace_char_empty (c : ascii) (s : string) :
  replace (String c "") "" s = delete_char c s.
Proof.
  induction s as [|x s IH]; [done |]. cbn [delete_char].
  destruct (Ascii.eqb_spec x c) as [->|Hne].
  - change (String c s) with ("" +:+ String c "" +:+ s).
    rewrite replace_cut; [by rewrite IH | done | done].
  - rewrite replace_skip; [by rewrite IH | done |].
    simpl. destruct (ascii_dec c x); [congruence | done].
Qed.

End PyStrFacts.

(** ** The neighbor parser *)

Module ParserFacts.
Import PyStr Notions PyStrFacts Marathon.

Lemma mem_false_filter (l : list string) :
  mem "" l = false → filter (λ x, x ≠ "") l = l.
Proof.
  induction l as [|x l IH]; [done |]. unfold mem. cbn [existsb].
  intros [Hx Hl]%orb_false_iff.
  rewrite filter_cons_True; [by rewrite IH |].
  intros ->. by rewrite String.eqb_refl in Hx.
Qed.

Lemma filter_remove (l : list string) :
  filter (λ x, x ≠ "") (remove "" l) = filter (λ x, x ≠ "") l.
Proof.
  induction l as [|x l IH]; [done |]. cbn [remove].
  destruct (String.eqb_spec "" x) as [<-|Hne].
  - by rewrite filter_cons_False by (intros H; by apply H).
  - rewrite !filter_cons_True by congruence. by rewrite IH.
Qed.

Lemma remove_length (l : list string) :
  mem "" l = true → S (length (remove "" l)) = length l.
Proof.
  induction l as [|x l IH]; [done |]. unfold mem. cbn [existsb remove].
  destruct (String.eqb "" x); [done |]. simpl. intros H%IH. lia.
Qed.

(** The [while] loop deletes exactly the empty strings. *)
Lemma drop_empty_filter (fuel : nat) (l : list string) :
  length l ≤ fuel → drop_empty fuel l = filter (λ x, x ≠ "") l.
Proof.
  revert l. induction fuel as [|f IH]; intros l Hl.
  - destruct l; [done | simpl in Hl; lia].
  - cbn [drop_empty]. destruct (mem "" l) eqn:E.
    + rewrite IH, filter_remove; [done |].
      apply remove_length in E. lia.
    + by rewrite mem_false_filter.
Qed.

Lemma index_nat {A} `{!Inhabited A} (l : list A) (i : nat) :
  i < length l → index l (Z.of_nat i) = Ok (l !!! i).
Proof.
  intros H. unfold index.
  destruct (Z.ltb_spec (Z.of_nat i) 0); [lia |].
  destruct (Z.ltb_spec (Z.of_nat i) 0); [lia |].
  rewrite Nat2Z.id. destruct (l !! i) eqn:E.
  - by rewrite (list_lookup_total_correct _ _ _ E).
  - apply lookup_ge_None in E. lia.
Qed.

Lemma index_neg {A} `{!Inhabited A} (l : list A) (i : nat) :
  0 < i ≤ length l → index l (- Z.of_nat i) = Ok (l !!! (length l - i)).
Proof.
  intros H. unfold index.
  destruct (Z.ltb_spec (- Z.of_nat i) 0); [| lia].
  destruct (Z.ltb_spec (- Z.of_nat i + Z.of_nat (length l)) 0); [lia |].
  replace (Z.to_nat (- Z.of_nat i + Z.of_nat (length l))) with (length l - i) by lia.
  destruct (l !! (length l - i)) eqn:E.
  - by rewrite (list_lookup_total_correct _ _ _ E).
  - apply lookup_ge_None in E. lia.
Qed.

Lemma index_out {A} (l : list A) (i : nat) :
  length l ≤ i → index l (Z.of_nat i) = Raise IndexError.
Proof.
  intros H. unfold index.
  destruct (Z.ltb_spec (Z.of_nat i) 0); [lia |].
  destruct (Z.ltb_spec (Z.of_nat i) 0); [lia |].
  rewrite Nat2Z.id. by rewrite (proj2 (lookup_ge_None l i)).
Qed.

Lemma add_neighbor_ok (host : string) (d : relations) (line : string) :
  3 ≤ length (split_ws line) →
  add_neighbor host d line =
    Ok (<[relation_key host line := relation_value line]> d).
Proof.
  intros H. unfold add_neighbor.
  rewrite (index_nat _ 1), (index_nat _ 2), (index_nat _ 0) by lia.
  rewrite (index_neg _ 2), (index_neg _ 1) by lia. done.
Qed.

Lemma add_neighbor_short (host : string) (d : relations) (line : string) :
  length (split_ws line) < 3 → add_neighbor host d line = Raise IndexError.
Proof.
  intros H. unfold add_neighbor.
  destruct (decide (length (split_ws line) ≤ 1)) as [H1|H1].
  - by rewrite (index_out _ 1).
  - rewrite (index_nat _ 1) by lia. by rewrite (index_out _ 2) by lia.
Qed.

Lemma for_neighbors_ok (host : string) (d : relations) (lines : list string) :
  Forall (λ line, 3 ≤ length (split_ws line)) lines →
  for_neighbors host d lines =
    Ok (foldl (λ d line, <[relation_key host line := relation_value line]> d)
          d lines).
Proof.
  intros H. revert d. induction H as [|line lines Hl H IH]; intros d; [done |].
  cbn [for_neighbors foldl]. rewrite add_neighbor_ok by done. apply IH.
Qed.

Lemma for_neighbors_short (host : string) (d : relations) (lines : list string) :
  Exists (λ line, length (split_ws line) < 3) lines →
  for_neighbors host d lines = Raise IndexError.
Proof.
  intros H. revert d. induction H as [line lines Hl | line lines H IH]; intros d.
  - cbn [for_neighbors]. by rewrite add_neighbor_short.
  - cbn [for_neighbors].
    destruct (decide (3 ≤ length (split_ws line))) as [Hs|Hs].
    + rewrite add_neighbor_ok by done. apply IH.
    + rewrite add_neighbor_short by lia. done.
Qed.

(** *** The dictionary built by the loop *)

Section fold_insert.
Context (key : string → string * string) (val : string → string * string).

Implicit Types (d : relations) (lines : list string).

Lemma fold_insert_other lines d k :
  (∀ line, line ∈ lines → key line ≠ k) →
  foldl (λ d line, <[key line := val line]> d) d lines !! k = d !! k.
Proof.
  revert d. induction lines as [|l lines IH]; intros d H; [done |].
  cbn [foldl]. rewrite IH.
  - rewrite lookup_insert_ne; [done |]. apply H. left.
  - intros line Hin. apply H. by right.
Qed.

Lemma fold_insert_last lines d i line :
  lines !! i = Some line →
  (∀ j line', i < j → lines !! j = Some line' → key line' ≠ key line) →
  foldl (λ d line, <[key line := val line]> d) d lines !! key line = Some (val line).
Proof.
  revert d i. induction lines as [|l lines IH]; intros d i Hi Hlast; [done |].
  cbn [foldl]. destruct i as [|i].
  - injection Hi as ->. rewrite fold_insert_other.
    + by rewrite lookup_insert_eq.
    + intros line' [j Hj]%list_elem_of_lookup.
      apply (Hlast (S j)); [lia | done].
  - apply (IH _ i); [done |]. intros j line' Hj Hl.
    apply (Hlast (S j)); [lia | done].
Qed.

Lemma fold_insert_origin lines d k v :
  foldl (λ d line, <[key line := val line]> d) d lines !! k = Some v →
  d !! k = Some v ∨ ∃ line, line ∈ lines ∧ k = key line ∧ v = val line.
Proof.
  revert d. induction lines as [|l lines IH]; intros d H; [by left |].
  cbn [foldl] in H. apply IH in H as [H | (line & Hin & Hk & Hv)].
  - destruct (decide (key l = k)) as [E|E].
    + rewrite E, lookup_insert_eq in H. injection H as <-.
      right. exists l. split; [left | done].
    + rewrite lookup_insert_ne in H by done. by left.
  - right. exists line. split; [by right | done].
Qed.

End fold_insert.

(** *** The two places where the text is cut *)

Lemma head_unique_prompt : head_unique ">".
Proof. done. Qed.
Lemma head_unique_marker : head_unique "Port ID".
Proof. done. Qed.
Lemma head_unique_nl : head_unique nl.
Proof. done. Qed.

Lemma header_total (text : string) :
  ∃ h, index (split ">" text) 0 = Ok h.
Proof. destruct (split_head ">" text) as (l & rest & ->). by exists l. Qed.

Lemma header_before_prompt (name rest : string) :
  contains ">" name = false →
  index (split ">" (name +:+ ">" +:+ rest)) 0 = Ok name.
Proof.
  intros H. by rewrite split_cut by (done || apply head_unique_prompt).
Qed.

Lemma header_without_prompt (text : string) :
  contains ">" text = false → index (split ">" text) 0 = Ok text.
Proof. intros H. by rewrite split_without. Qed.

Lemma table_after_marker (pre table : string) :
  contains "Port ID" pre = false → contains "Port ID" table = false →
  index (split "Port ID" (pre +:+ "Port ID" +:+ table)) 1 = Ok table.
Proof.
  intros Hp Ht.
  rewrite split_cut by (done || apply head_unique_marker).
  by rewrite split_without.
Qed.

Lemma table_missing (text : string) :
  contains "Port ID" text = false →
  index (split "Port ID" text) 1 = Raise IndexError.
Proof. intros H. by rewrite split_without. Qed.

(** Without the marker there is no table to index. *)
Lemma parse_cdp_nei_without_marker (text : string) :
  contains "Port ID" text = false → parse_cdp_nei text = Raise IndexError.
Proof.
  intros H. unfold parse_cdp_nei.
  destruct (header_total text) as [header ->]. cbn [mbind result_bind].
  by rewrite table_missing.
Qed.

Lemma lines_of_table (raw : list string) :
  Forall (λ l, contains nl l = false) raw →
  let neighbors := split nl (join nl raw) in
  drop_empty (length neighbors) neighbors = filter (λ l, l ≠ "") raw.
Proof.
  intros H. cbn zeta. rewrite drop_empty_filter by done.
  destruct raw as [|l raw]; [done |].
  by rewrite split_join_nl.
Qed.

End ParserFacts.

(** ** C6: what the parser extracts from a well-formed text *)

Module ParserClaims.
Import PyStr Notions PyStrFacts Marathon ParserFacts Samples More.

(** C6.  A well-formed neighbor text is a device name free of the prompt
  marker, the marker, any text, the column header ending in "Port ID"
  (its only occurrence), and newline-separated lines of which the
  non-blank ones carry at least three whitespace fields.  On such a text
  the parser returns the dictionary obtained by inserting, for each
  non-blank line in turn, the key (device name without newlines, second
  field ++ third field) with the value (first field, next-to-last field
  ++ last field): every line that is the last one with its key is mapped
  to its own value, and every entry stems from a line.  On the text
  "R1>..." with the single line "R2 Gig 0/1 ... Gig 0/2" the result is
  exactly (R1, Gig0/1) -> (R2, Gig0/2). *)
Theorem parse_cdp_nei_well_formed (name junk : string) (raw : list string) :
contains ">" name = false →
contains "Port ID" (name +:+ ">" +:+ junk) = false →
contains "Port ID" (join nl raw) = false →
Forall (λ l, contains nl l = false) raw →
Forall (λ l, l = "" ∨ 3 ≤ length (split_ws l)) raw →
let text := name +:+ ">" +:+ junk +:+ "Port ID" +:+ join nl raw in
let host := delete_char newline name in
let lines := filter (λ l, l ≠ "") raw in
parse_cdp_nei text = Ok (relations_of host lines) ∧
(∀ i line,
   lines !! i = Some line →
   (∀ j line', i < j → lines !! j = Some line' →
               relation_key host line' ≠ relation_key host line) →
   relations_of host lines !! relation_key host line
     = Some (relation_value line)) ∧
(∀ k v,
   relations_of host lines !! k = Some v →
   ∃ line, line ∈ lines ∧ k = relation_key host line ∧ v = relation_value line) ∧
parse_cdp_nei neighbors_R1 = Ok {[ ("R1", "Gig0/1") := ("R2", "Gig0/2") ]}.
Proof.
intros Hname Hpre Htable Hnl Hfields text host lines.
split; [| split; [| split]].
- unfold parse_cdp_nei, text.
  rewrite header_before_prompt by done. cbn [mbind result_bind].
  replace (name +:+ ">" +:+ junk +:+ "Port ID" +:+ join nl raw)
    with ((name +:+ ">" +:+ junk) +:+ "Port ID" +:+ join nl raw)
    by (by rewrite !app_assoc).
  rewrite table_after_marker by done. cbn [mbind result_bind].
  rewrite lines_of_table by done.
  change nl with (String newline "") at 1. rewrite replace_char_empty.
  apply for_neighbors_ok.
  apply Forall_forall. intros line [Hne Hin]%list_elem_of_filter.
  rewrite Forall_forall in Hfields. by destruct (Hfields _ Hin).
- intros i line Hi Hlast. unfold relations_of.
  by eapply fold_insert_last.
- intros k v H. unfold relations_of in H.
  apply fold_insert_origin in H as [H | H]; [| done].
  by rewrite lookup_empty in H.
- vm_compute. reflexivity.
Qed.

Lemma parse_cdp_nei_well_formed_witness :
  parse_cdp_nei neighbors_R1 =
    Ok (relations_of "R1" ["R2  Gig 0/1  150  R S I  3725  Gig 0/2"]).
Proof.
  refine (proj1 (parse_cdp_nei_well_formed "R1"
    ("show cdp neighbors" +:+ nl +:+
     "Device ID  Local Intrfce  Holdtme  Capability  Platform  ")
    [""; "R2  Gig 0/1  150  R S I  3725  Gig 0/2"; ""] _ _ _ _ _)).
  - vm_compute; reflexivity.
  - vm_compute; reflexivity.
  - vm_compute; reflexivity.
  - do 3 (constructor; [vm_compute; reflexivity |]). constructor.
  - constructor; [by left |].
    constructor; [right; vm_compute; lia |].
    constructor; [by left |]. constructor.
Defined.

(** C10.  The header extraction returns for every text.  For a text that
    contains "Port ID" and no ">", it returns the whole text, so the
    device name is the text with its newline characters deleted; the table
    is found and the parser runs the loop over its non-blank lines with
    that name.  The parser does not succeed on every such text: it returns
    exactly when each of these lines carries at least three fields, and
    then the result is the dictionary of their relations, every key of
    which has that name as its first component and stems from one of the
    lines; when a line carries fewer fields it raises IndexError. *)
Theorem parse_cdp_nei_without_prompt (text : string) :
  contains "Port ID" text = true →
  contains ">" text = false →
  let host := delete_char newline text in
  let lines := filter (λ l, l ≠ "") (split nl (table_of text)) in
  (∀ t, ∃ header, index (split ">" t) 0 = Ok header) ∧
  index (split ">" text) 0 = Ok text ∧
  replace nl "" text = host ∧
  index (split "Port ID" text) 1 = Ok (table_of text) ∧
  parse_cdp_nei text = for_neighbors host ∅ lines ∧
  (Forall (λ line, 3 ≤ length (split_ws line)) lines →
   parse_cdp_nei text = Ok (relations_of host lines) ∧
   ∀ k v, relations_of host lines !! k = Some v →
          k.1 = host ∧
          ∃ line, line ∈ lines ∧ k = relation_key host line ∧
                  v = relation_value line) ∧
  (Exists (λ line, length (split_ws line) < 3) lines →
   parse_cdp_nei text = Raise IndexError) ∧
  (is_Ok (parse_cdp_nei text) = true ↔
   Forall (λ line, 3 ≤ length (split_ws line)) lines).
Proof.
  intros Hmarker Hprompt host lines.
  split; [apply header_total |].
  split; [by apply header_without_prompt |].
  split; [apply (replace_char_empty newline) |].
  destruct (split_second _ _ Hmarker) as (pre & table & rest & Hsplit).
  assert (table_of text = table) as Htable by (unfold table_of; by rewrite Hsplit).
  split; [by rewrite Hsplit, Htable |].
  assert (parse_cdp_nei text = for_neighbors host ∅ lines) as Hparse.
  { unfold parse_cdp_nei. rewrite header_without_prompt by done.
    cbn [mbind result_bind]. rewrite Hsplit.
    change (index (pre :: table :: rest) 1) with (Ok (A:=string) table).
    cbn [mbind result_bind]. rewrite drop_empty_filter by done.
    change nl with (String newline "") at 1. rewrite replace_char_empty.
    unfold lines. by rewrite Htable. }
  split; [done |].
  assert (Forall (λ line, 3 ≤ length (split_ws line)) lines →
          parse_cdp_nei text = Ok (relations_of host lines)) as Hok.
  { intros Hlines. rewrite Hparse. by apply for_neighbors_ok. }
  assert (Exists (λ line, length (split_ws line) < 3) lines →
          parse_cdp_nei text = Raise IndexError) as Hshort.
  { intros Hlines. rewrite Hparse. by apply for_neighbors_short. }
  split; [| split; [done |]].
  - intros Hlines. split; [by apply Hok |].
    intros k v H. unfold relations_of in H.
    apply fold_insert_origin in H as [H | (line & Hin & -> & ->)].
    + by rewrite lookup_empty in H.
    + split; [done |]. by exists line.
  - split.
    + intros Hres.
      destruct (Forall_Exists_dec (λ line, 3 ≤ length (split_ws line))
                  (λ line, length (split_ws line) < 3)
                  (λ line, le_lt_dec 3 (length (split_ws line))) lines)
        as [HF | HE]; [done |].
      by rewrite (Hshort HE) in Hres.
    + intros Hlines. by rewrite Hok.
Qed.

Lemma parse_cdp_nei_without_prompt_witness :
  index (split ">" neighbors_bare) 0 = Ok neighbors_bare ∧
  parse_cdp_nei neighbors_bare =
    Ok (relations_of (delete_char newline neighbors_bare)
          ["R2  Gig 0/1  150  R S I  3725  Gig 0/2"]) ∧
  is_Ok (parse_cdp_nei neighbors_bare) = true.
Proof.
  assert (Forall (λ line, 3 ≤ length (split_ws line))
            (filter (λ l, l ≠ "") (split nl (table_of neighbors_bare)))) as Hlines.
  { vm_compute filter. constructor; [vm_compute; lia | constructor]. }
  destruct (parse_cdp_nei_without_prompt neighbors_bare)
    as (_ & Hheader & _ & _ & _ & Hok & _ & Hiff).
  - vm_compute; reflexivity.
  - vm_compute; reflexivity.
  - split; [exact Hheader |]. split.
    + exact (proj1 (Hok Hlines)).
    + exact (proj2 Hiff Hlines).
Defined.

(** C10, as stated, fails: the text made of the marker, a newline and the
    line "R2 Gig" contains "Port ID" and no ">", and the parser raises
    IndexError on it. *)
Lemma parse_cdp_nei_without_prompt_short_line :
  contains "Port ID" neighbors_bare_short = true ∧
  contains ">" neighbors_bare_short = false ∧
  parse_cdp_nei neighbors_bare_short = Raise IndexError.
Proof. repeat split; vm_compute; reflexivity. Qed.

(** C5.  A neighbor text without the "Port ID" marker, or with a neighbor
    line of two fields, makes the parser raise IndexError; inside the
    topology step the [except Error] clause then raises NameError, and the
    pipeline of the device ends with that exception instead of a record. *)
Theorem parse_failure_crashes_worker :
  parse_cdp_nei neighbors_garbled = Raise IndexError ∧
  parse_cdp_nei neighbors_short_line = Raise IndexError ∧
  (check_cdp 0 "R1" (on_line R1_garbled)).1 = Raise (NameError "Error") ∧
  (check_cdp 0 "R1" (on_line R1_short_line)).1 = Raise (NameError "Error") ∧
  (process_target row_R1 stamp [] lab_garbled).1 = Raise (NameError "Error") ∧
  (process_target row_R1 stamp [] lab_short_line).1 = Raise (NameError "Error").
Proof. repeat split; vm_compute; reflexivity. Qed.

End ParserClaims.

(** ** Running the computations *)

Module RunFacts.
Import PyStr Notions Netmiko Marathon.

Lemma bind_unfold {A B} (m : M A) (f : A → M B) (w : World) :
  (m ≫= f) w =
    match m w with
    | (Ok a, w') => f a w'
    | (Raise e, w') => (Raise e, w')
    end.
Proof. reflexivity. Qed.

Lemma bind_Ok {A B} (m : M A) (f : A → M B) (w w' : World) a :
  m w = (Ok a, w') → (m ≫= f) w = f a w'.
Proof. intros H. by rewrite bind_unfold, H. Qed.

Lemma bind_Raise {A B} (m : M A) (f : A → M B) (w w' : World) e :
  m w = (Raise e, w') → (m ≫= f) w = (Raise e, w').
Proof. intros H. by rewrite bind_unfold, H. Qed.

Lemma bind_Ok_inv {A B} (m : M A) (f : A → M B) (w w' : World) b :
  (m ≫= f) w = (Ok b, w') →
  ∃ a w1, m w = (Ok a, w1) ∧ f a w1 = (Ok b, w').
Proof.
  rewrite bind_unfold. destruct (m w) as [[a|e] w1]; [eauto | done].
Qed.

(** No name [Error] is bound when an [except Error:] clause is reached:
    whatever the body raised, the clause raises NameError and its handler
    is not run. *)
Lemma try_except_Error {A} (body handler : M A) (w : World) :
  try_except body "Error" handler w =
    match body w with
    | (Ok a, w') => (Ok a, w')
    | (Raise _, w') => (Raise (NameError "Error"), w')
    end.
Proof. unfold try_except. by destruct (body w) as [[a|e] w']. Qed.

Lemma method_run (conn : nat) (c : call) b h w :
  session_at conn b h w →
  method conn c w = (b (c :: h), touch conn b (c :: h) w).
Proof. unfold session_at, method. by intros ->. Qed.

Lemma session_at_touch (conn : nat) b h h' w :
  session_at conn b h w → session_at conn b h' (touch conn b h' w).
Proof.
  unfold session_at, touch. intros H. cbn.
  apply list_lookup_insert_eq. by eapply lookup_lt_Some.
Qed.

Lemma session_at_stdout (conn : nat) b h l w :
  session_at conn b h w → session_at conn b h (set_stdout l w).
Proof. done. Qed.

Lemma session_at_slept (conn : nat) b h n w :
  session_at conn b h w → session_at conn b h (set_slept n w).
Proof. done. Qed.

Lemma bind_method {B} (conn : nat) (c : call) b h w (k : string → M B) out :
  session_at conn b h w → b (c :: h) = Ok out →
  (method conn c ≫= k) w = k out (touch conn b (c :: h) w).
Proof. intros Hs Hb. rewrite bind_unfold, (method_run _ _ _ _ _ Hs), Hb. done. Qed.

Lemma bind_method_Raise {B} (conn : nat) (c : call) b h w (k : string → M B) e :
  session_at conn b h w → b (c :: h) = Raise e →
  (method conn c ≫= k) w = (Raise e, touch conn b (c :: h) w).
Proof. intros Hs Hb. rewrite bind_unfold, (method_run _ _ _ _ _ Hs), Hb. done. Qed.

Lemma bind_print {B} (line : string) (k : unit → M B) (w : World) :
  (print line ≫= k) w = k tt (set_stdout (stdout w ++ [line]) w).
Proof. reflexivity. Qed.

Lemma bind_sleep {B} (n : nat) (k : unit → M B) (w : World) :
  (sleep n ≫= k) w = k tt (set_slept (slept w + n) w).
Proof. reflexivity. Qed.

Lemma bind_ret {A B} (a : A) (k : A → M B) (w : World) :
  (mret a ≫= k) w = k a w.
Proof. reflexivity. Qed.

Lemma bind_assoc {A B C} (m : M A) (f : A → M B) (g : B → M C) (w : World) :
  ((m ≫= f) ≫= g) w = (m ≫= λ a, f a ≫= g) w.
Proof. rewrite !bind_unfold. by destruct (m w) as [[a|e] w']. Qed.

Ltac flat := cbv beta; rewrite ?bind_assoc, ?bind_ret; cbv beta.

(** One call on the connection of the goal, answered by a device that
    answers everything. *)
Ltac call Hb :=
  flat;
  lazymatch goal with
  | Hs : session_at ?conn ?b ?h ?w |- context [ (method ?conn ?c ≫= ?k) ?w ] =>
      let out := fresh "out" in
      let E := fresh "E" in
      destruct (Hb (c :: h)) as [out E];
      rewrite (bind_method conn c b h w k out Hs E);
      apply (session_at_touch conn b h (c :: h)) in Hs
  end.

Ltac say :=
  flat;
  lazymatch goal with
  | Hs : session_at ?conn ?b ?h ?w |- context [ (print ?l ≫= ?k) ?w ] =>
      rewrite (bind_print l k w);
      apply (session_at_stdout conn b h (stdout w ++ [l])) in Hs
  end.

Ltac nap :=
  flat;
  lazymatch goal with
  | Hs : session_at ?conn ?b ?h ?w |- context [ (sleep ?n ≫= ?k) ?w ] =>
      rewrite (bind_sleep n k w);
      apply (session_at_slept conn b h (slept w + n)) in Hs
  end.

Lemma config_ntp_run (conn : nat) (hostname ntp_type : string) b h w :
  session_at conn b h w → answers b →
  ∃ out h' w',
    config_ntp conn hostname ntp_type w =
      (Ok (VStr (if contains "Clock is synchronized" out
                 then "Clock in Sync" else "Clock not in Sync")), w') ∧
    session_at conn b (SendCommand "sho ntp status" :: h') w' ∧
    b (SendCommand "sho ntp status" :: h') = Ok out.
Proof.
  intros Hs Hb. unfold config_ntp. rewrite try_except_Error.
  unfold enable, send_config_set, send_command.
  call Hb. call Hb.
  destruct (ntp_type =? "server")%string;
    [| destruct (ntp_type =? "client")%string ];
    flat; try call Hb; flat; nap; call Hb;
    (destruct (contains "Clock is synchronized" _) eqn:Ec;
     say; say; flat;
     eexists _, _, _; (split; [| split; [exact Hs | eassumption]]);
     rewrite Ec; reflexivity).
Qed.

(** *** What a computation leaves untouched *)

Section preserves.
Context (R : World → World → Prop) `{!Reflexive R, !Transitive R}.

Lemma preserves_ret {A} (a : A) : preserves R (mret a).
Proof. intros w. reflexivity. Qed.

Lemma preserves_raise {A} (e : exn) : preserves R (raise e : M A).
Proof. intros w. reflexivity. Qed.

Lemma preserves_lift {A} (r : result A) : preserves R (lift r).
Proof. intros w. reflexivity. Qed.

Lemma preserves_world : preserves R world.
Proof. intros w. reflexivity. Qed.

Lemma preserves_bind {A B} (m : M A) (f : A → M B) :
  preserves R m → (∀ a, preserves R (f a)) → preserves R (m ≫= f).
Proof.
  intros Hm Hf w. rewrite bind_unfold. specialize (Hm w).
  destruct (m w) as [[a|e] w1]; [| done].
  etrans; [exact Hm | apply Hf].
Qed.

Lemma preserves_try {A} (body handler : M A) (cls : string) :
  preserves R body → preserves R handler →
  preserves R (try_except body cls handler).
Proof.
  intros Hb Hh w. unfold try_except. specialize (Hb w).
  destruct (body w) as [[a|e] w1]; [done |].
  destruct (resolve cls) as [[c|]|]; [| done | done].
  destruct (isinstance e c); [| done].
  etrans; [exact Hb | apply Hh].
Qed.

Lemma preserves_getitem (d : gmap string string) (key : string) :
  preserves R (getitem d key).
Proof. intros w. unfold getitem. destruct (d !! key); reflexivity. Qed.

Lemma preserves_add (s : string) (v : value) : preserves R (add s v).
Proof. intros w. destruct v; reflexivity. Qed.

End preserves.

#[global] Instance same_env_refl : Reflexive same_env.
Proof. by intros w. Qed.
#[global] Instance same_env_trans : Transitive same_env.
Proof.
  intros w1 w2 w3 (? & ? & ? & ?) (? & ? & ? & ?).
  repeat split; congruence.
Qed.
#[global] Instance frame_refl conn : Reflexive (frame conn).
Proof. by intros w. Qed.
#[global] Instance frame_trans conn : Transitive (frame conn).
Proof.
  intros w1 w2 w3 (E1 & L1 & F1) (E2 & L2 & F2).
  split; [by etrans | split; [congruence |]].
  intros i Hi. by rewrite F2, F1.
Qed.

Lemma frame_same_env conn w w' : frame conn w w' → same_env w w'.
Proof. by intros [? _]. Qed.

Lemma frame_print conn line : preserves (frame conn) (print line).
Proof. by intros w. Qed.
Lemma frame_sleep conn n : preserves (frame conn) (sleep n).
Proof. by intros w. Qed.
Lemma frame_fs_do conn c : preserves (frame conn) (Os.fs_do c).
Proof. by intros w. Qed.

Lemma frame_method conn c : preserves (frame conn) (method conn c).
Proof.
  intros w. unfold method. destruct (sessions w !! conn) as [s|]; [| done].
  destruct (is_open s); [| done]. unfold set_sessions; simpl.
  split; [done | split]; simpl.
  - by rewrite length_insert.
  - intros i Hi. by rewrite list_lookup_insert_ne.
Qed.

Lemma frame_disconnect conn : preserves (frame conn) (disconnect conn).
Proof.
  intros w. unfold disconnect, set_sessions; simpl.
  destruct (sessions w !! conn) as [s|]; [| done].
  split; [done | split]; simpl.
  - by rewrite length_insert.
  - intros i Hi. by rewrite list_lookup_insert_ne.
Qed.

Lemma env_print line : preserves same_env (print line).
Proof. by intros w. Qed.
Lemma env_sleep n : preserves same_env (sleep n).
Proof. by intros w. Qed.
Lemma env_fs_do c : preserves same_env (Os.fs_do c).
Proof. by intros w. Qed.
Lemma env_method conn c : preserves same_env (method conn c).
Proof. intros w. apply (frame_same_env conn), frame_method. Qed.
Lemma env_disconnect conn : preserves same_env (disconnect conn).
Proof. intros w. apply (frame_same_env conn), frame_disconnect. Qed.
Lemma env_ConnectHandler a b c d : preserves same_env (ConnectHandler a b c d).
Proof. intros w. unfold ConnectHandler. by destruct (network w a b c d). Qed.

Create HintDb pres discriminated.
#[global] Hint Resolve preserves_ret preserves_raise preserves_lift
  preserves_world preserves_getitem preserves_add
  frame_print frame_sleep frame_fs_do frame_method frame_disconnect
  env_print env_sleep env_fs_do env_method env_disconnect env_ConnectHandler
  : pres.

(** Goes through a computation bind by bind. *)
Ltac pres :=
  repeat first
    [ solve [ eauto with pres typeclass_instances ]
    | progress intros
    | progress cbv zeta
    | apply preserves_bind
    | apply preserves_try
    | match goal with
      | |- preserves _ (if ?c then _ else _) => destruct c
      | |- preserves _ (match ?x with _ => _ end) => destruct x
      end ].

Lemma frame_create_backup conn path hostname :
  preserves (frame conn) (create_backup conn path hostname).
Proof. unfold create_backup, enable, send_command, Os.write_file. pres. Qed.

Lemma frame_check_cdp conn hostname :
  preserves (frame conn) (check_cdp conn hostname).
Proof. unfold check_cdp, enable, send_command, send_config_set. pres. Qed.

Lemma frame_config_ntp conn hostname ntp_type :
  preserves (frame conn) (config_ntp conn hostname ntp_type).
Proof. unfold config_ntp, enable, send_command, send_config_set. pres. Qed.

Lemma frame_Check_NPE conn hostname :
  preserves (frame conn) (Check_NPE conn hostname).
Proof. unfold Check_NPE, enable, send_command. pres. Qed.

Lemma frame_Check_ver conn hostname :
  preserves (frame conn) (Check_ver conn hostname).
Proof. unfold Check_ver, enable, send_command. pres. Qed.

Lemma frame_Check_dev_pid conn hostname :
  preserves (frame conn) (Check_dev_pid conn hostname).
Proof. unfold Check_dev_pid, enable, send_command. pres. Qed.

Lemma frame_get_backup_file_path conn hostname timestamp :
  preserves (frame conn) (get_backup_file_path hostname timestamp).
Proof.
  unfold get_backup_file_path, BACKUP_DIR_PATH, Os.path_exists, Os.mkdir. pres.
Qed.

(** *** The pipeline of one device *)

Lemma preserves_run {A} (R : World → World → Prop) (m : M A) w r w' :
  preserves R m → m w = (r, w') → R w w'.
Proof. intros H E. specialize (H w). by rewrite E in H. Qed.

Lemma getitem_inv (d : gmap string string) (key : string) w v w' :
  getitem d key w = (Ok v, w') → d !! key = Some v ∧ w' = w.
Proof.
  unfold getitem. destruct (d !! key); [| done]. by intros [= -> ->].
Qed.

Lemma getitem_Some (d : gmap string string) (key : string) v :
  d !! key = Some v → getitem d key = mret v.
Proof. unfold getitem. by intros ->. Qed.

Lemma add_inv (s : string) (v : value) w t w' :
  add s v w = (Ok t, w') → ∃ x, v = VStr x ∧ t = s +:+ x ∧ w' = w.
Proof. destruct v as [x|]; [| done]. intros [= <- <-]. by exists x. Qed.

Lemma connect_to_device_fails (d : gmap string string) (e : exn) w :
  connect_fails w d e → connect_to_device d w = (Raise e, w).
Proof.
  intros (ip & u & pw & ty & Hip & Hu & Hpw & Hty & Hnet).
  unfold connect_to_device.
  rewrite (getitem_Some _ _ _ Hip), (getitem_Some _ _ _ Hu),
    (getitem_Some _ _ _ Hpw), (getitem_Some _ _ _ Hty).
  rewrite !bind_ret. apply bind_Raise.
  unfold ConnectHandler. by rewrite Hnet.
Qed.

Lemma connect_to_device_Ok (d : gmap string string) w conn w' :
  connect_to_device d w = (Ok conn, w') →
  conn = length (sessions w) ∧
  ∃ b, sessions w' = sessions w ++ [mkConnection b [] true].
Proof.
  unfold connect_to_device. intros H.
  do 4 (apply bind_Ok_inv in H as (? & ? & [_ ->]%getitem_inv & H)).
  apply bind_Ok_inv in H as (c & w1 & Hc & H).
  apply bind_Ok_inv in H as (? & ? & [_ ->]%getitem_inv & H).
  rewrite !bind_print in H. injection H as <- <-.
  unfold ConnectHandler in Hc.
  destruct (network w _ _ _ _) as [b|]; [| done].
  injection Hc as <- <-. split; [done |]. by exists b.
Qed.

Lemma env_connect_to_device d : preserves same_env (connect_to_device d).
Proof. unfold connect_to_device. pres. Qed.

Lemma process_target_connect_fails (d : gmap string string) (e : exn)
    (timestamp : string) (result : list string) w :
  connect_fails w d e → process_target d timestamp result w = (Raise e, w).
Proof.
  intros H. unfold process_target. apply bind_Raise.
  by apply connect_to_device_fails.
Qed.

Lemma preserves_frame_env {A} conn (m : M A) :
  preserves (frame conn) m → preserves same_env m.
Proof. intros H w. by eapply frame_same_env. Qed.

Lemma env_process_target d timestamp result :
  preserves same_env (process_target d timestamp result).
Proof.
  unfold process_target, disconnect_from_device.
  pose proof env_connect_to_device.
  pose proof (λ a b, preserves_frame_env 0 _ (frame_get_backup_file_path 0 a b)).
  pose proof (λ c a b, preserves_frame_env c _ (frame_create_backup c a b)).
  pose proof (λ c a, preserves_frame_env c _ (frame_Check_dev_pid c a)).
  pose proof (λ c a, preserves_frame_env c _ (frame_Check_ver c a)).
  pose proof (λ c a, preserves_frame_env c _ (frame_check_cdp c a)).
  pose proof (λ c a, preserves_frame_env c _ (frame_Check_NPE c a)).
  pose proof (λ c a b, preserves_frame_env c _ (frame_config_ntp c a b)).
  pres.
Qed.

Lemma closed_after_frame conn w w1 w2 b :
  conn = length (sessions w) →
  sessions w1 = sessions w ++ [mkConnection b [] true] →
  frame conn w1 w2 →
  ∃ s, sessions w2 = sessions w ++ [s] ∧
       sessions (disconnect conn w2).2 =
         sessions w ++ [mkConnection (device s) (history s) false].
Proof.
  intros -> Hs1 (_ & Hlen & Hother).
  rewrite Hs1, length_app in Hlen. cbn in Hlen.
  destruct (sessions w2 !! length (sessions w)) as [s|] eqn:Es;
    [| apply lookup_ge_None in Es; lia].
  assert (sessions w2 = sessions w ++ [s]) as E2.
  { apply list_eq. intros i.
    destruct (decide (i = length (sessions w))) as [->|Hi].
    - rewrite Es. by rewrite list_lookup_middle.
    - rewrite Hother, Hs1 by done.
      destruct (decide (i < length (sessions w))).
      + by rewrite !lookup_app_l.
      + rewrite !lookup_app_r by lia.
        destruct (i - length (sessions w)) as [|k] eqn:En; [lia | done]. }
  exists s. split; [done |].
  unfold disconnect, set_sessions; simpl. rewrite Es, E2.
  replace (length (sessions w)) with (length (sessions w) + 0) at 1 by lia.
  by rewrite insert_app_r.
Qed.

(** A pipeline that returns its record has opened exactly one session and
    closed it, and the record starts with the host name of the row. *)
Lemma process_target_Ok (d : gmap string string) (timestamp : string)
    (result : list string) w record w' :
  process_target d timestamp result w = (Ok record, w') →
  (∃ host rest, d !! "hostname" = Some host ∧ record = host +:+ "|" +:+ rest) ∧
  ∃ b h, sessions w' = sessions w ++ [mkConnection b h false].
Proof.
  unfold process_target. intros H.
  apply bind_Ok_inv in H as (conn & w1 & Hconn & H).
  apply connect_to_device_Ok in Hconn as [Hc [b Hs1]].
  apply bind_Ok_inv in H as (host & ? & [Hhost ->]%getitem_inv & H).
  apply bind_Ok_inv in H as (? & w2 & F2 & H).
  apply (preserves_run (frame conn)) in F2; [| apply frame_get_backup_file_path].
  apply bind_Ok_inv in H as (? & ? & [_ ->]%getitem_inv & H).
  apply bind_Ok_inv in H as (? & w3 & F3 & H).
  apply (preserves_run (frame conn)) in F3; [| apply frame_create_backup].
  apply bind_Ok_inv in H as (? & ? & [_ ->]%getitem_inv & H).
  apply bind_Ok_inv in H as (pid & w4 & F4 & H).
  apply (preserves_run (frame conn)) in F4; [| apply frame_Check_dev_pid].
  apply bind_Ok_inv in H as (? & ? & [_ ->]%getitem_inv & H).
  apply bind_Ok_inv in H as (ver & w5 & F5 & H).
  apply (preserves_run (frame conn)) in F5; [| apply frame_Check_ver].
  apply bind_Ok_inv in H as (? & ? & [_ ->]%getitem_inv & H).
  apply bind_Ok_inv in H as (cdp & w6 & F6 & H).
  apply (preserves_run (frame conn)) in F6; [| apply frame_check_cdp].
  apply bind_Ok_inv in H as (? & ? & [_ ->]%getitem_inv & H).
  apply bind_Ok_inv in H as (npe & w7 & F7 & H).
  apply (preserves_run (frame conn)) in F7; [| apply frame_Check_NPE].
  apply bind_Ok_inv in H as (? & ? & [_ ->]%getitem_inv & H).
  apply bind_Ok_inv in H as (? & ? & [_ ->]%getitem_inv & H).
  apply bind_Ok_inv in H as (ntp & w8 & F8 & H).
  apply (preserves_run (frame conn)) in F8; [| apply frame_config_ntp].
  apply bind_Ok_inv in H as (? & ? & [_ ->]%getitem_inv & H).
  apply bind_Ok_inv in H as ([] & w9 & Hd & H).
  apply bind_Ok_inv in H as (host' & ? & [Hhost' ->]%getitem_inv & H).
  apply bind_Ok_inv in H as (s1 & ? & (part1 & -> & -> & ->)%add_inv & H).
  apply bind_Ok_inv in H as (s2 & ? & (part2 & -> & -> & ->)%add_inv & H).
  apply bind_Ok_inv in H as (s3 & ? & (part3 & -> & -> & ->)%add_inv & H).
  apply bind_Ok_inv in H as (s4 & ? & (part4 & -> & -> & ->)%add_inv & H).
  apply bind_Ok_inv in H as (s5 & ? & (part5 & -> & -> & ->)%add_inv & H).
  rewrite bind_print in H. injection H as <- <-.
  assert (frame conn w1 w8) as F.
  { do 6 (etrans; [eassumption |]). done. }
  destruct (closed_after_frame conn w w1 w8 b Hc Hs1 F) as (s & _ & Hclosed).
  unfold disconnect_from_device in Hd.
  assert (w9 = (disconnect conn w8).2) as -> by (by rewrite Hd).
  split.
  - exists host', (part1 +:+ "|" +:+ part2 +:+ "|" +:+ part3 +:+ "|" +:+ part4 +:+ "|" +:+ part5).
    split; [done |]. by rewrite !PyStrFacts.app_assoc.
  - by exists (device s), (history s).
Qed.

(** *** The pool *)

Lemma connect_fails_env w w' d e :
  same_env w w' → connect_fails w d e → connect_fails w' d e.
Proof.
  intros (Hn & _) (ip & u & pw & ty & ? & ? & ? & ? & ?).
  exists ip, u, pw, ty. rewrite Hn. done.
Qed.

Lemma submit_all_run (rows : list (gmap string string)) (timestamp : string)
    (result : list string) w :
  ∃ ps w',
    submit_all rows timestamp result w = (Ok ps, w') ∧
    same_env w w' ∧
    Forall2 (λ row p, ∃ w0 w1, same_env w w0 ∧
                       process_target row timestamp result w0 = (p, w1))
            rows ps.
Proof.
  revert w. induction rows as [|row rows IH]; intros w.
  - exists [], w. by repeat split.
  - cbn [submit_all]. rewrite bind_unfold. unfold apply_async at 1.
    destruct (process_target row timestamp result w) as [p w1] eqn:E.
    assert (same_env w w1) as Env1.
    { by eapply preserves_run; [apply env_process_target |]. }
    destruct (IH w1) as (ps & w' & Hps & Env & Hall).
    rewrite bind_unfold, Hps. exists (p :: ps), w'.
    split; [done | split; [by etrans |]].
    constructor.
    + by exists w, w1.
    + eapply Forall2_impl; [exact Hall |].
      intros r q (w0 & w2 & Env0 & Hq). exists w0, w2.
      split; [by etrans | done].
Qed.

Lemma collect_Ok (records acc : list string) w :
  collect (Ok <$> records) acc w = (Ok (acc ++ records), w).
Proof.
  revert acc. induction records as [|r records IH]; intros acc.
  - cbn. by rewrite app_nil_r.
  - cbn [fmap list_fmap collect]. unfold get. rewrite bind_unfold. cbn [lift].
    rewrite IH. by rewrite <- app_assoc.
Qed.

Lemma collect_Raise (ps : list (result string)) (acc : list string) w :
  Exists (λ p, is_Ok p = false) ps → ∃ e, collect ps acc w = (Raise e, w).
Proof.
  intros H. revert acc. induction H as [p ps Hp | p ps H IH]; intros acc.
  - destruct p as [r|e]; [done |]. by exists e.
  - destruct p as [r|e]; [| by exists e].
    cbn [collect]. unfold get. rewrite bind_unfold. cbn [lift]. apply IH.
Qed.

Lemma all_Ok (ps : list (result string)) :
  Forall (λ p, is_Ok p = true) ps → ∃ records, ps = Ok <$> records.
Proof.
  induction 1 as [|p ps Hp H [records ->]]; [by exists [] |].
  destruct p as [r|]; [| done]. by exists (r :: records).
Qed.

Lemma gather_run w (rows : list (gmap string string)) :
  csv_rows w DEVICE_FILE_PATH = Ok rows →
  gather w =
    (submit_all rows (now w) [] ≫= λ ps, collect ps []) (started w).
Proof.
  intros H. unfold gather, started, get_current_date_and_time,
    get_devices_from_file.
  unfold mbind, M_bind, mret, M_ret, print, world, lift; simpl.
  rewrite H. reflexivity.
Qed.

Lemma main_run w :
  main w =
    match gather w with
    | (Ok records, w') =>
        Os.write_file (Os.path_join (script_dir w') "result.txt")
                      (join nl records) w'
    | (Raise e, w') => (Raise e, w')
    end.
Proof. unfold main. rewrite bind_unfold. by destruct (gather w) as [[?|?] ?]. Qed.

Lemma outcomes_run w (rows : list (gmap string string)) :
  ∃ w',
    submit_all rows (now w) [] (started w) = (Ok (outcomes w rows), w') ∧
    Forall2 (λ row p, ∃ w0 w1, same_env (started w) w0 ∧
                       process_target row (now w) [] w0 = (p, w1))
            rows (outcomes w rows).
Proof.
  unfold outcomes.
  destruct (submit_all_run rows (now w) [] (started w)) as (ps & w' & -> & _ & H).
  by exists w'.
Qed.

Lemma started_env w : same_env w (started w).
Proof.
  unfold started. eapply preserves_run; [| apply surjective_pairing].
  unfold get_current_date_and_time, get_devices_from_file. pres.
Qed.

End RunFacts.

(** ** The audit steps *)

Module StepClaims.
Import PyStr Notions Netmiko Marathon Samples PyStrFacts RunFacts.

Lemma router_answers (no_cdp banner neighbors ntp_status : string) :
  answers (router no_cdp banner neighbors ntp_status).
Proof.
  intros h. unfold router. destruct h as [|[| cmd |] h]; eauto.
  repeat case_match; eauto.
Qed.

(** C9.  On an open session to a device that answers, the time-sync step
    returns; its last call is the sync-status query, and with [out] the
    answer to that query the step reports "Clock in Sync" exactly when
    [out] contains the phrase "Clock is synchronized", and "Clock not in
    Sync" for every other answer. *)
Theorem config_ntp_reports (conn : nat) (hostname ntp_type : string) b h w :
  session_at conn b h w → answers b →
  ∃ out h' v w',
    config_ntp conn hostname ntp_type w = (Ok v, w') ∧
    session_at conn b (SendCommand "sho ntp status" :: h') w' ∧
    b (SendCommand "sho ntp status" :: h') = Ok out ∧
    (v = VStr "Clock in Sync" ↔
       ∃ l r, out = l +:+ "Clock is synchronized" +:+ r) ∧
    (v = VStr "Clock in Sync" ∨ v = VStr "Clock not in Sync").
Proof.
  intros Hs Hb.
  destruct (config_ntp_run conn hostname ntp_type b h w Hs Hb)
    as (out & h' & w' & Hrun & Hs' & Hout).
  exists out, h'. eexists _, w'. split; [exact Hrun |].
  split; [done | split; [done |]].
  rewrite <- contains_iff.
  destruct (contains "Clock is synchronized" out); split; (done || eauto).
Qed.

Lemma config_ntp_reports_witness :
  ∃ out h' v w',
    config_ntp 0 "R1" "server" (on_line R1) = (Ok v, w') ∧
    session_at 0 R1 (SendCommand "sho ntp status" :: h') w' ∧
    R1 (SendCommand "sho ntp status" :: h') = Ok out ∧
    (v = VStr "Clock in Sync" ↔
       ∃ l r, out = l +:+ "Clock is synchronized" +:+ r) ∧
    (v = VStr "Clock in Sync" ∨ v = VStr "Clock not in Sync").
Proof.
  apply (config_ntp_reports 0 "R1" "server" R1 [] (on_line R1)).
  - reflexivity.
  - apply router_answers.
Defined.

(** C7, as the code has it.  On an open session to a device that answers,
    and whose answers to the neighbor query all parse, the topology step
    returns; with [d] the dictionary parsed from the answer to the neighbor
    query it reports "CDP is off" exactly when [d] is empty and
    "CDP is on, N peers" with N the size of [d] otherwise.  Whether
    discovery was disabled does not enter. *)
Theorem check_cdp_reports (conn : nat) (hostname : string) b h w :
  session_at conn b h w → answers b →
  (∀ h' out, b (SendCommand "sho cdp neigh" :: h') = Ok out →
             is_Ok (parse_cdp_nei out) = true) →
  ∃ out h' d v w',
    check_cdp conn hostname w = (Ok v, w') ∧
    session_at conn b (SendCommand "sho cdp neigh" :: h') w' ∧
    b (SendCommand "sho cdp neigh" :: h') = Ok out ∧
    parse_cdp_nei out = Ok d ∧
    (v = VStr "CDP is off" ↔ size d = 0) ∧
    (size d ≠ 0 → v = VStr ("CDP is on, " +:+ pretty (size d) +:+ " peers")).
Proof.
  intros Hs Hb Hparse. unfold check_cdp. rewrite try_except_Error.
  unfold enable, send_config_set, send_command.
  call Hb. call Hb.
  destruct (negb (contains "no cdp run" out0));
    flat; try call Hb; say; say; call Hb;
    (lazymatch goal with
     | E : b (SendCommand "sho cdp neigh" :: ?hh) = Ok ?o |- _ =>
         pose proof (Hparse _ _ E) as Hp;
         destruct (parse_cdp_nei o) as [d|] eqn:Ed; [| done];
         exists o, hh, d
     end;
     rewrite bind_unfold; unfold lift; cbv zeta;
     destruct (Nat.eqb_spec (size d) 0) as [Hz|Hz]; cbn;
     eexists _, _; repeat split; done).
Qed.

Lemma check_cdp_reports_witness :
  ∃ out h' d v w',
    check_cdp 0 "R1" (on_line R1) = (Ok v, w') ∧
    session_at 0 R1 (SendCommand "sho cdp neigh" :: h') w' ∧
    R1 (SendCommand "sho cdp neigh" :: h') = Ok out ∧
    parse_cdp_nei out = Ok d ∧
    (v = VStr "CDP is off" ↔ size d = 0) ∧
    (size d ≠ 0 → v = VStr ("CDP is on, " +:+ pretty (size d) +:+ " peers")).
Proof.
  apply (check_cdp_reports 0 "R1" R1 [] (on_line R1)).
  - reflexivity.
  - apply router_answers.
  - intros h' out H. vm_compute in H. injection H as <-.
    vm_compute. reflexivity.
Defined.

(** C7, as stated, fails in both directions: a device on which discovery
    is not disabled and that has no neighbor is reported "CDP is off", and
    a device on which discovery is disabled is reported "CDP is on, 1
    peers" once the neighbor query lists a neighbor. *)
Lemma check_cdp_off_without_disable :
  R1_quiet [SendCommand "sho run | in no cdp run"; Enable] = Ok "" ∧
  contains "no cdp run" "" = false ∧
  (check_cdp 0 "R1" (on_line R1_quiet)).1 = Ok (VStr "CDP is off") ∧
  R1_cdp_off [SendCommand "sho run | in no cdp run"; Enable] = Ok "no cdp run" ∧
  contains "no cdp run" "no cdp run" = true ∧
  (check_cdp 0 "R1" (on_line R1_cdp_off)).1 = Ok (VStr "CDP is on, 1 peers").
Proof. repeat split; vm_compute; reflexivity. Qed.

(** The licensing step returns "PE" whatever the banner says. *)
Lemma Check_NPE_run (conn : nat) (hostname : string) b h w :
  session_at conn b h w → answers b →
  ∃ w', Check_NPE conn hostname w = (Ok (VStr "PE"), w').
Proof.
  intros Hs Hb. unfold Check_NPE. rewrite try_except_Error.
  unfold enable, send_command.
  call Hb. call Hb.
  change (truthy (or_ (VStr "k9") (VBool (contains "K9" out0)))) with true.
  cbv iota. say. say. flat. by eexists.
Qed.

(** C2.  The condition of the licensing step, ['k9' or 'K9' in output], is
    true for every output: on a banner without the marker in either case
    the step still returns "PE". *)
Theorem Check_NPE_restricted_image :
  contains "k9" banner_npe = false ∧
  contains "K9" banner_npe = false ∧
  (Check_NPE 0 "SW1" (on_line SW1)).1 = Ok (VStr "PE") ∧
  ∀ output, truthy (or_ (VStr "k9") (VBool (contains "K9" output))) = true.
Proof. repeat split; vm_compute; reflexivity. Qed.

(** C3.  A banner with a single comma makes the version step fail on its
    third field.  The step does not return a sentinel: its [except Error]
    clause raises NameError, the pipeline ends there with the session still
    open and the remaining steps not run, and the run as a whole ends with
    that exception.  (A sentinel [False] could not be joined into the
    record either: [str + bool] raises TypeError.) *)
Theorem failing_step_aborts_pipeline :
  (Check_dev_pid 0 "R1" (on_line R1_one_comma)).1 = Ok (VStr " C2960 ") ∧
  (Check_ver 0 "R1" (on_line R1_one_comma)).1 = Raise (NameError "Error") ∧
  (process_target row_R1 stamp [] lab_one_comma).1 = Raise (NameError "Error") ∧
  ((λ s, (history s, is_open s)) <$>
     sessions (process_target row_R1 stamp [] lab_one_comma).2) =
    [ ([SendCommand "sho ver | in IOS"; Enable;
        SendCommand "sho ver | in IOS"; Enable;
        SendCommand "sh run"; Enable], true) ] ∧
  (main lab_one_comma).1 = Raise (NameError "Error") ∧
  (add "R1|" (VBool false) lab_one_comma).1 = Raise TypeError.
Proof. repeat split; vm_compute; reflexivity. Qed.

End StepClaims.

(** ** The pipeline and the pool *)

Module SchedulerClaims.
Import PyStr Notions Netmiko Marathon Samples PyStrFacts RunFacts.

(** C1, as the code has it.  When the pipeline of every device of the
    inventory returns, the run gathers exactly one record per device, in
    inventory order, each starting with the host name of its row, and
    writes them, newline-joined, to result.txt. *)
Theorem gather_all_complete w (rows : list (gmap string string)) :
  csv_rows w DEVICE_FILE_PATH = Ok rows →
  Forall (λ p, is_Ok p = true) (outcomes w rows) →
  ∃ records w',
    gather w = (Ok records, w') ∧
    outcomes w rows = Ok <$> records ∧
    length records = length rows ∧
    Forall2 (λ row record,
               ∃ host rest, row !! "hostname" = Some host ∧
                            record = host +:+ "|" +:+ rest)
            rows records ∧
    main w = Os.write_file (Os.path_join (script_dir w') "result.txt")
                           (join nl records) w'.
Proof.
  intros Hrows Hall.
  destruct (outcomes_run w rows) as (w' & Hsub & Hrun).
  destruct (all_Ok _ Hall) as [records Hrec].
  assert (gather w = (Ok records, w')) as Hgather.
  { rewrite (gather_run _ _ Hrows), bind_unfold, Hsub, Hrec.
    apply (collect_Ok records []). }
  exists records, w'. split; [done | split; [done |]].
  rewrite Hrec in Hrun. split; [| split].
  - apply Forall2_length in Hrun. by rewrite length_fmap in Hrun.
  - apply Forall2_fmap_r in Hrun.
    eapply Forall2_impl; [exact Hrun |].
    intros row record (w0 & w1 & _ & H).
    by destruct (process_target_Ok _ _ _ _ _ _ H) as [? _].
  - by rewrite main_run, Hgather.
Qed.

Lemma gather_all_complete_witness :
  ∃ records w',
    gather lab_two_up = (Ok records, w') ∧
    outcomes lab_two_up [row_R1; row_SW1] = Ok <$> records ∧
    length records = 2 ∧
    Forall2 (λ row record,
               ∃ host rest, row !! "hostname" = Some host ∧
                            record = host +:+ "|" +:+ rest)
            [row_R1; row_SW1] records ∧
    main lab_two_up =
      Os.write_file (Os.path_join (script_dir w') "result.txt")
                    (join nl records) w'.
Proof.
  apply (gather_all_complete lab_two_up [row_R1; row_SW1]).
  - reflexivity.
  - vm_compute. repeat constructor.
Defined.

(** C1, as stated, fails: with two devices of which the second cannot be
    reached, the pipeline of the first returns its record, yet the run
    ends with the connection error, holds no record and writes no result
    file.  The same happens without any connection failure when one step
    of one device fails. *)
Lemma gather_second_down :
  (process_target row_R1 stamp [] (started lab_second_down)).1 =
    Ok "R1| 3700 | Version 12.4(15)T14|PE|CDP is on, 1 peers|Clock in Sync" ∧
  (gather lab_second_down).1 =
    Raise (DeviceError "TCP connection to device failed") ∧
  (main lab_second_down).1 =
    Raise (DeviceError "TCP connection to device failed") ∧
  written_to "/opt/marathon/result.txt" (fs_log (main lab_second_down).2) = [] ∧
  (gather lab_one_comma).1 = Raise (NameError "Error") ∧
  written_to "/opt/marathon/result.txt" (fs_log (main lab_one_comma).2) = [].
Proof. repeat split; vm_compute; reflexivity. Qed.

(** C4, as the code has it.  A device whose session cannot be opened makes
    its pipeline raise the connection error at once, leaving the world as
    it was: no step runs and no record is produced.  Whatever the other
    devices do, the run then ends with an exception when the results are
    collected, and nothing happens after that: no result file is written. *)
Theorem main_connect_failure w (rows : list (gmap string string)) d e :
  csv_rows w DEVICE_FILE_PATH = Ok rows →
  d ∈ rows →
  connect_fails w d e →
  (∀ timestamp result, process_target d timestamp result w = (Raise e, w)) ∧
  Raise e ∈ outcomes w rows ∧
  ∃ e' w', gather w = (Raise e', w') ∧ main w = (Raise e', w').
Proof.
  intros Hrows Hd Hfail.
  split; [by intros; apply process_target_connect_fails |].
  destruct (outcomes_run w rows) as (w' & Hsub & Hrun).
  assert (Raise e ∈ outcomes w rows) as Hin.
  { apply list_elem_of_lookup in Hd as [i Hi].
    destruct (Forall2_lookup_l _ _ _ _ _ Hrun Hi) as (p & Hp & w0 & w1 & Env & H).
    rewrite (process_target_connect_fails _ e) in H.
    - injection H as <- _. apply list_elem_of_lookup. by exists i.
    - eapply connect_fails_env; [| exact Hfail].
      etrans; [apply started_env | exact Env]. }
  split; [done |].
  destruct (collect_Raise (outcomes w rows) [] w') as [e' He'].
  { apply Exists_exists. by exists (Raise e). }
  exists e', w'.
  assert (gather w = (Raise e', w')) as Hgather.
  { by rewrite (gather_run _ _ Hrows), bind_unfold, Hsub. }
  split; [done |]. by rewrite main_run, Hgather.
Qed.

Lemma main_connect_failure_witness :
  (∀ timestamp result,
     process_target row_down timestamp result lab_first_down =
       (Raise (DeviceError "TCP connection to device failed"), lab_first_down)) ∧
  Raise (DeviceError "TCP connection to device failed")
    ∈ outcomes lab_first_down [row_down; row_R1; row_SW1] ∧
  ∃ e' w', gather lab_first_down = (Raise e', w') ∧
           main lab_first_down = (Raise e', w').
Proof.
  apply (main_connect_failure lab_first_down [row_down; row_R1; row_SW1] row_down).
  - reflexivity.
  - left.
  - exists "10.0.0.9", "admin", "cisco", "cisco_ios".
    repeat split; vm_compute; reflexivity.
Defined.

(** C4, as stated, fails: with the first of three devices unreachable, its
    pipeline yields an exception and no record, the two other pipelines
    return their records, and the run ends with the connection error
    without writing the result file. *)
Lemma main_first_down :
  (process_target row_down stamp [] (started lab_first_down)).1 =
    Raise (DeviceError "TCP connection to device failed") ∧
  is_Ok <$> outcomes lab_first_down [row_down; row_R1; row_SW1] =
    [false; true; true] ∧
  (main lab_first_down).1 =
    Raise (DeviceError "TCP connection to device failed") ∧
  written_to "/opt/marathon/result.txt" (fs_log (main lab_first_down).2) = [].
Proof. repeat split; vm_compute; reflexivity. Qed.

(** C8, as the code has it.  A pipeline that returns its record has opened
    exactly one session and closed it; the sessions that existed before
    are as they were. *)
Theorem process_target_closes (d : gmap string string) (timestamp : string)
    (result : list string) w record w' :
  process_target d timestamp result w = (Ok record, w') →
  ∃ b h, sessions w' = sessions w ++ [mkConnection b h false].
Proof. intros H. by destruct (process_target_Ok _ _ _ _ _ _ H) as [_ ?]. Qed.

Lemma process_target_closes_witness :
  ∃ b h,
    sessions (process_target row_R1 stamp [] lab_two_up).2 =
      sessions lab_two_up ++ [mkConnection b h false].
Proof.
  apply (process_target_closes row_R1 stamp [] lab_two_up
    "R1| 3700 | Version 12.4(15)T14|PE|CDP is on, 1 peers|Clock in Sync").
  vm_compute. reflexivity.
Defined.

(** C8, as stated, fails: where the backup directory cannot be created the
    pipeline ends, after the session was opened, with the error of the
    file system; the session is left open.  So it is for an inventory row
    without a hostname column. *)
Lemma process_target_leaks_session :
  (process_target row_R1 stamp [] lab_no_root).1 =
    Raise (OSError "FileNotFoundError") ∧
  ((λ s, (history s, is_open s)) <$>
     sessions (process_target row_R1 stamp [] lab_no_root).2) = [([], true)] ∧
  (process_target row_four_columns stamp [] lab_two_up).1 =
    Raise (KeyError "hostname") ∧
  ((λ s, (history s, is_open s)) <$>
     sessions (process_target row_four_columns stamp [] lab_two_up).2) =
    [([], true)].
Proof. repeat split; vm_compute; reflexivity. Qed.

End SchedulerClaims.

(** ** More on the neighbor parser *)

Module ParserExtras.
Import PyStr Notions PyStrFacts Marathon ParserFacts Samples More.

(** The parser on a text cut at its first marker: the table runs up to the
    end of the text or up to the next marker. *)
Lemma parse_cdp_nei_shape (pre tail : string) (raw : list string) :
  contains "Port ID" pre = false →
  contains "Port ID" (join nl raw) = false →
  Forall (λ l, contains nl l = false) raw →
  tail = "" ∨ (∃ rest, tail = "Port ID" +:+ rest) →
  ∃ header,
    index (split ">" (pre +:+ "Port ID" +:+ join nl raw +:+ tail)) 0 = Ok header ∧
    parse_cdp_nei (pre +:+ "Port ID" +:+ join nl raw +:+ tail) =
      for_neighbors (delete_char newline header) ∅ (filter (λ l, l ≠ "") raw).
Proof.
  intros Hpre Htable Hnl Htail.
  destruct (header_total (pre +:+ "Port ID" +:+ join nl raw +:+ tail))
    as [header Hh].
  exists header. split; [done |].
  unfold parse_cdp_nei. rewrite Hh. cbn [mbind result_bind].
  assert (index (split "Port ID" (pre +:+ "Port ID" +:+ join nl raw +:+ tail)) 1
          = Ok (join nl raw)) as ->.
  { rewrite split_cut by (done || apply head_unique_marker).
    destruct Htail as [-> | [rest ->]].
    - rewrite app_nil_r. by rewrite split_without.
    - by rewrite split_cut by (done || apply head_unique_marker). }
  cbn [mbind result_bind]. rewrite lines_of_table by done.
  change nl with (String newline "") at 1. by rewrite replace_char_empty.
Qed.

(** X1.  The [while] loop of the parser leaves exactly the non-empty
    strings of the list, in their order. *)
Theorem drop_empty_removes_blanks (neighbors : list string) :
  drop_empty (length neighbors) neighbors = filter (λ l, l ≠ "") neighbors.
Proof. by apply drop_empty_filter. Qed.

(** X2.  On a text without the "Port ID" marker the parser raises
    IndexError, whatever else the text holds. *)
Theorem parse_cdp_nei_needs_marker (text : string) :
  contains "Port ID" text = false → parse_cdp_nei text = Raise IndexError.
Proof. apply parse_cdp_nei_without_marker. Qed.

Lemma parse_cdp_nei_needs_marker_witness :
  parse_cdp_nei neighbors_garbled = Raise IndexError.
Proof.
  apply (parse_cdp_nei_needs_marker neighbors_garbled).
  vm_compute; reflexivity.
Defined.

(** X3.  A non-empty line of the table with fewer than three whitespace
    fields, a line of blanks included, makes the parser raise IndexError:
    no relation of any other line is returned. *)
Theorem parse_cdp_nei_short_line (pre : string) (raw : list string) :
  contains "Port ID" pre = false →
  contains "Port ID" (join nl raw) = false →
  Forall (λ l, contains nl l = false) raw →
  Exists (λ l, l ≠ "" ∧ length (split_ws l) < 3) raw →
  parse_cdp_nei (pre +:+ "Port ID" +:+ join nl raw) = Raise IndexError.
Proof.
  intros Hpre Htable Hnl Hshort.
  destruct (parse_cdp_nei_shape pre "" raw) as (header & _ & Hparse);
    [done | done | done | by left |].
  rewrite !app_nil_r in Hparse. rewrite Hparse.
  apply for_neighbors_short.
  apply Exists_exists in Hshort as (l & Hin & Hne & Hl).
  apply Exists_exists. exists l. split; [| done].
  by apply list_elem_of_filter.
Qed.

Lemma parse_cdp_nei_short_line_witness :
  parse_cdp_nei
    ("R1>" +:+ "Port ID" +:+
     join nl [""; "R2  Gig 0/1  150  R S I  3725  Gig 0/2"; "   "])
  = Raise IndexError.
Proof.
  apply (parse_cdp_nei_short_line "R1>"
           [""; "R2  Gig 0/1  150  R S I  3725  Gig 0/2"; "   "]).
  - vm_compute; reflexivity.
  - vm_compute; reflexivity.
  - do 3 (constructor; [vm_compute; reflexivity |]). constructor.
  - apply Exists_cons_tl, Exists_cons_tl, Exists_cons_hd.
    split; [done | vm_compute; lia].
Defined.

(** X4.  A table without any neighbor line, only empty lines after the
    column header, yields the empty dictionary and no error. *)
Theorem parse_cdp_nei_no_neighbors (pre : string) (raw : list string) :
  contains "Port ID" pre = false →
  Forall (λ l, l = "") raw →
  parse_cdp_nei (pre +:+ "Port ID" +:+ join nl raw) = Ok ∅.
Proof.
  intros Hpre Hraw.
  assert (contains "Port ID" (join nl raw) = false) as Htable.
  { clear Hpre. induction Hraw as [|l raw -> H IH]; [done |].
    destruct raw as [|l' raw]; [done |].
    change (join nl ("" :: l' :: raw))
      with (String newline (join nl (l' :: raw))).
    cbn [contains]. rewrite IH. done. }
  assert (Forall (λ l, contains nl l = false) raw) as Hnl.
  { eapply Forall_impl; [exact Hraw |]. by intros l ->. }
  destruct (parse_cdp_nei_shape pre "" raw) as (header & _ & Hparse);
    [done | done | done | by left |].
  rewrite !app_nil_r in Hparse. rewrite Hparse.
  assert (filter (λ l, l ≠ "") raw = []) as ->; [| done].
  clear -Hraw. induction Hraw as [|l raw -> H IH]; [done |].
  by rewrite filter_cons_False by (intros E; by apply E).
Qed.

Lemma parse_cdp_nei_no_neighbors_witness :
  parse_cdp_nei neighbors_none = Ok ∅.
Proof.
  apply (parse_cdp_nei_no_neighbors
    ("R1>show cdp neighbors" +:+ nl +:+
     "Device ID  Local Intrfce  Holdtme  Capability  Platform  ") [""; ""]).
  - vm_compute; reflexivity.
  - by repeat constructor.
Defined.

(** X5.  When the prompt marker stands before the first "Port ID" marker,
    what follows a second "Port ID" marker is not parsed: the result is
    that of the lines between the first marker and the second under the
    device name that precedes the prompt marker, the same as for the text
    cut before the second marker. *)
Theorem parse_cdp_nei_second_marker (name junk rest : string) (raw : list string) :
  contains ">" name = false →
  contains "Port ID" (name +:+ ">" +:+ junk) = false →
  contains "Port ID" (join nl raw) = false →
  Forall (λ l, contains nl l = false) raw →
  let text := name +:+ ">" +:+ junk +:+ "Port ID" +:+ join nl raw in
  parse_cdp_nei (text +:+ "Port ID" +:+ rest) =
    for_neighbors (delete_char newline name) ∅ (filter (λ l, l ≠ "") raw) ∧
  parse_cdp_nei (text +:+ "Port ID" +:+ rest) = parse_cdp_nei text.
Proof.
  intros Hname Hpre Htable Hnl text.
  assert (∀ tail, tail = "" ∨ (∃ r, tail = "Port ID" +:+ r) →
            parse_cdp_nei (text +:+ tail) =
              for_neighbors (delete_char newline name) ∅
                (filter (λ l, l ≠ "") raw)) as Hcut.
  { intros tail Htail.
    destruct (parse_cdp_nei_shape (name +:+ ">" +:+ junk) tail raw)
      as (header & Hh & Hparse); try done.
    replace ((name +:+ ">" +:+ junk) +:+ "Port ID" +:+ join nl raw +:+ tail)
      with (name +:+ ">" +:+ (junk +:+ "Port ID" +:+ join nl raw +:+ tail))
      in Hh by (by rewrite !app_assoc).
    rewrite header_before_prompt in Hh by done. injection Hh as <-.
    unfold text. rewrite <- Hparse. f_equal. by rewrite !app_assoc. }
  split.
  - apply Hcut. right. by exists rest.
  - rewrite (Hcut ("Port ID" +:+ rest)) by (right; by exists rest).
    rewrite <- (Hcut "") by (by left). by rewrite app_nil_r.
Qed.

Lemma parse_cdp_nei_second_marker_witness :
  parse_cdp_nei neighbors_twice =
    for_neighbors "R1" ∅ ["R2  Gig 0/1  150  R S I  3725  Gig 0/2"] ∧
  parse_cdp_nei neighbors_twice = parse_cdp_nei neighbors_R1.
Proof.
  apply (parse_cdp_nei_second_marker "R1"
    ("show cdp neighbors" +:+ nl +:+
     "Device ID  Local Intrfce  Holdtme  Capability  Platform  ")
    (" legend follows" +:+ nl +:+
     "R3  Gig 0/3  150  R S I  3725  Gig 0/4" +:+ nl)
    [""; "R2  Gig 0/1  150  R S I  3725  Gig 0/2"; ""]).
  - vm_compute; reflexivity.
  - vm_compute; reflexivity.
  - vm_compute; reflexivity.
  - do 3 (constructor; [vm_compute; reflexivity |]). constructor.
Defined.

Section fold_size.
Context (key : string → string * string) (val : string → string * string).
Implicit Types (d : relations) (lines : list string).

Lemma fold_insert_size_le lines d :
  size (foldl (λ d line, <[key line := val line]> d) d lines)
    ≤ size d + length lines.
Proof.
  revert d. induction lines as [|l lines IH]; intros d; [simpl; lia |].
  cbn [foldl length]. etrans; [apply IH |].
  rewrite map_size_insert. destruct (d !! key l); simpl; lia.
Qed.

Lemma fold_insert_size_eq lines d :
  NoDup (key <$> lines) →
  (∀ line, line ∈ lines → d !! key line = None) →
  size (foldl (λ d line, <[key line := val line]> d) d lines)
    = size d + length lines.
Proof.
  revert d. induction lines as [|l lines IH]; intros d Hnd Hfresh; [simpl; lia |].
  cbn [foldl length]. rewrite fmap_cons in Hnd.
  apply NoDup_cons in Hnd as [Hl Hnd].
  rewrite IH; [| done |].
  - rewrite map_size_insert_None; [lia |]. apply Hfresh. left.
  - intros line Hin. rewrite lookup_insert_ne.
    + apply Hfresh. by right.
    + intros E. apply Hl. rewrite E. by apply list_elem_of_fmap_2.
Qed.

End fold_size.

(** X6.  On a well-formed table the dictionary has at most as many entries
    as there are neighbor lines, and exactly as many when no two lines
    have the same local port. *)
Theorem parse_cdp_nei_count (pre : string) (raw : list string) :
  contains "Port ID" pre = false →
  contains "Port ID" (join nl raw) = false →
  Forall (λ l, contains nl l = false) raw →
  Forall (λ l, l = "" ∨ 3 ≤ length (split_ws l)) raw →
  let lines := filter (λ l, l ≠ "") raw in
  ∃ d,
    parse_cdp_nei (pre +:+ "Port ID" +:+ join nl raw) = Ok d ∧
    size d ≤ length lines ∧
    (NoDup (local_port <$> lines) → size d = length lines).
Proof.
  intros Hpre Htable Hnl Hfields lines.
  destruct (parse_cdp_nei_shape pre "" raw) as (header & _ & Hparse);
    [done | done | done | by left |].
  rewrite !app_nil_r in Hparse. rewrite Hparse.
  rewrite for_neighbors_ok.
  - eexists. split; [done |]. split.
    + etrans; [apply fold_insert_size_le |]. by rewrite map_size_empty.
    + intros Hnd. rewrite fold_insert_size_eq.
      * by rewrite map_size_empty.
      * rewrite (list_fmap_compose local_port (pair (delete_char newline header))).
        apply (NoDup_fmap_2 _). exact Hnd.
      * intros line _. apply lookup_empty.
  - apply Forall_forall. intros line [Hne Hin]%list_elem_of_filter.
    rewrite Forall_forall in Hfields. by destruct (Hfields _ Hin).
Qed.

Lemma parse_cdp_nei_count_witness :
  ∃ d,
    parse_cdp_nei neighbors_R1 = Ok d ∧
    size d ≤ 1 ∧
    (NoDup (local_port <$> ["R2  Gig 0/1  150  R S I  3725  Gig 0/2"]) →
     size d = 1).
Proof.
  apply (parse_cdp_nei_count
    ("R1>show cdp neighbors" +:+ nl +:+
     "Device ID  Local Intrfce  Holdtme  Capability  Platform  ")
    [""; "R2  Gig 0/1  150  R S I  3725  Gig 0/2"; ""]).
  - vm_compute; reflexivity.
  - vm_compute; reflexivity.
  - do 3 (constructor; [vm_compute; reflexivity |]). constructor.
  - constructor; [by left |].
    constructor; [right; vm_compute; lia |].
    constructor; [by left |]. constructor.
Defined.

End ParserExtras.
(** ** More on the audit steps *)

Module StepExtras.
Import PyStr Notions Netmiko Marathon Samples More PyStrFacts ParserFacts RunFacts.

Lemma session_at_fs_log (conn : nat) b h l w :
  session_at conn b h w → session_at conn b h (set_fs_log l w).
Proof. done. Qed.

Lemma bind_fs_do {B} (c : fs_call) (k : bool → M B) (w : World) :
  (Os.fs_do c ≫= k) w =
    match fs w (c :: fs_log w) with
    | Ok o => k o (set_fs_log (c :: fs_log w) w)
    | Raise e => (Raise e, set_fs_log (c :: fs_log w) w)
    end.
Proof. rewrite bind_unfold. unfold Os.fs_do. by destruct (fs w _). Qed.

(** The answer to a call that the hypotheses already fix. *)
Ltac known E H := rewrite H in E; injection E as <-.

(** X7.  On a device that answers, the topology step enables, asks
    whether discovery is disabled, sends the configuration command
    "cdp run" exactly when the answer contains "no cdp run", and then asks
    for the neighbors; it makes no other call, whether the parse of the
    neighbors succeeds or not. *)
Theorem check_cdp_calls (conn : nat) (hostname : string) b h w :
  session_at conn b h w → answers b →
  ∃ status r w',
    b (SendCommand "sho run | in no cdp run" :: Enable :: h) = Ok status ∧
    check_cdp conn hostname w = (r, w') ∧
    session_at conn b
      (SendCommand "sho cdp neigh" ::
       (if contains "no cdp run" status then [SendConfigSet "cdp run"] else []) ++
       SendCommand "sho run | in no cdp run" :: Enable :: h) w'.
Proof.
  intros Hs Hb. unfold check_cdp. rewrite try_except_Error.
  unfold enable, send_config_set, send_command.
  call Hb. call Hb. exists out0.
  destruct (contains "no cdp run" out0); cbn [negb];
    flat; try call Hb; say; say; call Hb;
    rewrite bind_unfold; unfold lift;
    (lazymatch goal with
     | |- context [parse_cdp_nei ?o] => destruct (parse_cdp_nei o) as [d|e]
     end;
     [ cbv zeta; destruct (negb (size d =? 0)) | ];
     eexists _, _; (split; [done |]); (split; [reflexivity | exact Hs])).
Qed.

Lemma check_cdp_calls_witness :
  ∃ status r w',
    R1_cdp_off [SendCommand "sho run | in no cdp run"; Enable] = Ok status ∧
    check_cdp 0 "R1" (on_line R1_cdp_off) = (r, w') ∧
    session_at 0 R1_cdp_off
      (SendCommand "sho cdp neigh" ::
       (if contains "no cdp run" status then [SendConfigSet "cdp run"] else []) ++
       [SendCommand "sho run | in no cdp run"; Enable]) w'.
Proof.
  apply (check_cdp_calls 0 "R1" R1_cdp_off [] (on_line R1_cdp_off)).
  - reflexivity.
  - apply StepClaims.router_answers.
Defined.

(** One call on the connection of the goal whose answer [E] is at hand. *)
Ltac callE E :=
  flat;
  lazymatch goal with
  | Hs : session_at ?conn ?b ?h ?w |- context [ (method ?conn ?c ≫= ?k) ?w ] =>
      rewrite (bind_method conn c b h w k _ Hs E);
      apply (session_at_touch conn b h (c :: h)) in Hs
  end.

(** One call on the connection of the goal that the device fails. *)
Ltac fail_call E :=
  flat;
  lazymatch goal with
  | Hs : session_at ?conn ?b ?h ?w |- context [ (method ?conn ?c ≫= ?k) ?w ] =>
      rewrite (bind_method_Raise conn c b h w k _ Hs E);
      apply (session_at_touch conn b h (c :: h)) in Hs
  end.

(** X8.  The time-sync step enables, sets the time zone and sends
    "ntp master" for the role "server", "ntp server 192.168.194.101" for
    the role "client" and nothing for any other role.  When the device has
    answered these calls, the step sleeps five seconds and then asks for
    the status, its last call: the five seconds are slept whether the
    status query is answered or fails.  An answer gives "Clock in Sync"
    when it contains "Clock is synchronized" and "Clock not in Sync"
    otherwise; a failure gives NameError.  When one of the calls before
    the status query fails, the step raises NameError with that call as
    its last one and without having slept. *)
Theorem config_ntp_calls (conn : nat) (hostname ntp_type : string) b h w :
  session_at conn b h w →
  let query := SendCommand "sho ntp status" :: ntp_setup ntp_type ++ h in
  (answers_each b (ntp_setup ntp_type) h →
   ∃ w',
     config_ntp conn hostname ntp_type w =
       (match b query with
        | Ok out => Ok (VStr (if contains "Clock is synchronized" out
                              then "Clock in Sync" else "Clock not in Sync"))
        | Raise _ => Raise (NameError "Error")
        end, w') ∧
     slept w' = slept w + 5 ∧
     session_at conn b query w') ∧
  (∀ later c earlier e,
     ntp_setup ntp_type = later ++ c :: earlier →
     answers_each b earlier h →
     b (c :: earlier ++ h) = Raise e →
     ∃ w',
       config_ntp conn hostname ntp_type w = (Raise (NameError "Error"), w') ∧
       slept w' = slept w ∧
       session_at conn b (c :: earlier ++ h) w').
Proof.
  intros Hs query. split.
  - intros Hb. unfold config_ntp. rewrite try_except_Error.
    unfold enable, send_config_set, send_command.
    subst query. unfold ntp_setup in *.
    destruct (ntp_type =? "server")%string;
      [| destruct (ntp_type =? "client")%string ];
      cbn [app answers_each] in Hb |- *.
    all: repeat match type of Hb with _ ∧ _ => destruct Hb as [Hb [? ?]] end.
    all: repeat match goal with
                | E : _ = Ok _ |- _ => callE E; clear E
                end.
    all: flat; nap.
    all: lazymatch goal with
         | Hs : session_at ?conn ?b ?h ?w |- _ => destruct (b (SendCommand "sho ntp status" :: h)) as [out|e] eqn:E
         end.
    all: first [ callE E; destruct (contains "Clock is synchronized" _);
                 say; say; flat
               | fail_call E ].
    all: eexists; (split; [reflexivity |]); (split; [reflexivity | exact Hs]).
  - intros later c earlier e Hsetup Hb Hfail.
    unfold config_ntp. rewrite try_except_Error.
    unfold enable, send_config_set, send_command.
    unfold ntp_setup in Hsetup.
    destruct (ntp_type =? "server")%string;
      [| destruct (ntp_type =? "client")%string ];
      cbn [app] in Hsetup.
    all: destruct later as [|? [|? [|? later]]]; simplify_eq/=.
    all: try (by destruct later).
    all: repeat match type of Hb with _ ∧ _ => destruct Hb as [Hb [? ?]] end.
    all: repeat match goal with
                | E : _ = Ok _ |- _ => callE E; clear E
                end.
    all: fail_call Hfail.
    all: eexists; (split; [reflexivity |]); (split; [reflexivity | exact Hs]).
Qed.

Lemma config_ntp_calls_witness :
  (∃ w',
     config_ntp 0 "R1" "server" (on_line R1) = (Ok (VStr "Clock in Sync"), w') ∧
     slept w' = 5 ∧
     session_at 0 R1
       [SendCommand "sho ntp status"; SendConfigSet "ntp master";
        SendConfigSet "clock timezone GMT 0"; Enable] w') ∧
  (∃ w',
     config_ntp 0 "R1" "server" (on_line R1_ntp_down)
       = (Raise (NameError "Error"), w') ∧
     slept w' = 5 ∧
     session_at 0 R1_ntp_down
       [SendCommand "sho ntp status"; SendConfigSet "ntp master";
        SendConfigSet "clock timezone GMT 0"; Enable] w') ∧
  (∃ w',
     config_ntp 0 "R1" "server" (on_line R1_read_only)
       = (Raise (NameError "Error"), w') ∧
     slept w' = 0 ∧
     session_at 0 R1_read_only
       [SendConfigSet "clock timezone GMT 0"; Enable] w').
Proof.
  split; [| split].
  - apply (config_ntp_calls 0 "R1" "server" R1 [] (on_line R1)).
    + reflexivity.
    + repeat split; by eexists.
  - apply (config_ntp_calls 0 "R1" "server" R1_ntp_down [] (on_line R1_ntp_down)).
    + reflexivity.
    + repeat split; by eexists.
  - apply (proj2 (config_ntp_calls 0 "R1" "server" R1_read_only []
                    (on_line R1_read_only) eq_refl)
             [SendConfigSet "ntp master"] (SendConfigSet "clock timezone GMT 0")
             [Enable] (DeviceError "rejected")).
    + reflexivity.
    + repeat split; by eexists.
    + reflexivity.
Defined.
Lemma head_unique_comma : head_unique ",".
Proof. done. Qed.
Lemma head_unique_Software : head_unique "Software".
Proof. done. Qed.

Lemma split_first_piece (sep p rest : string) :
  head_unique sep → contains sep p = false →
  rest = "" ∨ (∃ q, rest = sep +:+ q) →
  ∃ more, split sep (p +:+ rest) = p :: more.
Proof.
  intros Hu Hp [-> | [q ->]].
  - exists []. rewrite app_nil_r. by apply split_without.
  - exists (split sep q). by apply split_cut.
Qed.

Lemma comma_second_field (f0 f1 tail : string) :
  contains "," f0 = false → contains "," f1 = false →
  tail = "" ∨ (∃ t, tail = "," +:+ t) →
  index (split "," (f0 +:+ "," +:+ f1 +:+ tail)) 1 = Ok f1.
Proof.
  intros H0 H1 Ht. rewrite split_cut by (done || apply head_unique_comma).
  destruct (split_first_piece "," f1 tail head_unique_comma H1 Ht) as [more ->].
  done.
Qed.

Lemma comma_third_field (f0 f1 f2 tail : string) :
  contains "," f0 = false → contains "," f1 = false → contains "," f2 = false →
  tail = "" ∨ (∃ t, tail = "," +:+ t) →
  index (split "," (f0 +:+ "," +:+ f1 +:+ "," +:+ f2 +:+ tail)) 2 = Ok f2.
Proof.
  intros H0 H1 H2 Ht. rewrite !split_cut by (done || apply head_unique_comma).
  destruct (split_first_piece "," f2 tail head_unique_comma H2 Ht) as [more ->].
  done.
Qed.

Lemma comma_third_missing (banner : string) :
  contains "," banner = false ∨
  (∃ f0 f1, banner = f0 +:+ "," +:+ f1 ∧
            contains "," f0 = false ∧ contains "," f1 = false) →
  index (split "," banner) 2 = Raise IndexError.
Proof.
  intros [H | (f0 & f1 & -> & H0 & H1)].
  - by rewrite split_without.
  - rewrite split_cut by (done || apply head_unique_comma).
    by rewrite split_without.
Qed.

Lemma Check_ver_run (conn : nat) (hostname : string) b h w
    (f0 f1 f2 tail : string) :
  session_at conn b h w → answers b →
  b (SendCommand "sho ver | in IOS" :: Enable :: h)
    = Ok (f0 +:+ "," +:+ f1 +:+ "," +:+ f2 +:+ tail) →
  contains "," f0 = false → contains "," f1 = false → contains "," f2 = false →
  tail = "" ∨ (∃ t, tail = "," +:+ t) →
  ∃ w', Check_ver conn hostname w = (Ok (VStr f2), w') ∧
        session_at conn b (SendCommand "sho ver | in IOS" :: Enable :: h) w'.
Proof.
  intros Hs Hb Hbanner H0 H1 H2 Ht. unfold Check_ver. rewrite try_except_Error.
  unfold enable, send_command.
  call Hb. call Hb. known E0 Hbanner.
  rewrite bind_unfold. unfold lift. rewrite comma_third_field by done.
  say. say. flat. by eexists.
Qed.

(** X9.  When the version banner has its first three comma-separated
    fields, the version step returns the third one as it stands, blanks
    included. *)
Theorem Check_ver_third_field (conn : nat) (hostname : string) b h w
    (f0 f1 f2 tail : string) :
  session_at conn b h w → answers b →
  b (SendCommand "sho ver | in IOS" :: Enable :: h)
    = Ok (f0 +:+ "," +:+ f1 +:+ "," +:+ f2 +:+ tail) →
  contains "," f0 = false → contains "," f1 = false → contains "," f2 = false →
  tail = "" ∨ (∃ t, tail = "," +:+ t) →
  ∃ w', Check_ver conn hostname w = (Ok (VStr f2), w').
Proof.
  intros Hs Hb Hbanner H0 H1 H2 Ht.
  destruct (Check_ver_run conn hostname b h w f0 f1 f2 tail) as (w' & H & _);
    try done.
  by exists w'.
Qed.

Lemma Check_ver_third_field_witness :
  ∃ w', Check_ver 0 "R1" (on_line R1) = (Ok (VStr " Version 12.4(15)T14"), w').
Proof.
  apply (Check_ver_third_field 0 "R1" R1 [] (on_line R1)
           "Cisco IOS Software" " 3700 Software (C3725-ADVENTERPRISEK9-M)"
           " Version 12.4(15)T14" ", RELEASE SOFTWARE (fc2)").
  - reflexivity.
  - apply StepClaims.router_answers.
  - reflexivity.
  - vm_compute; reflexivity.
  - vm_compute; reflexivity.
  - vm_compute; reflexivity.
  - right. by eexists.
Defined.

(** X10.  When the version banner has fewer than two commas, the version
    step raises NameError: it neither returns a version nor a sentinel. *)
Theorem Check_ver_short_banner (conn : nat) (hostname : string) b h w
    (banner : string) :
  session_at conn b h w → answers b →
  b (SendCommand "sho ver | in IOS" :: Enable :: h) = Ok banner →
  contains "," banner = false ∨
  (∃ f0 f1, banner = f0 +:+ "," +:+ f1 ∧
            contains "," f0 = false ∧ contains "," f1 = false) →
  ∃ w', Check_ver conn hostname w = (Raise (NameError "Error"), w').
Proof.
  intros Hs Hb Hbanner Hshort. unfold Check_ver. rewrite try_except_Error.
  unfold enable, send_command.
  call Hb. call Hb. known E0 Hbanner.
  rewrite bind_unfold. unfold lift. rewrite comma_third_missing by done.
  by eexists.
Qed.

Lemma Check_ver_short_banner_witness :
  ∃ w', Check_ver 0 "R1" (on_line R1_one_comma) = (Raise (NameError "Error"), w').
Proof.
  apply (Check_ver_short_banner 0 "R1" R1_one_comma [] (on_line R1_one_comma)
           banner_one_comma).
  - reflexivity.
  - apply StepClaims.router_answers.
  - reflexivity.
  - right. exists "Cisco IOS Software", " C2960 Software".
    repeat split; vm_compute; reflexivity.
Defined.

Lemma Check_dev_pid_run (conn : nat) (hostname : string) b h w
    (f0 p rest tail : string) :
  session_at conn b h w → answers b →
  b (SendCommand "sho ver | in IOS" :: Enable :: h)
    = Ok (f0 +:+ "," +:+ (p +:+ rest) +:+ tail) →
  contains "," f0 = false → contains "," (p +:+ rest) = false →
  tail = "" ∨ (∃ t, tail = "," +:+ t) →
  contains "Software" p = false →
  rest = "" ∨ (∃ q, rest = "Software" +:+ q) →
  ∃ w', Check_dev_pid conn hostname w = (Ok (VStr p), w') ∧
        session_at conn b (SendCommand "sho ver | in IOS" :: Enable :: h) w'.
Proof.
  intros Hs Hb Hbanner H0 H1 Ht Hp Hrest.
  unfold Check_dev_pid. rewrite try_except_Error.
  unfold enable, send_command.
  call Hb. call Hb. known E0 Hbanner.
  rewrite bind_unfold. unfold lift. rewrite comma_second_field by done.
  destruct (split_first_piece "Software" p rest head_unique_Software Hp Hrest)
    as [more Hsplit].
  rewrite bind_unfold, Hsplit.
  change (index (p :: more) 0) with (Ok (A:=string) p). cbv beta iota.
  say. say. flat. by eexists.
Qed.

(** X11.  When the version banner has its first two comma-separated
    fields, the platform step returns the part of the second field that
    precedes the word "Software", or the whole field when the word is not
    in it. *)
Theorem Check_dev_pid_before_Software (conn : nat) (hostname : string) b h w
    (f0 p rest tail : string) :
  session_at conn b h w → answers b →
  b (SendCommand "sho ver | in IOS" :: Enable :: h)
    = Ok (f0 +:+ "," +:+ (p +:+ rest) +:+ tail) →
  contains "," f0 = false → contains "," (p +:+ rest) = false →
  tail = "" ∨ (∃ t, tail = "," +:+ t) →
  contains "Software" p = false →
  rest = "" ∨ (∃ q, rest = "Software" +:+ q) →
  ∃ w', Check_dev_pid conn hostname w = (Ok (VStr p), w').
Proof.
  intros Hs Hb Hbanner H0 H1 Ht Hp Hrest.
  destruct (Check_dev_pid_run conn hostname b h w f0 p rest tail)
    as (w' & H & _); try done.
  by exists w'.
Qed.

Lemma Check_dev_pid_before_Software_witness :
  ∃ w', Check_dev_pid 0 "R1" (on_line R1) = (Ok (VStr " 3700 "), w').
Proof.
  apply (Check_dev_pid_before_Software 0 "R1" R1 [] (on_line R1)
           "Cisco IOS Software" " 3700 " "Software (C3725-ADVENTERPRISEK9-M)"
           ", Version 12.4(15)T14, RELEASE SOFTWARE (fc2)").
  - reflexivity.
  - apply StepClaims.router_answers.
  - reflexivity.
  - vm_compute; reflexivity.
  - vm_compute; reflexivity.
  - right. by eexists.
  - vm_compute; reflexivity.
  - right. by eexists.
Defined.

Lemma Check_NPE_live (conn : nat) (hostname : string) b h w :
  session_at conn b h w → answers b →
  ∃ w',
    Check_NPE conn hostname w = (Ok (VStr "PE"), w') ∧
    session_at conn b (SendCommand "sho ver | in IOS" :: Enable :: h) w'.
Proof.
  intros Hs Hb. unfold Check_NPE. rewrite try_except_Error.
  unfold enable, send_command.
  call Hb. call Hb.
  change (truthy (or_ (VStr "k9") (VBool (contains "K9" out0)))) with true.
  cbv iota. say. say. flat. by eexists.
Qed.

(** X12.  On a device that answers, the licensing step returns "PE" for
    every version banner, after one enable and one version query. *)
Theorem Check_NPE_always_PE (conn : nat) (hostname : string) b h w :
  session_at conn b h w → answers b →
  ∃ w',
    Check_NPE conn hostname w = (Ok (VStr "PE"), w') ∧
    session_at conn b (SendCommand "sho ver | in IOS" :: Enable :: h) w'.
Proof. apply Check_NPE_live. Qed.

Lemma Check_NPE_always_PE_witness :
  ∃ w',
    Check_NPE 0 "SW1" (on_line SW1) = (Ok (VStr "PE"), w') ∧
    session_at 0 SW1 [SendCommand "sho ver | in IOS"; Enable] w'.
Proof.
  apply (Check_NPE_always_PE 0 "SW1" SW1 [] (on_line SW1)).
  - reflexivity.
  - apply StepClaims.router_answers.
Defined.

Lemma create_backup_run (conn : nat) (path hostname : string) b h w
    (output : string) (ok : bool) :
  session_at conn b h w → answers b →
  b (SendCommand "sh run" :: Enable :: h) = Ok output →
  fs w (WriteFile path output :: fs_log w) = Ok ok →
  ∃ w',
    create_backup conn path hostname w = (Ok (VBool true), w') ∧
    fs_log w' = WriteFile path output :: fs_log w ∧
    session_at conn b (SendCommand "sh run" :: Enable :: h) w'.
Proof.
  intros Hs Hb Hout Hfs. unfold create_backup. rewrite try_except_Error.
  unfold enable, send_command, Os.write_file.
  call Hb. call Hb. known E0 Hout.
  flat. rewrite bind_fs_do. unfold touch, set_sessions; simpl fs; simpl fs_log.
  rewrite Hfs. flat.
  rewrite !bind_print. flat. eexists. split; [reflexivity |]. split; [done |].
  unfold session_at, touch, set_sessions in Hs |- *. simpl in Hs |- *.
  exact Hs.
Qed.

(** X13.  On a device that answers and a file system that accepts the
    write, the backup step writes the answer to "sh run" to the backup
    path unchanged, as its only file-system call, and returns True. *)
Theorem create_backup_verbatim (conn : nat) (path hostname : string) b h w
    (output : string) (ok : bool) :
  session_at conn b h w → answers b →
  b (SendCommand "sh run" :: Enable :: h) = Ok output →
  fs w (WriteFile path output :: fs_log w) = Ok ok →
  ∃ w',
    create_backup conn path hostname w = (Ok (VBool true), w') ∧
    fs_log w' = WriteFile path output :: fs_log w.
Proof.
  intros Hs Hb Hout Hfs.
  destruct (create_backup_run conn path hostname b h w output ok)
    as (w' & H & Hlog & _); try done.
  by exists w'.
Qed.

Lemma create_backup_verbatim_witness :
  ∃ w',
    create_backup 0 "/opt/marathon/backups/R1/R1-x.txt" "R1" (on_line R1)
      = (Ok (VBool true), w') ∧
    fs_log w' = [WriteFile "/opt/marathon/backups/R1/R1-x.txt" "hostname R1"].
Proof.
  apply (create_backup_verbatim 0 "/opt/marathon/backups/R1/R1-x.txt" "R1"
           R1 [] (on_line R1) "hostname R1" true).
  - reflexivity.
  - apply StepClaims.router_answers.
  - reflexivity.
  - reflexivity.
Defined.

(** *** What the steps return *)

Lemma returns_ret {A} (P : A → Prop) (a : A) : P a → returns P (mret a).
Proof. intros H w v w' [= <- _]. done. Qed.

Lemma returns_bind {A B} (P : B → Prop) (m : M A) (f : A → M B) :
  (∀ a, returns P (f a)) → returns P (m ≫= f).
Proof.
  intros Hf w v w' H. apply bind_Ok_inv in H as (a & w1 & _ & H).
  by eapply Hf.
Qed.

Lemma returns_try_Error {A} (P : A → Prop) (body handler : M A) :
  returns P body → returns P (try_except body "Error" handler).
Proof.
  intros Hb w v w'. rewrite try_except_Error.
  destruct (body w) as [[a|e] w1] eqn:E; [| done].
  intros [= <- <-]. by eapply Hb.
Qed.

Lemma step_contract_try (body handler : M value) :
  returns (λ v, v ≠ VBool false) body →
  step_contract (try_except body "Error" handler).
Proof.
  intros Hb. split.
  - by apply returns_try_Error.
  - intros w e w'. rewrite try_except_Error.
    destruct (body w) as [[a|e0] w1]; [done |]. by intros [= <- _].
Qed.

(** Goes through a computation up to each of its return statements. *)
Ltac rets :=
  repeat first
    [ apply returns_try_Error
    | apply returns_bind; intros ?
    | progress cbv zeta
    | match goal with
      | |- returns _ (if ?c then _ else _) => destruct c eqn:?
      end
    | apply returns_ret ].

(** X14.  None of the six audit steps ever returns the sentinel [False],
    and none lets an exception other than NameError for the name [Error]
    escape: whatever its commands raise is replaced by that NameError. *)
Theorem steps_keep_contract (conn : nat) (path hostname ntp_type : string) :
  step_contract (create_backup conn path hostname) ∧
  step_contract (Check_dev_pid conn hostname) ∧
  step_contract (Check_ver conn hostname) ∧
  step_contract (check_cdp conn hostname) ∧
  step_contract (Check_NPE conn hostname) ∧
  step_contract (config_ntp conn hostname ntp_type).
Proof.
  unfold create_backup, Check_dev_pid, Check_ver, check_cdp, Check_NPE,
    config_ntp.
  repeat (split; [apply step_contract_try; rets; done |]).
  apply step_contract_try; rets; done.
Qed.

Lemma Check_NPE_returns (conn : nat) (hostname : string) :
  returns (λ v, v = VStr "PE") (Check_NPE conn hostname).
Proof. unfold Check_NPE. rets; done. Qed.

Lemma config_ntp_returns (conn : nat) (hostname ntp_type : string) :
  returns (λ v, v = VStr "Clock in Sync" ∨ v = VStr "Clock not in Sync")
          (config_ntp conn hostname ntp_type).
Proof. unfold config_ntp. rets; auto. Qed.

Lemma check_cdp_returns (conn : nat) (hostname : string) :
  returns (λ v, v = VStr "CDP is off" ∨
                ∃ n, n ≠ 0 ∧ v = VStr ("CDP is on, " +:+ pretty n +:+ " peers"))
          (check_cdp conn hostname).
Proof.
  unfold check_cdp. rets; auto.
  all: right; eexists; split; [| done].
  all: by match goal with
          | H : negb (_ =? 0) = true |- _ =>
              apply negb_true_iff, Nat.eqb_neq in H
          end.
Qed.

Lemma check_cdp_run (conn : nat) (hostname : string) b h w :
  session_at conn b h w → answers b →
  (∀ h' out, b (SendCommand "sho cdp neigh" :: h') = Ok out →
             is_Ok (parse_cdp_nei out) = true) →
  ∃ v h' w', check_cdp conn hostname w = (Ok (VStr v), w') ∧
             session_at conn b h' w'.
Proof.
  intros Hs Hb Hparse. unfold check_cdp. rewrite try_except_Error.
  unfold enable, send_config_set, send_command.
  call Hb. call Hb.
  destruct (negb (contains "no cdp run" out0));
    flat; try call Hb; say; say; call Hb;
    (lazymatch goal with
     | E : b (SendCommand "sho cdp neigh" :: ?hh) = Ok ?o |- _ =>
         pose proof (Hparse _ _ E) as Hp;
         destruct (parse_cdp_nei o) as [d|] eqn:Ed; [| done]
     end;
     rewrite bind_unfold; unfold lift; cbv zeta;
     destruct (negb (size d =? 0)); cbn;
     (eexists _, _, _; (split; [reflexivity | exact Hs]))).
Qed.

Lemma Check_dev_pid_ok (conn : nat) (hostname : string) b h w (banner : string) :
  session_at conn b h w → answers b →
  b (SendCommand "sho ver | in IOS" :: Enable :: h) = Ok banner →
  banner_ok banner →
  ∃ v w', Check_dev_pid conn hostname w = (Ok (VStr v), w') ∧
          session_at conn b (SendCommand "sho ver | in IOS" :: Enable :: h) w'.
Proof.
  intros Hs Hb Hbanner (f0 & f1 & f2 & tail & -> & H0 & H1 & H2 & Ht).
  unfold Check_dev_pid. rewrite try_except_Error.
  unfold enable, send_command.
  call Hb. call Hb. known E0 Hbanner.
  rewrite bind_unfold. unfold lift.
  rewrite (comma_second_field f0 f1 ("," +:+ f2 +:+ tail))
    by (done || (right; by eexists)).
  destruct (split_head "Software" f1) as (p & more & Hsplit).
  rewrite bind_unfold, Hsplit.
  change (index (p :: more) 0) with (Ok (A:=string) p). cbv beta iota.
  say. say. flat. by eexists _, _.
Qed.

End StepExtras.

(** ** More on the pipeline of one device *)

Module PipelineExtras.
Import PyStr Notions Netmiko Marathon Samples More PyStrFacts ParserFacts
  RunFacts StepExtras.

#[global] Instance same_fs_refl : Reflexive same_fs.
Proof. by intros w. Qed.
#[global] Instance same_fs_trans : Transitive same_fs.
Proof. unfold same_fs. intros w1 w2 w3 H1 H2. congruence. Qed.

Lemma fs_print line : preserves same_fs (print line).
Proof. by intros w. Qed.
Lemma fs_sleep n : preserves same_fs (sleep n).
Proof. by intros w. Qed.
Lemma fs_fs_do c : preserves same_fs (Os.fs_do c).
Proof. by intros w. Qed.
Lemma fs_method conn c : preserves same_fs (method conn c).
Proof.
  intros w. unfold method. destruct (sessions w !! conn) as [s|]; [| done].
  by destruct (is_open s).
Qed.
Lemma fs_disconnect conn : preserves same_fs (disconnect conn).
Proof. by intros w. Qed.
Lemma fs_ConnectHandler a b c d : preserves same_fs (ConnectHandler a b c d).
Proof. intros w. unfold ConnectHandler. by destruct (network w a b c d). Qed.

#[global] Hint Resolve fs_print fs_sleep fs_fs_do fs_method fs_disconnect
  fs_ConnectHandler : pres.

Lemma bind_world {B} (k : World → M B) (w : World) : (world ≫= k) w = k w w.
Proof. reflexivity. Qed.

(** *** The backup path *)

Lemma get_backup_file_path_run (hostname timestamp : string) w (present : bool) :
  let dir := Os.path_join (Os.path_join (script_dir w) "backups") hostname in
  fs w (PathExists dir :: fs_log w) = Ok present →
  (present = false →
   ∃ ok, fs w (Mkdir dir :: PathExists dir :: fs_log w) = Ok ok) →
  ∃ w',
    get_backup_file_path hostname timestamp w =
      (Ok (Os.path_join dir (hostname +:+ "-" +:+ timestamp +:+ ".txt")), w') ∧
    fs_log w' = (if present then [] else [Mkdir dir]) ++ PathExists dir :: fs_log w ∧
    sessions w' = sessions w ∧ fs w' = fs w.
Proof.
  intros dir Hexists Hmkdir.
  unfold get_backup_file_path, BACKUP_DIR_PATH, Os.path_exists, Os.mkdir.
  rewrite bind_assoc, bind_world. cbv beta. rewrite bind_ret. cbv beta.
  rewrite bind_fs_do. fold dir. rewrite Hexists.
  destruct present; cbn [negb].
  - rewrite bind_ret. cbv beta zeta. rewrite !bind_print. by eexists.
  - destruct (Hmkdir eq_refl) as [ok Hok].
    rewrite !bind_assoc, bind_fs_do. simpl fs; simpl fs_log. rewrite Hok.
    rewrite !bind_ret. cbv beta zeta. rewrite !bind_print. by eexists.
Qed.

(** X15.  The backup directory of the host is looked up once and created
    only when the file system reports it absent; the function touches
    nothing else on the file system and returns the path of the backup
    file inside that directory. *)
Theorem get_backup_file_path_mkdir (hostname timestamp : string) w (present : bool) :
  let dir := Os.path_join (Os.path_join (script_dir w) "backups") hostname in
  fs w (PathExists dir :: fs_log w) = Ok present →
  (present = false →
   ∃ ok, fs w (Mkdir dir :: PathExists dir :: fs_log w) = Ok ok) →
  ∃ w',
    get_backup_file_path hostname timestamp w =
      (Ok (Os.path_join dir (hostname +:+ "-" +:+ timestamp +:+ ".txt")), w') ∧
    fs_log w' = (if present then [] else [Mkdir dir]) ++ PathExists dir :: fs_log w.
Proof.
  intros dir Hexists Hmkdir.
  destruct (get_backup_file_path_run hostname timestamp w present Hexists Hmkdir)
    as (w' & H & Hlog & _).
  by exists w'.
Qed.

Lemma get_backup_file_path_mkdir_witness :
  ∃ w',
    get_backup_file_path "R1" stamp lab_two_up =
      (Ok "/opt/marathon/backups/R1/R1-2020_01_01-00_00_00.txt", w') ∧
    fs_log w' = [PathExists "/opt/marathon/backups/R1"].
Proof.
  apply (get_backup_file_path_mkdir "R1" stamp lab_two_up true).
  - reflexivity.
  - discriminate.
Defined.

(** X16.  When the directory is absent and cannot be created, the error
    of the file system leaves the function as it is: it is not caught. *)
Theorem get_backup_file_path_mkdir_fails (hostname timestamp : string) w (e : exn) :
  let dir := Os.path_join (Os.path_join (script_dir w) "backups") hostname in
  fs w (PathExists dir :: fs_log w) = Ok false →
  fs w (Mkdir dir :: PathExists dir :: fs_log w) = Raise e →
  ∃ w',
    get_backup_file_path hostname timestamp w = (Raise e, w') ∧
    fs_log w' = Mkdir dir :: PathExists dir :: fs_log w ∧
    stdout w' = stdout w.
Proof.
  intros dir Hexists Hmkdir.
  unfold get_backup_file_path, BACKUP_DIR_PATH, Os.path_exists, Os.mkdir.
  rewrite bind_assoc, bind_world. cbv beta. rewrite bind_ret. cbv beta.
  rewrite bind_fs_do. fold dir. rewrite Hexists. cbn [negb].
  rewrite !bind_assoc, bind_fs_do. simpl fs; simpl fs_log. rewrite Hmkdir.
  by eexists.
Qed.

Lemma get_backup_file_path_mkdir_fails_witness :
  ∃ w',
    get_backup_file_path "R1" stamp lab_no_root =
      (Raise (OSError "FileNotFoundError"), w') ∧
    fs_log w' = [Mkdir "/opt/marathon/backups/R1";
                 PathExists "/opt/marathon/backups/R1"] ∧
    stdout w' = [].
Proof.
  apply (get_backup_file_path_mkdir_fails "R1" stamp lab_no_root).
  - reflexivity.
  - reflexivity.
Defined.

Lemma prefix_app_l (p a b : string) :
  String.prefix p a = true → String.prefix p (a +:+ b) = true.
Proof.
  intros [r ->]%prefix_inv. rewrite app_assoc. apply prefix_app.
Qed.

(** X17.  A host name that starts with "/" takes the backup out of the
    backup root: the directory looked up is the host name itself and the
    backup file is the host name followed by "-", the time stamp and
    ".txt". *)
Theorem get_backup_file_path_absolute (hostname timestamp : string) w :
  String.prefix "/" hostname = true →
  fs w (PathExists hostname :: fs_log w) = Ok true →
  ∃ w',
    get_backup_file_path hostname timestamp w =
      (Ok (hostname +:+ "-" +:+ timestamp +:+ ".txt"), w') ∧
    fs_log w' = PathExists hostname :: fs_log w.
Proof.
  intros Habs Hexists.
  assert (Os.path_join (Os.path_join (script_dir w) "backups") hostname
          = hostname) as Hdir.
  { unfold Os.path_join at 1. by rewrite Habs. }
  destruct (get_backup_file_path_run hostname timestamp w true)
    as (w' & H & Hlog & _).
  - by rewrite Hdir.
  - discriminate.
  - exists w'. rewrite Hdir in H, Hlog. split; [| done].
    rewrite H. do 2 f_equal. unfold Os.path_join.
    by rewrite (prefix_app_l _ _ _ Habs).
Qed.

Lemma get_backup_file_path_absolute_witness :
  ∃ w',
    get_backup_file_path "/etc/cron.d" stamp lab_two_up =
      (Ok "/etc/cron.d-2020_01_01-00_00_00.txt", w') ∧
    fs_log w' = [PathExists "/etc/cron.d"].
Proof.
  apply (get_backup_file_path_absolute "/etc/cron.d" stamp lab_two_up).
  - reflexivity.
  - reflexivity.
Defined.

Lemma get_backup_file_path_Ok (hostname timestamp : string) w path w' :
  get_backup_file_path hostname timestamp w = (Ok path, w') →
  path = Os.path_join
           (Os.path_join (Os.path_join (script_dir w) "backups") hostname)
           (hostname +:+ "-" +:+ timestamp +:+ ".txt").
Proof.
  unfold get_backup_file_path, BACKUP_DIR_PATH, Os.path_exists, Os.mkdir.
  rewrite bind_assoc, bind_world. cbv beta. rewrite bind_ret. cbv beta.
  rewrite bind_fs_do. destruct (fs w _) as [present|]; [| done].
  destruct present; cbn [negb].
  - rewrite bind_ret. cbv beta zeta. rewrite !bind_print. by intros [= <- _].
  - rewrite !bind_assoc, bind_fs_do. destruct (fs _ _) as [ok|]; [| done].
    rewrite !bind_ret. cbv beta zeta. rewrite !bind_print. by intros [= <- _].
Qed.

Lemma path_join_plain (a b : string) (c : ascii) :
  c ≠ "/"%char → String.prefix "/" b = false →
  Os.path_join (a +:+ String c "") b = a +:+ String c "" +:+ "/" +:+ b.
Proof.
  intros Hc Hb. unfold Os.path_join. rewrite Hb.
  assert (String.eqb (a +:+ String c "") "" = false) as ->.
  { apply String.eqb_neq. by destruct a. }
  assert (drop (String.length (a +:+ String c "") - 1) (a +:+ String c "")
          = String c "") as ->.
  { rewrite length_app. cbn [String.length].
    replace (String.length a + 1 - 1) with (String.length a) by lia.
    apply drop_app. }
  assert (String.eqb (String c "") "/" = false) as ->.
  { apply String.eqb_neq. congruence. }
  by rewrite !app_assoc.
Qed.

Lemma prefix_slash_cons (x : ascii) (s : string) :
  String.prefix "/" (String x s) = if ascii_dec "/" x then true else false.
Proof. cbn [String.prefix]. destruct (ascii_dec "/" x); by destruct s. Qed.

Lemma prefix_slash_app (a b : string) :
  a ≠ "" → String.prefix "/" a = false → String.prefix "/" (a +:+ b) = false.
Proof.
  intros Ha H. destruct a as [|x a]; [done |].
  change (String x a +:+ b) with (String x (a +:+ b)).
  cbn [String.prefix] in H |- *.
  destruct (ascii_dec "/" x); [| done]. by destruct a.
Qed.

(** X18.  For a script directory and a host name that neither are empty
    nor end in "/", the host name not starting with "/", the backup file
    is <script directory>/backups/<host name>/<host name>-<time
    stamp>.txt. *)
Theorem backup_path_layout (hostname timestamp : string) w
    (sd hn : string) (c y : ascii) path :
  script_dir w = sd +:+ String c "" → c ≠ "/"%char →
  hostname = hn +:+ String y "" → y ≠ "/"%char →
  String.prefix "/" hostname = false →
  (get_backup_file_path hostname timestamp w).1 = Ok path →
  path = script_dir w +:+ "/backups/" +:+ hostname +:+ "/" +:+
         hostname +:+ "-" +:+ timestamp +:+ ".txt".
Proof.
  intros Hsd Hc Hhn Hy Hrel H.
  destruct (get_backup_file_path hostname timestamp w) as [r w'] eqn:E.
  simpl in H. subst r. apply get_backup_file_path_Ok in E as ->.
  rewrite Hsd. rewrite (path_join_plain sd "backups" c) by done.
  replace (sd +:+ String c "" +:+ "/" +:+ "backups")
    with ((sd +:+ String c "" +:+ "/backup") +:+ String "s" "")
    by (by rewrite !app_assoc).
  rewrite (path_join_plain _ hostname "s") by done.
  rewrite Hhn. rewrite <- !app_assoc.
  rewrite path_join_plain; [| done |].
  - by rewrite !app_assoc.
  - rewrite !app_assoc. rewrite Hhn in Hrel.
    destruct hn as [|x hn].
    + change (String.prefix "/" (String y ("-" +:+ timestamp +:+ ".txt")) = false).
      rewrite prefix_slash_cons. destruct (ascii_dec "/" y); congruence.
    + change (String.prefix "/" (String x (hn +:+ String y "")) = false) in Hrel.
      change (String.prefix "/"
                (String x (hn +:+ String y "" +:+ "-" +:+ timestamp +:+ ".txt"))
              = false).
      rewrite prefix_slash_cons in Hrel |- *. done.
Qed.

Lemma backup_path_layout_witness :
  "/opt/marathon/backups/R1/R1-2020_01_01-00_00_00.txt" =
  script_dir lab_two_up +:+ "/backups/" +:+ "R1" +:+ "/" +:+
  "R1" +:+ "-" +:+ stamp +:+ ".txt".
Proof.
  apply (backup_path_layout "R1" stamp lab_two_up "/opt/maratho" "R"
           "n"%char "1"%char).
  - reflexivity.
  - discriminate.
  - reflexivity.
  - discriminate.
  - reflexivity.
  - vm_compute; reflexivity.
Defined.

(** *** Opening the session *)

(** X19.  A row that lacks one of the columns ip, username, password,
    device_type makes [connect_to_device] raise KeyError for a missing
    column before the network is contacted: the world is left as it was
    and no session is opened. *)
Theorem connect_to_device_missing_key (d : gmap string string) w :
  d !! "ip" = None ∨ d !! "username" = None ∨ d !! "password" = None ∨
  d !! "device_type" = None →
  ∃ key, connect_to_device d w = (Raise (KeyError key), w) ∧ d !! key = None.
Proof.
  intros H. unfold connect_to_device, getitem.
  destruct (d !! "ip") as [ip|] eqn:Eip; [| by exists "ip"].
  destruct (d !! "username") as [u|] eqn:Eu; [| by exists "username"].
  destruct (d !! "password") as [p|] eqn:Ep; [| by exists "password"].
  destruct (d !! "device_type") as [t|] eqn:Et; [| by exists "device_type"].
  by destruct H as [|[|[|]]].
Qed.

Lemma connect_to_device_missing_key_witness :
  ∃ key, connect_to_device {[ "ip" := "10.0.0.1" ]} lab_two_up
           = (Raise (KeyError key), lab_two_up) ∧
         ({[ "ip" := "10.0.0.1" ]} : gmap string string) !! key = None.
Proof.
  apply (connect_to_device_missing_key {[ "ip" := "10.0.0.1" ]} lab_two_up).
  right. left. reflexivity.
Defined.

Lemma connect_to_device_run (d : gmap string string) w b
    (ip username password device_type : string) :
  d !! "ip" = Some ip → d !! "username" = Some username →
  d !! "password" = Some password → d !! "device_type" = Some device_type →
  network w ip username password device_type = Ok b →
  ∃ w',
    connect_to_device d w = (Ok (length (sessions w)), w') ∧
    sessions w' = sessions w ++ [mkConnection b [] true] ∧
    stdout w' = stdout w ++ ["Opened connection to " +:+ ip; rule; ""] ∧
    fs w' = fs w ∧ fs_log w' = fs_log w.
Proof.
  intros Hip Hu Hp Ht Hnet. unfold connect_to_device.
  rewrite (getitem_Some _ _ _ Hip), (getitem_Some _ _ _ Hu),
    (getitem_Some _ _ _ Hp), (getitem_Some _ _ _ Ht).
  rewrite !bind_ret. rewrite bind_unfold. unfold ConnectHandler at 1.
  rewrite Hnet. cbv beta iota.
  rewrite ?bind_ret. cbv beta.
  rewrite !bind_print. eexists. split; [reflexivity |].
  simpl. rewrite <- !List.app_assoc. done.
Qed.

(** X20.  When the row has the four connection columns and the network
    accepts the session, [connect_to_device] returns a new handle: the
    session is appended, open, with nothing asked yet; the existing
    sessions are untouched and three lines are printed. *)
Theorem connect_to_device_opens (d : gmap string string) w b
    (ip username password device_type : string) :
  d !! "ip" = Some ip → d !! "username" = Some username →
  d !! "password" = Some password → d !! "device_type" = Some device_type →
  network w ip username password device_type = Ok b →
  ∃ w',
    connect_to_device d w = (Ok (length (sessions w)), w') ∧
    sessions w' = sessions w ++ [mkConnection b [] true] ∧
    stdout w' = stdout w ++ ["Opened connection to " +:+ ip; rule; ""].
Proof.
  intros Hip Hu Hp Ht Hnet.
  destruct (connect_to_device_run d w b ip username password device_type)
    as (w' & H & Hs & Hout & _); try done.
  by exists w'.
Qed.

Lemma connect_to_device_opens_witness :
  ∃ w',
    connect_to_device row_R1 lab_two_up = (Ok 0, w') ∧
    sessions w' = [mkConnection R1 [] true] ∧
    stdout w' = ["Opened connection to 10.0.0.1"; rule; ""].
Proof.
  apply (connect_to_device_opens row_R1 lab_two_up R1
           "10.0.0.1" "admin" "cisco" "cisco_ios");
    vm_compute; reflexivity.
Defined.

(** *** The whole pipeline *)

(** What a pipeline that returns has gone through. *)
Lemma process_target_inv (d : gmap string string) (timestamp : string)
    (result : list string) w record w' :
  process_target d timestamp result w = (Ok record, w') →
  ∃ conn host ntp_type pid ver cdp npe ntp w6 w7 w8,
    d !! "hostname" = Some host ∧ d !! "ntp_type" = Some ntp_type ∧
    check_cdp conn host w6 = (Ok (VStr cdp), w7) ∧
    (∃ w0, Check_NPE conn host w0 = (Ok (VStr npe), w8)) ∧
    (∃ w0 w1, config_ntp conn host ntp_type w0 = (Ok (VStr ntp), w1) ∧
              w' = set_stdout (stdout (disconnect conn w1).2 ++ [record])
                              (disconnect conn w1).2) ∧
    record = host +:+ "|" +:+ pid +:+ "|" +:+ ver +:+ "|" +:+ npe +:+ "|" +:+
             cdp +:+ "|" +:+ ntp.
Proof.
  unfold process_target. intros H.
  apply bind_Ok_inv in H as (conn & w1 & Hconn & H).
  apply bind_Ok_inv in H as (host & ? & [Hhost ->]%getitem_inv & H).
  apply bind_Ok_inv in H as (? & w2 & F2 & H).
  apply bind_Ok_inv in H as (? & ? & [Hh1 ->]%getitem_inv & H).
  apply bind_Ok_inv in H as (? & w3 & F3 & H).
  apply bind_Ok_inv in H as (? & ? & [Hh2 ->]%getitem_inv & H).
  apply bind_Ok_inv in H as (pid & w4 & F4 & H).
  apply bind_Ok_inv in H as (? & ? & [Hh3 ->]%getitem_inv & H).
  apply bind_Ok_inv in H as (ver & w5 & F5 & H).
  apply bind_Ok_inv in H as (? & ? & [Hh4 ->]%getitem_inv & H).
  apply bind_Ok_inv in H as (cdp & w6 & F6 & H).
  apply bind_Ok_inv in H as (? & ? & [Hh5 ->]%getitem_inv & H).
  apply bind_Ok_inv in H as (npe & w7 & F7 & H).
  apply bind_Ok_inv in H as (? & ? & [Hh6 ->]%getitem_inv & H).
  apply bind_Ok_inv in H as (ty & ? & [Hty ->]%getitem_inv & H).
  apply bind_Ok_inv in H as (ntp & w8 & F8 & H).
  apply bind_Ok_inv in H as (? & ? & [Hh7 ->]%getitem_inv & H).
  apply bind_Ok_inv in H as ([] & w9 & Hd & H).
  apply bind_Ok_inv in H as (host' & ? & [Hhost' ->]%getitem_inv & H).
  apply bind_Ok_inv in H as (s1 & ? & (part1 & -> & -> & ->)%add_inv & H).
  apply bind_Ok_inv in H as (s2 & ? & (part2 & -> & -> & ->)%add_inv & H).
  apply bind_Ok_inv in H as (s3 & ? & (part3 & -> & -> & ->)%add_inv & H).
  apply bind_Ok_inv in H as (s4 & ? & (part4 & -> & -> & ->)%add_inv & H).
  apply bind_Ok_inv in H as (s5 & ? & (part5 & -> & -> & ->)%add_inv & H).
  rewrite bind_print in H. injection H as <- <-.
  simplify_eq.
  unfold disconnect_from_device in Hd.
  assert (w9 = (disconnect conn w8).2) as -> by (by rewrite Hd).
  exists conn, host, ty, part1, part2, part4, part3, part5, w5, w6, w7.
  split; [done |]. split; [done |]. split; [done |].
  split; [by exists w6 |]. split.
  - exists w7, w8. split; [done |]. by rewrite !app_assoc.
  - by rewrite !app_assoc.
Qed.

(** A record the pipeline returns is made of six parts joined by "|": it
    starts with the host name of the row, its fourth part is "PE", its
    fifth "CDP is off" or "CDP is on, N peers" with N not zero, and its
    last "Clock in Sync" or "Clock not in Sync".  The record is also the
    last line printed. *)
Lemma process_target_parts (d : gmap string string) (timestamp : string)
    (result : list string) w record :
  (process_target d timestamp result w).1 = Ok record →
  ∃ host pid ver cdp ntp,
    d !! "hostname" = Some host ∧
    record = host +:+ "|" +:+ pid +:+ "|" +:+ ver +:+ "|" +:+ "PE" +:+ "|" +:+
             cdp +:+ "|" +:+ ntp ∧
    (cdp = "CDP is off" ∨
     ∃ n, n ≠ 0 ∧ cdp = "CDP is on, " +:+ pretty n +:+ " peers") ∧
    (ntp = "Clock in Sync" ∨ ntp = "Clock not in Sync") ∧
    last (stdout (process_target d timestamp result w).2) = Some record.
Proof.
  intros H.
  destruct (process_target d timestamp result w) as [r w'] eqn:E.
  simpl in H. subst r. cbn [snd]. rename E into H.
  apply process_target_inv in H
    as (conn & host & ty & pid & ver & cdp & npe & ntp & w6 & w7 & w8 &
        Hhost & Hty & Hcdp & [w0 Hnpe] & (w1 & w2 & Hntp & ->) & ->).
  apply Check_NPE_returns in Hnpe. injection Hnpe as ->.
  apply check_cdp_returns in Hcdp.
  apply config_ntp_returns in Hntp.
  exists host, pid, ver, cdp, ntp. split; [done |]. split; [done |].
  split; [| split].
  - destruct Hcdp as [[= ->] | (n & Hn & [= ->])]; [by left |].
    right. by exists n.
  - destruct Hntp as [[= ->] | [= ->]]; auto.
  - simpl. apply last_snoc.
Qed.

Lemma connect_to_device_Raise (d : gmap string string) w e w' :
  connect_to_device d w = (Raise e, w') → w' = w.
Proof.
  unfold connect_to_device, getitem.
  destruct (d !! "ip") as [ip|]; [| by intros [= _ <-]].
  destruct (d !! "username") as [u|]; [| by intros [= _ <-]].
  destruct (d !! "password") as [p|]; [| by intros [= _ <-]].
  destruct (d !! "device_type") as [t|]; [| by intros [= _ <-]].
  rewrite !bind_ret. rewrite bind_unfold. unfold ConnectHandler at 1.
  destruct (network w ip u p t); [| by intros [= _ <-]].
  rewrite ?bind_ret. cbv beta. rewrite !bind_print. done.
Qed.

(** X22.  Whatever a pipeline does, and whether it returns or raises, the
    sessions that existed before it started are left exactly as they
    were, and it adds at most one session. *)
Theorem process_target_keeps_sessions (d : gmap string string)
    (timestamp : string) (result : list string) w :
  ∃ added,
    sessions (process_target d timestamp result w).2 = sessions w ++ added ∧
    length added ≤ 1.
Proof.
  unfold process_target. rewrite bind_unfold.
  destruct (connect_to_device d w) as [[conn|e] w1] eqn:Hconn.
  - pose proof (connect_to_device_Ok _ _ _ _ Hconn) as [Hc [b Hs1]].
    lazymatch goal with
    | |- context [ (?rest w1).2 ] =>
        assert (frame conn w1 (rest w1).2) as F
    end.
    { pose proof frame_create_backup. pose proof frame_Check_dev_pid.
      pose proof frame_Check_ver. pose proof frame_check_cdp.
      pose proof frame_Check_NPE. pose proof frame_config_ntp.
      pose proof frame_get_backup_file_path.
      assert (∀ h, preserves (frame conn) (disconnect_from_device conn h))
        by (intros; apply frame_disconnect).
      lazymatch goal with
      | |- frame conn w1 (?rest w1).2 =>
          assert (preserves (frame conn) rest) as P by pres; apply P
      end. }
    destruct (closed_after_frame conn w w1 _ b Hc Hs1 F) as (s & Hs & _).
    exists [s]. split; [exact Hs | done].
  - apply connect_to_device_Raise in Hconn as ->.
    exists []. split; [by rewrite List.app_nil_r | simpl; lia].
Qed.

Lemma bind_disconnect {B} (conn : nat) (k : unit → M B) (w : World) :
  (disconnect conn ≫= k) w = k tt (disconnect conn w).2.
Proof. reflexivity. Qed.

(** A reachable, healthy device on a sound file system: the pipeline
    returns. *)
Lemma process_target_live (d : gmap string string) (timestamp : string)
    (result : list string) w b :
  reachable w d b → healthy b → fs_sound w →
  ∃ record w', process_target d timestamp result w = (Ok record, w').
Proof.
  intros ([host Hhost] & [ty Hty] & ip & u & p & t & Hip & Hu & Hp & Ht & Hnet)
         (Hb & Hbanner & Hparse) Hfs.
  destruct (connect_to_device_run d w b ip u p t)
    as (w1 & Hc & Hs1 & _ & Hfs1 & _); try done.
  set (conn := length (sessions w)) in *.
  assert (session_at conn b [] w1) as S1.
  { unfold session_at. rewrite Hs1. by apply list_lookup_middle. }
  (* the backup path *)
  set (dir := Os.path_join (Os.path_join (script_dir w1) "backups") host).
  assert (∃ present, fs w1 (PathExists dir :: fs_log w1) = Ok present)
    as [present Hpresent] by (rewrite Hfs1; apply Hfs).
  destruct (get_backup_file_path_run host timestamp w1 present)
    as (w2 & Hg & _ & Hsess2 & Hfs2); [done | |].
  { intros _. rewrite Hfs1. apply Hfs. }
  assert (session_at conn b [] w2) as S2.
  { unfold session_at. by rewrite Hsess2. }
  (* the backup *)
  destruct (Hb [SendCommand "sh run"; Enable]) as [output Hout].
  set (path := Os.path_join dir (host +:+ "-" +:+ timestamp +:+ ".txt")) in *.
  assert (∃ ok, fs w2 (WriteFile path output :: fs_log w2) = Ok ok)
    as [ok Hok] by (rewrite Hfs2, Hfs1; apply Hfs).
  destruct (create_backup_run conn path host b [] w2 output ok)
    as (w3 & Hb3 & _ & S3); try done.
  (* platform and version *)
  destruct (Hb (SendCommand "sho ver | in IOS" :: Enable ::
                [SendCommand "sh run"; Enable])) as [ban1 Hban1].
  destruct (Check_dev_pid_ok conn host b _ w3 ban1 S3 Hb Hban1 (Hbanner _ _ Hban1))
    as (pid & w4 & H4 & S4).
  destruct (Hb (SendCommand "sho ver | in IOS" :: Enable ::
                SendCommand "sho ver | in IOS" :: Enable ::
                [SendCommand "sh run"; Enable])) as [ban2 Hban2].
  destruct (Hbanner _ _ Hban2) as (f0 & f1 & f2 & tail & -> & K0 & K1 & K2 & Kt).
  destruct (Check_ver_run conn host b _ w4 f0 f1 f2 tail S4 Hb Hban2 K0 K1 K2 Kt)
    as (w5 & H5 & S5).
  (* topology, licensing, time *)
  destruct (check_cdp_run conn host b _ w5 S5 Hb Hparse)
    as (cdp & h6 & w6 & H6 & S6).
  destruct (Check_NPE_live conn host b _ w6 S6 Hb) as (w7 & H7 & S7).
  destruct (config_ntp_run conn host ty b _ w7 S7 Hb)
    as (out & h8 & w8 & H8 & S8 & _).
  unfold process_target, disconnect_from_device.
  rewrite (getitem_Some _ _ _ Hhost), (getitem_Some _ _ _ Hty).
  rewrite (bind_Ok _ _ _ _ _ Hc). cbv beta.
  rewrite bind_ret. cbv beta. rewrite (bind_Ok _ _ _ _ _ Hg). cbv beta.
  rewrite bind_ret. cbv beta. rewrite (bind_Ok _ _ _ _ _ Hb3). cbv beta.
  rewrite bind_ret. cbv beta. rewrite (bind_Ok _ _ _ _ _ H4). cbv beta.
  rewrite bind_ret. cbv beta. rewrite (bind_Ok _ _ _ _ _ H5). cbv beta.
  rewrite bind_ret. cbv beta. rewrite (bind_Ok _ _ _ _ _ H6). cbv beta.
  rewrite bind_ret. cbv beta. rewrite (bind_Ok _ _ _ _ _ H7). cbv beta.
  rewrite !bind_ret. cbv beta. rewrite (bind_Ok _ _ _ _ _ H8). cbv beta.
  rewrite bind_ret. cbv beta. rewrite bind_disconnect.
  rewrite bind_ret. cbv beta. cbn [add].
  rewrite !bind_ret. cbv beta. rewrite bind_print.
  by eexists _, _.
Qed.

(** X23.  When the row has the six columns, the network accepts the
    session, the device answers every call with a version banner of at
    least two commas and a neighbor table that parses, and every call on
    the file system succeeds, the pipeline returns a record. *)
Theorem process_target_returns (d : gmap string string) (timestamp : string)
    (result : list string) w b :
  reachable w d b → healthy b → fs_sound w →
  ∃ record, (process_target d timestamp result w).1 = Ok record.
Proof.
  intros Hr Hh Hfs.
  destruct (process_target_live d timestamp result w b Hr Hh Hfs)
    as (record & w' & H).
  exists record. by rewrite H.
Qed.

Lemma router_healthy (no_cdp banner neighbors ntp_status : string) :
  banner_ok banner → is_Ok (parse_cdp_nei neighbors) = true →
  healthy (router no_cdp banner neighbors ntp_status).
Proof.
  intros Hbanner Hparse. split; [apply StepClaims.router_answers |].
  split; intros h out H; unfold router in H; simpl in H; by injection H as <-.
Qed.

Lemma banner_k9_ok : banner_ok banner_k9.
Proof.
  exists "Cisco IOS Software", " 3700 Software (C3725-ADVENTERPRISEK9-M)",
    " Version 12.4(15)T14", ", RELEASE SOFTWARE (fc2)".
  repeat split; try (vm_compute; reflexivity). right. by eexists.
Qed.

Lemma banner_npe_ok : banner_ok banner_npe.
Proof.
  exists "Cisco IOS Software", " C2960 Software (C2960-LANBASE-M)",
    " Version 12.2(44)SE6", ", RELEASE SOFTWARE (fc1)".
  repeat split; try (vm_compute; reflexivity). right. by eexists.
Qed.

Lemma R1_healthy : healthy R1.
Proof. apply router_healthy; [apply banner_k9_ok | vm_compute; reflexivity]. Qed.

Lemma SW1_healthy : healthy SW1.
Proof. apply router_healthy; [apply banner_npe_ok | vm_compute; reflexivity]. Qed.

Lemma lab_reachable_R1 : reachable lab_two_up row_R1 R1.
Proof.
  split; [by eexists |]. split; [by eexists |].
  exists "10.0.0.1", "admin", "cisco", "cisco_ios".
  repeat split; vm_compute; reflexivity.
Qed.

Lemma lab_reachable_SW1 : reachable lab_two_up row_SW1 SW1.
Proof.
  split; [by eexists |]. split; [by eexists |].
  exists "10.0.0.2", "admin", "cisco", "cisco_ios".
  repeat split; vm_compute; reflexivity.
Qed.

Lemma lab_fs_sound : fs_sound lab_two_up.
Proof. intros l. by exists true. Qed.

Lemma process_target_returns_witness :
  ∃ record, (process_target row_R1 stamp [] lab_two_up).1 = Ok record.
Proof.
  apply (process_target_returns row_R1 stamp [] lab_two_up R1).
  - apply lab_reachable_R1.
  - apply R1_healthy.
  - apply lab_fs_sound.
Defined.

(** The topology step on a device whose neighbor answer is known. *)
Lemma check_cdp_value (conn : nat) (hostname : string) (b : behaviour)
    (h : list call) (w : World) (neighbors : string) (parsed : relations) :
  session_at conn b h w → answers b →
  (∀ h', b (SendCommand "sho cdp neigh" :: h') = Ok neighbors) →
  parse_cdp_nei neighbors = Ok parsed →
  ∃ h' w',
    check_cdp conn hostname w =
      (Ok (VStr (if size parsed =? 0 then "CDP is off"
                 else "CDP is on, " +:+ pretty (size parsed) +:+ " peers")), w') ∧
    session_at conn b h' w'.
Proof.
  intros Hs Hb Hn Hparse. unfold check_cdp. rewrite try_except_Error.
  unfold enable, send_config_set, send_command.
  call Hb. call Hb.
  destruct (negb (contains "no cdp run" out0));
    flat; try call Hb; say; say; call Hb;
    (lazymatch goal with
     | E : b (SendCommand "sho cdp neigh" :: ?hh) = Ok ?o |- _ =>
         rewrite Hn in E; injection E as <-
     end;
     rewrite bind_unfold; unfold lift; rewrite Hparse; cbv zeta;
     destruct (size parsed =? 0); cbn;
     (eexists _, _; (split; [reflexivity | exact Hs]))).
Qed.

(** The pipeline on a reachable, steady device: the record in full. *)
Lemma process_target_exact (d : gmap string string) (timestamp : string)
    (result : list string) (w : World) (b : behaviour)
    (host banner pid ver neighbors status : string) (parsed : relations) :
  reachable w d b → d !! "hostname" = Some host → fs_sound w →
  steady b banner neighbors status →
  banner_fields banner pid ver →
  parse_cdp_nei neighbors = Ok parsed →
  let record :=
    host +:+ "|" +:+ pid +:+ "|" +:+ ver +:+ "|" +:+ "PE" +:+ "|" +:+
    (if size parsed =? 0 then "CDP is off"
     else "CDP is on, " +:+ pretty (size parsed) +:+ " peers") +:+ "|" +:+
    (if contains "Clock is synchronized" status
     then "Clock in Sync" else "Clock not in Sync") in
  ∃ w', process_target d timestamp result w = (Ok record, w') ∧
        last (stdout w') = Some record.
Proof.
  intros (_ & [ty Hty] & ip & u & p & t & Hip & Hu & Hp & Ht & Hnet) Hhost Hfs
         (Hb & Hver & Hnei & Hntp)
         (f0 & rest & tail & -> & K0 & K1 & K2 & Kt & Kp & Krest) Hparse record.
  destruct (connect_to_device_run d w b ip u p t)
    as (w1 & Hc & Hs1 & _ & Hfs1 & _); try done.
  set (conn := length (sessions w)) in *.
  assert (session_at conn b [] w1) as S1.
  { unfold session_at. rewrite Hs1. by apply list_lookup_middle. }
  set (dir := Os.path_join (Os.path_join (script_dir w1) "backups") host).
  assert (∃ present, fs w1 (PathExists dir :: fs_log w1) = Ok present)
    as [present Hpresent] by (rewrite Hfs1; apply Hfs).
  destruct (get_backup_file_path_run host timestamp w1 present)
    as (w2 & Hg & _ & Hsess2 & Hfs2); [done | |].
  { intros _. rewrite Hfs1. apply Hfs. }
  assert (session_at conn b [] w2) as S2.
  { unfold session_at. by rewrite Hsess2. }
  destruct (Hb [SendCommand "sh run"; Enable]) as [output Hout].
  set (path := Os.path_join dir (host +:+ "-" +:+ timestamp +:+ ".txt")) in *.
  assert (∃ ok, fs w2 (WriteFile path output :: fs_log w2) = Ok ok)
    as [ok Hok] by (rewrite Hfs2, Hfs1; apply Hfs).
  destruct (create_backup_run conn path host b [] w2 output ok)
    as (w3 & Hb3 & _ & S3); try done.
  destruct (Check_dev_pid_run conn host b _ w3 f0 pid rest
              ("," +:+ ver +:+ tail) S3 Hb (Hver _) K0 K1)
    as (w4 & H4 & S4); [right; by eexists | done | done |].
  destruct (Check_ver_run conn host b _ w4 f0 (pid +:+ rest) ver tail S4 Hb
              (Hver _) K0 K1 K2 Kt)
    as (w5 & H5 & S5).
  destruct (check_cdp_value conn host b _ w5 neighbors parsed S5 Hb Hnei Hparse)
    as (h6 & w6 & H6 & S6).
  destruct (Check_NPE_live conn host b _ w6 S6 Hb) as (w7 & H7 & S7).
  destruct (config_ntp_run conn host ty b _ w7 S7 Hb)
    as (out & h8 & w8 & H8 & S8 & Hout8).
  rewrite Hntp in Hout8. injection Hout8 as <-.
  unfold process_target, disconnect_from_device.
  rewrite (getitem_Some _ _ _ Hhost), (getitem_Some _ _ _ Hty).
  rewrite (bind_Ok _ _ _ _ _ Hc). cbv beta.
  rewrite bind_ret. cbv beta. rewrite (bind_Ok _ _ _ _ _ Hg). cbv beta.
  rewrite bind_ret. cbv beta. rewrite (bind_Ok _ _ _ _ _ Hb3). cbv beta.
  rewrite bind_ret. cbv beta. rewrite (bind_Ok _ _ _ _ _ H4). cbv beta.
  rewrite bind_ret. cbv beta. rewrite (bind_Ok _ _ _ _ _ H5). cbv beta.
  rewrite bind_ret. cbv beta. rewrite (bind_Ok _ _ _ _ _ H6). cbv beta.
  rewrite bind_ret. cbv beta. rewrite (bind_Ok _ _ _ _ _ H7). cbv beta.
  rewrite !bind_ret. cbv beta. rewrite (bind_Ok _ _ _ _ _ H8). cbv beta.
  rewrite bind_ret. cbv beta. rewrite bind_disconnect.
  rewrite bind_ret. cbv beta. cbn [add].
  rewrite !bind_ret. cbv beta. rewrite bind_print.
  eexists. split.
  - unfold mret, M_ret. f_equal. f_equal. unfold record. by rewrite !app_assoc.
  - simpl. rewrite last_snoc. f_equal. unfold record. by rewrite !app_assoc.
Qed.

(** X21.  When the row has the six columns, the network accepts the
    session, every call on the file system succeeds, and the device
    answers every call, always with the same version banner, neighbor
    text and clock status, of which the neighbor text parses, the pipeline
    returns the record hostname|pid|ver|npe|cdp|ntp in this order: pid is
    the second comma-separated field of the banner up to the word
    "Software", ver is its third field, npe is "PE", cdp is "CDP is off"
    when the parser found no relation and "CDP is on, N peers" for N
    relations otherwise, and ntp is "Clock in Sync" when the status
    contains "Clock is synchronized" and "Clock not in Sync" otherwise.
    The record is also the last line printed. *)
Theorem process_target_record (d : gmap string string) (timestamp : string)
    (result : list string) (w : World) (b : behaviour)
    (host banner pid ver neighbors status : string) (parsed : relations) :
  reachable w d b → d !! "hostname" = Some host → fs_sound w →
  steady b banner neighbors status →
  banner_fields banner pid ver →
  parse_cdp_nei neighbors = Ok parsed →
  let record :=
    host +:+ "|" +:+ pid +:+ "|" +:+ ver +:+ "|" +:+ "PE" +:+ "|" +:+
    (if size parsed =? 0 then "CDP is off"
     else "CDP is on, " +:+ pretty (size parsed) +:+ " peers") +:+ "|" +:+
    (if contains "Clock is synchronized" status
     then "Clock in Sync" else "Clock not in Sync") in
  (process_target d timestamp result w).1 = Ok record ∧
  last (stdout (process_target d timestamp result w).2) = Some record.
Proof.
  intros Hr Hhost Hfs Hb Hbanner Hparse record.
  destruct (process_target_exact d timestamp result w b host banner pid ver
              neighbors status parsed Hr Hhost Hfs Hb Hbanner Hparse)
    as (w' & H & Hlast).
  rewrite H. done.
Qed.

Lemma process_target_record_witness :
  (process_target row_R1 stamp [] lab_two_up).1 =
    Ok "R1| 3700 | Version 12.4(15)T14|PE|CDP is on, 1 peers|Clock in Sync" ∧
  last (stdout (process_target row_R1 stamp [] lab_two_up).2) =
    Some "R1| 3700 | Version 12.4(15)T14|PE|CDP is on, 1 peers|Clock in Sync".
Proof.
  assert ("R1| 3700 | Version 12.4(15)T14|PE|CDP is on, 1 peers|Clock in Sync" =
          "R1" +:+ "|" +:+ " 3700 " +:+ "|" +:+ " Version 12.4(15)T14" +:+ "|" +:+
          "PE" +:+ "|" +:+
          (if size ({[ ("R1", "Gig0/1") := ("R2", "Gig0/2") ]} : relations) =? 0
           then "CDP is off"
           else "CDP is on, " +:+
                pretty (size ({[ ("R1", "Gig0/1") := ("R2", "Gig0/2") ]} : relations))
                +:+ " peers") +:+ "|" +:+
          (if contains "Clock is synchronized" ntp_synced
           then "Clock in Sync" else "Clock not in Sync")) as ->
    by (vm_compute; reflexivity).
  apply (process_target_record row_R1 stamp [] lab_two_up R1 "R1" banner_k9
           " 3700 " " Version 12.4(15)T14" neighbors_R1 ntp_synced
           {[ ("R1", "Gig0/1") := ("R2", "Gig0/2") ]}).
  - apply lab_reachable_R1.
  - reflexivity.
  - apply lab_fs_sound.
  - split; [apply StepClaims.router_answers |].
    split; [| split]; intros h; reflexivity.
  - exists "Cisco IOS Software", "Software (C3725-ADVENTERPRISEK9-M)",
      ", RELEASE SOFTWARE (fc2)".
    split; [reflexivity |].
    split; [vm_compute; reflexivity |]. split; [vm_compute; reflexivity |].
    split; [vm_compute; reflexivity |]. split; [right; by eexists |].
    split; [vm_compute; reflexivity |]. right. by eexists.
  - vm_compute; reflexivity.
Defined.

End PipelineExtras.

(** ** More on the run as a whole *)

Module SchedulerExtras.
Import PyStr Notions Netmiko Marathon Samples More PyStrFacts ParserFacts
  RunFacts StepExtras PipelineExtras.

Lemma fs_process_target d timestamp result :
  preserves same_fs (process_target d timestamp result).
Proof.
  unfold process_target, connect_to_device, get_backup_file_path,
    BACKUP_DIR_PATH, create_backup, Check_dev_pid, Check_ver, check_cdp,
    Check_NPE, config_ntp, disconnect_from_device, enable, send_command,
    send_config_set, Os.path_exists, Os.mkdir, Os.write_file.
  pres.
Qed.

Lemma fs_started w : same_fs w (started w).
Proof.
  unfold started. eapply preserves_run; [| apply surjective_pairing].
  unfold get_current_date_and_time, get_devices_from_file. pres.
Qed.

Lemma reachable_env w w' d b :
  same_env w w' → reachable w d b → reachable w' d b.
Proof.
  intros (Hn & _) (? & ? & ip & u & p & t & ? & ? & ? & ? & ?).
  split; [done |]. split; [done |].
  exists ip, u, p, t. rewrite Hn. done.
Qed.

Lemma fs_sound_same w w' : same_fs w w' → fs_sound w → fs_sound w'.
Proof. unfold same_fs, fs_sound. intros -> H. exact H. Qed.

Lemma submit_all_live (rows : list (gmap string string)) (timestamp : string)
    (result : list string) w :
  (∀ d, d ∈ rows → ∃ b, reachable w d b ∧ healthy b) → fs_sound w →
  ∃ records w',
    submit_all rows timestamp result w = (Ok (Ok <$> records), w') ∧
    length records = length rows ∧ same_fs w w'.
Proof.
  revert w. induction rows as [|d rows IH]; intros w Hall Hfs.
  - by exists [], w.
  - destruct (Hall d) as (b & Hr & Hh); [left |].
    destruct (process_target_live d timestamp result w b Hr Hh Hfs)
      as (record & w1 & Hrun).
    assert (same_env w w1) as Env
      by (eapply preserves_run; [apply env_process_target | exact Hrun]).
    assert (same_fs w w1) as Fs
      by (eapply preserves_run; [apply fs_process_target | exact Hrun]).
    destruct (IH w1) as (records & w' & Hsub & Hlen & Fs').
    + intros d' Hd'. destruct (Hall d') as (b' & Hr' & Hh'); [by right |].
      exists b'. split; [by eapply reachable_env | done].
    + by eapply fs_sound_same.
    + exists (record :: records), w'. split; [| split].
      * cbn [submit_all]. rewrite bind_unfold. unfold apply_async at 1.
        rewrite Hrun. rewrite bind_unfold, Hsub. done.
      * simpl. by rewrite Hlen.
      * by etrans.
Qed.

(** X24.  When every row of the inventory is reachable and its device
    healthy, and the file system is sound, the run gathers one record per
    row and ends without an exception after writing the result file. *)
Theorem main_healthy_inventory w (rows : list (gmap string string)) :
  csv_rows w DEVICE_FILE_PATH = Ok rows →
  (∀ d, d ∈ rows → ∃ b, reachable w d b ∧ healthy b) →
  fs_sound w →
  ∃ records,
    (gather w).1 = Ok records ∧ length records = length rows ∧
    (main w).1 = Ok tt ∧
    written_to (Os.path_join (script_dir w) "result.txt") (fs_log (main w).2)
      !! 0 = Some (join nl records).
Proof.
  intros Hrows Hall Hfs.
  destruct (submit_all_live rows (now w) [] (started w))
    as (records & w' & Hsub & Hlen & Fs).
  { intros d Hd. destruct (Hall d Hd) as (b & Hr & Hh). exists b.
    split; [| done]. eapply reachable_env; [apply started_env | done]. }
  { eapply fs_sound_same; [apply fs_started | done]. }
  assert (gather w = (Ok records, w')) as Hgather.
  { rewrite (gather_run _ _ Hrows), bind_unfold, Hsub.
    apply (collect_Ok records []). }
  assert (same_env w w') as Env.
  { etrans; [apply started_env |].
    destruct (submit_all_run rows (now w) [] (started w))
      as (ps & w'' & Hsub' & Env & _).
    rewrite Hsub in Hsub'. by injection Hsub' as _ <-. }
  exists records. rewrite main_run, Hgather. split; [done |]. split; [done |].
  assert (fs_sound w') as Hfs'.
  { eapply fs_sound_same; [| exact Hfs]. etrans; [apply fs_started | exact Fs]. }
  destruct Env as (_ & _ & Hsd & _). rewrite Hsd.
  unfold Os.write_file. rewrite bind_fs_do.
  destruct (Hfs' (WriteFile (Os.path_join (script_dir w) "result.txt")
                            (join nl records) :: fs_log w')) as [ok ->].
  split; [done |]. simpl. by rewrite String.eqb_refl.
Qed.

Lemma main_healthy_inventory_witness :
  ∃ records,
    (gather lab_two_up).1 = Ok records ∧ length records = 2 ∧
    (main lab_two_up).1 = Ok tt ∧
    written_to (Os.path_join (script_dir lab_two_up) "result.txt")
               (fs_log (main lab_two_up).2) !! 0 = Some (join nl records).
Proof.
  apply (main_healthy_inventory lab_two_up [row_R1; row_SW1]).
  - reflexivity.
  - intros d [->|[->|[]%elem_of_nil]%elem_of_cons]%elem_of_cons.
    + exists R1. split; [apply lab_reachable_R1 | apply R1_healthy].
    + exists SW1. split; [apply lab_reachable_SW1 | apply SW1_healthy].
  - apply lab_fs_sound.
Defined.

(** X25.  With an empty inventory the run opens no session and writes an
    empty result file. *)
Theorem main_empty_inventory w :
  csv_rows w DEVICE_FILE_PATH = Ok [] →
  main w = Os.write_file (Os.path_join (script_dir w) "result.txt") ""
                         (started w) ∧
  sessions (main w).2 = sessions w ∧
  fs_log (main w).2 =
    WriteFile (Os.path_join (script_dir w) "result.txt") "" :: fs_log w.
Proof.
  intros Hrows.
  assert (gather w = (Ok [], started w)) as Hgather
    by (by rewrite (gather_run _ _ Hrows)).
  assert (main w = Os.write_file (Os.path_join (script_dir w) "result.txt") ""
                                 (started w)) as Hmain.
  { rewrite main_run, Hgather.
    by destruct (started_env w) as (_ & _ & -> & _). }
  split; [done |]. rewrite Hmain.
  unfold Os.write_file. rewrite bind_fs_do.
  unfold started, get_current_date_and_time, get_devices_from_file.
  unfold mbind, M_bind, mret, M_ret, print, world, lift; simpl.
  rewrite Hrows. simpl. by destruct (fs w _).
Qed.

Lemma main_empty_inventory_witness :
  main (lab R1 SW1 fs_ready []) =
    Os.write_file
      (Os.path_join (script_dir (lab R1 SW1 fs_ready [])) "result.txt") ""
      (started (lab R1 SW1 fs_ready [])) ∧
  sessions (main (lab R1 SW1 fs_ready [])).2 = sessions (lab R1 SW1 fs_ready []) ∧
  fs_log (main (lab R1 SW1 fs_ready [])).2 =
    WriteFile (Os.path_join (script_dir (lab R1 SW1 fs_ready [])) "result.txt") ""
      :: fs_log (lab R1 SW1 fs_ready []).
Proof.
  apply (main_empty_inventory (lab R1 SW1 fs_ready [])). reflexivity.
Defined.

(** X26.  When the inventory file cannot be read, the run ends with the
    error of the read: no session is opened and the file system is not
    touched. *)
Theorem main_unreadable_inventory w (e : exn) :
  csv_rows w DEVICE_FILE_PATH = Raise e →
  (main w).1 = Raise e ∧
  sessions (main w).2 = sessions w ∧
  fs_log (main w).2 = fs_log w.
Proof.
  intros Hrows. unfold main, gather, get_current_date_and_time,
    get_devices_from_file.
  unfold mbind, M_bind, mret, M_ret, print, world, lift; simpl.
  by rewrite Hrows.
Qed.

Lemma main_unreadable_inventory_witness :
  (main (on_line R1)).1 = Raise (OSError "FileNotFoundError") ∧
  sessions (main (on_line R1)).2 = sessions (on_line R1) ∧
  fs_log (main (on_line R1)).2 = fs_log (on_line R1).
Proof.
  apply (main_unreadable_inventory (on_line R1)). reflexivity.
Defined.

Lemma collect_first_Raise (records : list string) (e : exn)
    (rest : list (result string)) (acc : list string) w :
  collect ((Ok <$> records) ++ Raise e :: rest) acc w = (Raise e, w).
Proof.
  revert acc. induction records as [|r records IH]; intros acc; [done |].
  cbn [fmap list_fmap app collect]. unfold get. rewrite bind_unfold.
  cbn [lift]. apply IH.
Qed.

(** X27.  When tasks fail, the run ends with the exception of the first
    failed task in inventory order, whatever the tasks after it did. *)
Theorem main_first_failure w (rows : list (gmap string string))
    (records : list string) (e : exn) (rest : list (result string)) :
  csv_rows w DEVICE_FILE_PATH = Ok rows →
  outcomes w rows = (Ok <$> records) ++ Raise e :: rest →
  (gather w).1 = Raise e ∧ (main w).1 = Raise e.
Proof.
  intros Hrows Hout.
  destruct (outcomes_run w rows) as (w' & Hsub & _).
  assert (gather w = (Raise e, w')) as Hgather.
  { rewrite (gather_run _ _ Hrows), bind_unfold, Hsub, Hout.
    apply collect_first_Raise. }
  by rewrite main_run, Hgather.
Qed.

Lemma main_first_failure_witness :
  (gather lab_first_down).1 = Raise (DeviceError "TCP connection to device failed") ∧
  (main lab_first_down).1 = Raise (DeviceError "TCP connection to device failed").
Proof.
  apply (main_first_failure lab_first_down [row_down; row_R1; row_SW1] []
    (DeviceError "TCP connection to device failed")
    [Ok "R1| 3700 | Version 12.4(15)T14|PE|CDP is on, 1 peers|Clock in Sync";
     Ok "SW1| C2960 | Version 12.2(44)SE6|PE|CDP is on, 1 peers|Clock not in Sync"]).
  - reflexivity.
  - vm_compute; reflexivity.
Defined.

End SchedulerExtras.
